(** * Pionex futures grid bot: the position ledger and the two decision loops

    A shallow embedding of [pionex_futures_grid_bot.py] (class
    [PionexFuturesGridBot]) and the properties its specification states.

    Modelling conventions.
    - Python floats are read as exact rationals ([Q]); comparisons are the
      boolean tests of [QArith].  Rounding, infinities and NaN are outside
      the model, so an equation proved here is the real-arithmetic identity
      the float computation approximates.
    - A Python exception is an [outcome]: a method of the bot is a function
      from the bot's state to an outcome and the state at the point where
      the method returned or raised (mutations made before a raise stay).
    - [random.uniform(0.5, 1.5)] is an explicit argument [u] (one draw per
      simulated order); the loops take the sequence of draws as a function
      of the draw's index.
    - Telegram messages and log lines are not modelled, except that the
      arithmetic evaluated while a message is built is (a division there
      can raise).
    - A name the source reads without ever binding it raises, as it does
      in Python: the attribute [trailing_stop_pct] read by [execute_trade]
      is assigned nowhere in the repository, so the bot records whether
      somebody has assigned it ([None] after [__init__]); the four names
      [grid_sell_pnl], [grid_sell_pct], [tp_pnl], [tp_pct] formatted into
      the closing notification are neither locals nor globals, so building
      that notification raises [NameError]. *)

From Stdlib Require Import QArith Qabs ZArith List String Bool Lia Lqa.
Import ListNotations.
Open Scope Q_scope.

(** ** Python values and exceptions *)

Inductive exn : Type :=
| ZeroDivisionError
| AttributeError
| NameError
| ValueError.

Inductive outcome (A : Type) : Type :=
| Return (a : A)
| Raise (e : exn).
Arguments Return {A} a.
Arguments Raise {A} e.

(** [x / y] on floats raises when the divisor compares equal to zero. *)
Definition py_div (x y : Q) : outcome Q :=
  if Qeq_bool y 0 then Raise ZeroDivisionError else Return (x / y).

Definition py_eq (x y : Q) : bool := Qeq_bool x y.
Definition py_le (x y : Q) : bool := Qle_bool x y.
Definition py_lt (x y : Q) : bool := negb (Qle_bool y x).

(** [max(a, b)] keeps [a] unless [b > a]; [min(a, b)] keeps [a] unless
    [b < a]. *)
Definition py_max (a b : Q) : Q := if py_lt a b then b else a.
Definition py_min (a b : Q) : Q := if py_lt b a then b else a.

(** ** Data model *)

(** [config['grid_lower_price']] and [config['grid_upper_price']] hold
    either the string "auto" or a number. *)
Inductive bound : Type :=
| Auto
| Price (q : Q).

(** [float(x)] on a configured bound. *)
Definition float_of_bound (x : bound) : outcome Q :=
  match x with
  | Auto => Raise ValueError
  | Price q => Return q
  end.

(** The keys of [self.config] the engine reads. *)
Module Config.
Record t : Type := mk {
  initial_balance : Q;
  leverage : Q;
  grid_lower_price : bound;
  grid_upper_price : bound;
  grid_count : Z;
  investment_amount : Q;
  mode : string;
  fee_rate : Q;
  funding_rate : Q;
  liquidation_buffer : Q;
  stop_loss_pct : Q;
  take_profit_pct : Q
}.

Definition set_grid_range (lo hi : Q) (c : t) : t :=
  mk (initial_balance c) (leverage c) (Price lo) (Price hi)
     (grid_count c) (investment_amount c) (mode c) (fee_rate c)
     (funding_rate c) (liquidation_buffer c) (stop_loss_pct c)
     (take_profit_pct c).
End Config.

(** The dict built by [execute_trade]. *)
Module Position.
Record t : Type := mk {
  id : nat;
  side : string;
  entry_price : Q;
  size : Q;
  timestamp : Z;
  leverage : Q;
  buy_fee : Q;
  trailing_stop : Q;
  trailing_high : Q
}.

(** Equality of two position dicts, as [list.remove] tests it. *)
Definition eqb (p q : t) : bool :=
  Nat.eqb (id p) (id q) && String.eqb (side p) (side q)
  && py_eq (entry_price p) (entry_price q) && py_eq (size p) (size q)
  && Z.eqb (timestamp p) (timestamp q) && py_eq (leverage p) (leverage q)
  && py_eq (buy_fee p) (buy_fee q)
  && py_eq (trailing_stop p) (trailing_stop q)
  && py_eq (trailing_high p) (trailing_high q).
End Position.

(** The dict appended to [self.trades] by [close_position]. *)
Module Trade.
Record t : Type := mk {
  timestamp : Z;
  side : string;
  price : Q;
  size : Q;
  fee : Q;
  pnl : Q;
  leverage : Q
}.
End Trade.

(** The attributes of a [PionexFuturesGridBot] the ledger and the loops
    use.  [grid_prices] is [None] until [run_backtest] or
    [start_live_trading] assigns it; [trailing_stop_pct] is [None] until
    code outside the repository assigns it. *)
Record Bot : Type := mkBot {
  config : Config.t;
  positions : list Position.t;
  trades : list Trade.t;
  total_fees : Q;
  funding_fees : Q;
  liquidated_positions : nat;
  start_balance : Q;
  current_balance : Q;
  grid_prices : option (list Q);
  current_price : option Q;
  slippage_rate : Q;
  spread_rate : Q;
  order_failure_rate : Q;
  trailing_stop_pct : option Q
}.

Definition set_config (v : Config.t) (b : Bot) : Bot :=
  mkBot v (positions b) (trades b) (total_fees b) (funding_fees b)
        (liquidated_positions b) (start_balance b) (current_balance b)
        (grid_prices b) (current_price b) (slippage_rate b) (spread_rate b)
        (order_failure_rate b) (trailing_stop_pct b).

Definition set_positions (v : list Position.t) (b : Bot) : Bot :=
  mkBot (config b) v (trades b) (total_fees b) (funding_fees b)
        (liquidated_positions b) (start_balance b) (current_balance b)
        (grid_prices b) (current_price b) (slippage_rate b) (spread_rate b)
        (order_failure_rate b) (trailing_stop_pct b).

Definition set_trades (v : list Trade.t) (b : Bot) : Bot :=
  mkBot (config b) (positions b) v (total_fees b) (funding_fees b)
        (liquidated_positions b) (start_balance b) (current_balance b)
        (grid_prices b) (current_price b) (slippage_rate b) (spread_rate b)
        (order_failure_rate b) (trailing_stop_pct b).

Definition set_total_fees (v : Q) (b : Bot) : Bot :=
  mkBot (config b) (positions b) (trades b) v (funding_fees b)
        (liquidated_positions b) (start_balance b) (current_balance b)
        (grid_prices b) (current_price b) (slippage_rate b) (spread_rate b)
        (order_failure_rate b) (trailing_stop_pct b).

Definition set_funding_fees (v : Q) (b : Bot) : Bot :=
  mkBot (config b) (positions b) (trades b) (total_fees b) v
        (liquidated_positions b) (start_balance b) (current_balance b)
        (grid_prices b) (current_price b) (slippage_rate b) (spread_rate b)
        (order_failure_rate b) (trailing_stop_pct b).

Definition set_liquidated_positions (v : nat) (b : Bot) : Bot :=
  mkBot (config b) (positions b) (trades b) (total_fees b) (funding_fees b)
        v (start_balance b) (current_balance b)
        (grid_prices b) (current_price b) (slippage_rate b) (spread_rate b)
        (order_failure_rate b) (trailing_stop_pct b).

Definition set_current_balance (v : Q) (b : Bot) : Bot :=
  mkBot (config b) (positions b) (trades b) (total_fees b) (funding_fees b)
        (liquidated_positions b) (start_balance b) v
        (grid_prices b) (current_price b) (slippage_rate b) (spread_rate b)
        (order_failure_rate b) (trailing_stop_pct b).

Definition set_grid_prices (v : option (list Q)) (b : Bot) : Bot :=
  mkBot (config b) (positions b) (trades b) (total_fees b) (funding_fees b)
        (liquidated_positions b) (start_balance b) (current_balance b)
        v (current_price b) (slippage_rate b) (spread_rate b)
        (order_failure_rate b) (trailing_stop_pct b).

Definition set_current_price (v : option Q) (b : Bot) : Bot :=
  mkBot (config b) (positions b) (trades b) (total_fees b) (funding_fees b)
        (liquidated_positions b) (start_balance b) (current_balance b)
        (grid_prices b) v (slippage_rate b) (spread_rate b)
        (order_failure_rate b) (trailing_stop_pct b).

Definition set_order_failure_rate (v : Q) (b : Bot) : Bot :=
  mkBot (config b) (positions b) (trades b) (total_fees b) (funding_fees b)
        (liquidated_positions b) (start_balance b) (current_balance b)
        (grid_prices b) (current_price b) (slippage_rate b) (spread_rate b)
        v (trailing_stop_pct b).

Definition set_trailing_stop_pct (v : option Q) (b : Bot) : Bot :=
  mkBot (config b) (positions b) (trades b) (total_fees b) (funding_fees b)
        (liquidated_positions b) (start_balance b) (current_balance b)
        (grid_prices b) (current_price b) (slippage_rate b) (spread_rate b)
        (order_failure_rate b) v.

(** [__init__]: the trading state, the performance baseline and the
    execution parameters. *)
Definition init (c : Config.t) : Bot :=
  mkBot c [] [] 0 0 0%nat (Config.initial_balance c) (Config.initial_balance c)
        None None 0.001 0.002 0.05 None.

(** ** Methods as state transformers *)

Definition M (A : Type) : Type := Bot -> outcome A * Bot.

Definition ret {A} (a : A) : M A := fun b => (Return a, b).
Definition raise {A} (e : exn) : M A := fun b => (Raise e, b).
Definition bind {A B} (m : M A) (k : A -> M B) : M B :=
  fun b =>
    match m b with
    | (Return a, b') => k a b'
    | (Raise e, b') => (Raise e, b')
    end.
Definition get : M Bot := fun b => (Return b, b).
Definition modify (f : Bot -> Bot) : M unit := fun b => (Return tt, f b).
Definition lift {A} (o : outcome A) : M A := fun b => (o, b).

Declare Scope bot_scope.
Delimit Scope bot_scope with bot.
Notation "x <- m ;; k" := (bind m (fun x => k))
  (at level 61, m at next level, right associativity) : bot_scope.
Notation "m ;; k" := (bind m (fun _ => k))
  (at level 61, right associativity) : bot_scope.
Open Scope bot_scope.

(** The state a method leaves behind, whether it returned or raised. *)
Definition state_after {A} (r : outcome A * Bot) : Bot := snd r.
Definition result_of {A} (r : outcome A * Bot) : outcome A := fst r.

(** ** Grid planning *)

(** What [auto_set_grid_range] observes: the loaded historical data (its
    last close and the standard deviation of its percentage returns), or
    the live ticker and klines when no data is loaded, or an exception
    inside its [try] block followed by the handler's price fetch. *)
Inductive PriceFeed : Type :=
| Historical (last_close volatility : Q)
| Live (price : option Q) (kline_volatility : option Q)
| Failing (price : option Q).

Definition auto_set_grid_range (feed : PriceFeed) (c : Config.t) : Config.t :=
  let from_volatility (current_price volatility : Q) :=
    let grid_range_pct := py_max 0.05 (py_min 0.20 (volatility * 10)) in
    let grid_range := current_price * grid_range_pct in
    Config.set_grid_range (current_price - grid_range / 2)
                   (current_price + grid_range / 2) c in
  match feed with
  | Historical last_close volatility => from_volatility last_close volatility
  | Live price kline_volatility =>
      from_volatility
        (match price with Some p => p | None => 50000 end)
        (match kline_volatility with Some v => v | None => 0.02 end)
  | Failing price =>
      let current_price :=
        match price with
        | Some p => if py_eq p 0 then 50000 else p
        | None => 50000
        end in
      Config.set_grid_range (current_price * 0.95) (current_price * 1.05) c
  end.

Definition calculate_grid_prices (feed : PriceFeed) : M (list Q) :=
  modify (fun b => set_config (auto_set_grid_range feed (config b)) b) ;;
  b <- get ;;
  lower_price <- lift (float_of_bound (Config.grid_lower_price (config b))) ;;
  upper_price <- lift (float_of_bound (Config.grid_upper_price (config b))) ;;
  let grid_count := Config.grid_count (config b) in
  grid_spacing <- lift (py_div (upper_price - lower_price)
                               (inject_Z (grid_count - 1))) ;;
  ret (map (fun i => lower_price + inject_Z (Z.of_nat i) * grid_spacing)
           (seq 0 (Z.to_nat grid_count))).

(** The last two assignments of [calculate_grid_prices] on their own: the
    spacing and the levels between two numeric bounds. *)
Definition levels_between (lo hi : Q) (n : Z) : outcome (list Q) :=
  match py_div (hi - lo) (inject_Z (n - 1)) with
  | Raise e => Raise e
  | Return grid_spacing =>
      Return (map (fun i => lo + inject_Z (Z.of_nat i) * grid_spacing)
                  (seq 0 (Z.to_nat n)))
  end.

(** ** Formulas *)

Definition calculate_position_size (b : Bot) (price : Q) : outcome Q :=
  let investment := Config.investment_amount (config b) in
  let leverage := Config.leverage (config b) in
  py_div (investment * leverage) price.

Definition calculate_liquidation_price
    (entry_price position_size : Q) (is_long : bool) (leverage : Q)
  : outcome Q :=
  match py_div 1 leverage with
  | Raise e => Raise e
  | Return inv =>
      if is_long then Return (entry_price * (1 - inv))
      else Return (entry_price * (1 + inv))
  end.

(** The profit and loss of a position at a price, as [close_position],
    [check_liquidation_risk] and [advanced_risk_management] each write it
    out: the long formula for the side "long", the short formula for every
    other side. *)
Definition position_pnl (position : Position.t) (price : Q) : Q :=
  if String.eqb (Position.side position) "long"
  then (price - Position.entry_price position)
       * Position.size position * Position.leverage position
  else (Position.entry_price position - price)
       * Position.size position * Position.leverage position.

Definition check_liquidation_risk
    (b : Bot) (position : Position.t) (current_price : Q) : outcome bool :=
  let pnl := position_pnl position current_price in
  let margin := Position.size position in
  match py_div (margin + pnl) margin with
  | Raise e => Raise e
  | Return margin_ratio =>
      Return (py_lt margin_ratio (Config.liquidation_buffer (config b)))
  end.

(** ** Execution simulator *)

Definition apply_slippage_and_spread
    (u : Q) (b : Bot) (price : Q) (is_buy : bool) : Q :=
  let slippage := price * slippage_rate b * u in
  let spread := price * spread_rate b in
  if is_buy then price + slippage + spread
  else price - slippage - spread.

(** A simulator maps the bot, the requested price, the direction and the
    size to a fill price, or to [None] for a failed order. *)
Definition simulator : Type := Bot -> Q -> bool -> Q -> option Q.

Definition simulate_order_execution (u : Q) : simulator :=
  fun b price is_buy size =>
    let executed_price := apply_slippage_and_spread u b price is_buy in
    Some executed_price.


(** ** Position ledger *)

(** The arithmetic of the "trade executed" notification: it reads
    [self.grid_prices] and divides three distances by the fill price. *)
Definition opened_message (executed_price : Q) : M unit :=
  fun b =>
    match grid_prices b with
    | None => (Raise AttributeError, b)
    | Some _ =>
        if py_eq executed_price 0 then (Raise ZeroDivisionError, b)
        else (Return tt, b)
    end.

(** The "position closed" notification: its f-string evaluates
    [grid_sell_pnl], which is bound nowhere. *)
Definition closed_message : M unit := raise NameError.

(** The dict [execute_trade] builds once it has a fill; [tsp] is the value
    of [self.trailing_stop_pct]. *)
Definition opened_position
    (side : string) (timestamp : Z) (leverage position_size tsp : Q)
    (b : Bot) (executed_price : Q) : Position.t :=
  Position.mk
    (List.length (positions b) + 1)
    side
    executed_price
    position_size
    timestamp
    leverage
    (position_size * executed_price * Config.fee_rate (config b))
    (if String.eqb side "long"
     then executed_price * (1 - tsp)
     else executed_price * (1 + tsp))
    executed_price.

(** The bot [execute_trade] leaves once the fill has been booked. *)
Definition opened_state
    (side : string) (timestamp : Z) (leverage position_size tsp : Q)
    (b : Bot) (executed_price : Q) : Bot :=
  set_total_fees
    (total_fees b
     + position_size * executed_price * Config.fee_rate (config b))
    (set_positions
       (positions b
        ++ [opened_position side timestamp leverage position_size tsp
                            b executed_price])
       b).

Section Ledger.

(** The method [self.simulate_order_execution] the ledger calls. *)
Variable simulate : simulator.

Definition execute_trade_with
    (price : Q) (side : string) (timestamp : Z) (leverage : option Q)
  : M bool :=
  fun b =>
    let leverage :=
      match leverage with
      | None => Config.leverage (config b)
      | Some l => l
      end in
    match calculate_position_size b price with
    | Raise e => (Raise e, b)
    | Return position_size =>
        if py_le position_size 0 then (Return false, b)
        else
          match simulate b price (String.eqb side "buy") position_size with
          | None => (Return false, b)
          | Some executed_price =>
              match trailing_stop_pct b with
              | None => (Raise AttributeError, b)
              | Some tsp =>
                  let position :=
                    opened_position side timestamp leverage position_size
                                    tsp b executed_price in
                  let b1 := set_positions (positions b ++ [position]) b in
                  let fee :=
                    position_size * executed_price
                    * Config.fee_rate (config b) in
                  let b2 := set_total_fees (total_fees b1 + fee) b1 in
                  (opened_message executed_price ;; ret true) b2
              end
          end
    end.

Definition close_position_with
    (position : Position.t) (price : Q) (timestamp : Z) : M Q :=
  fun b =>
    match simulate b price (String.eqb (Position.side position) "sell")
                   (Position.size position) with
    | None => (Return 0, b)
    | Some executed_price =>
        let pnl := position_pnl position executed_price in
        let sell_fee :=
          Position.size position * executed_price
          * Config.fee_rate (config b) in
        let b1 := set_total_fees (total_fees b + sell_fee) b in
        let entry_value :=
          Position.entry_price position * Position.size position in
        match py_div pnl entry_value with
        | Raise e => (Raise e, b1)
        | Return _ =>
            let b2 :=
              set_current_balance
                (current_balance b1 + (pnl - sell_fee)) b1 in
            let trade :=
              Trade.mk
                timestamp
                (if String.eqb (Position.side position) "long"
                 then "sell" else "buy")%string
                executed_price
                (Position.size position)
                sell_fee
                pnl
                (Position.leverage position) in
            let b3 := set_trades (trades b2 ++ [trade]) b2 in
            (closed_message ;; ret pnl) b3
        end
    end.

End Ledger.

Definition execute_trade (u : Q) := execute_trade_with (simulate_order_execution u).
Definition close_position (u : Q) := close_position_with (simulate_order_execution u).

(** [sum(pos['size'] * pos['entry_price'] for pos in self.positions)]. *)
Definition total_position_value (ps : list Position.t) : Q :=
  fold_left (fun acc pos => acc + Position.size pos * Position.entry_price pos)
            ps 0.

Definition apply_funding_fees (timestamp : Z) : M unit :=
  fun b =>
    if (0 <? List.length (positions b))%nat then
      let funding_fee :=
        total_position_value (positions b) * Config.funding_rate (config b) in
      let b1 := set_funding_fees (funding_fees b + funding_fee) b in
      let b2 := set_total_fees (total_fees b1 + funding_fee) b1 in
      (Return tt, set_current_balance (current_balance b2 - funding_fee) b2)
    else (Return tt, b).

(** [self.positions.remove(position)]: drops the first equal element and
    raises [ValueError] when there is none. *)
Fixpoint list_remove (position : Position.t) (l : list Position.t)
  : option (list Position.t) :=
  match l with
  | [] => None
  | x :: rest =>
      if Position.eqb x position then Some rest
      else option_map (cons x) (list_remove position rest)
  end.

Definition remove_position (position : Position.t) : M unit :=
  fun b =>
    match list_remove position (positions b) with
    | None => (Raise ValueError, b)
    | Some l => (Return tt, set_positions l b)
    end.

(** ** Backtest loop *)

(** One row of the historical data: [row['timestamp']] and
    [float(row['close'])]. *)
Record Bar : Type := mkBar {
  bar_timestamp : Z;
  bar_close : Q
}.

(** The first loop of the liquidation check: counts and collects the
    positions [check_liquidation_risk] flags. *)
Fixpoint liquidation_scan (current_price : Q) (ps : list Position.t)
  : M (list Position.t) :=
  match ps with
  | [] => ret []
  | position :: rest =>
      b <- get ;;
      flagged <- lift (check_liquidation_risk b position current_price) ;;
      if (flagged : bool) then
        modify (fun b =>
                  set_liquidated_positions (liquidated_positions b + 1) b) ;;
        positions_to_remove <- liquidation_scan current_price rest ;;
        ret (position :: positions_to_remove)
      else liquidation_scan current_price rest
  end.

(** The second loop: [self.positions.remove(position)] for each of them. *)
Fixpoint remove_each (positions_to_remove : list Position.t) : M unit :=
  match positions_to_remove with
  | [] => ret tt
  | position :: rest => remove_position position ;; remove_each rest
  end.

(** The body of [for grid_price in self.grid_prices] in [run_backtest];
    [k] counts the random draws used so far. *)
Definition grid_level
    (rand : nat -> Q) (current_price : Q) (timestamp : Z) (grid_price : Q)
    (k : nat) : M nat :=
  b <- get ;;
  if py_le current_price grid_price
     && Nat.eqb (List.length
                   (filter (fun p => py_eq (Position.entry_price p) grid_price)
                           (positions b))) 0
  then
    if py_lt (Config.investment_amount (config b)) (current_balance b)
    then execute_trade (rand k) grid_price "buy" timestamp None ;; ret (S k)
    else ret k
  else if py_le grid_price current_price
  then
    match find (fun p => py_eq (Position.entry_price p) grid_price
                         && String.eqb (Position.side p) "long")
               (positions b) with
    | Some position =>
        close_position (rand k) position grid_price timestamp ;;
        remove_position position ;;
        ret (S k)
    | None => ret k
    end
  else ret k.

Fixpoint grid_trading
    (rand : nat -> Q) (current_price : Q) (timestamp : Z)
    (levels : list Q) (k : nat) : M nat :=
  match levels with
  | [] => ret k
  | grid_price :: rest =>
      k' <- grid_level rand current_price timestamp grid_price k ;;
      grid_trading rand current_price timestamp rest k'
  end.

(** One iteration of [for i, row in data.iterrows()]: funding every 480
    bars, the liquidation check, the grid logic.  The progress report and
    the wall-clock budget are left out: the loop is run on the bars it gets
    to process. *)
Definition process_bar (rand : nat -> Q) (i : Z) (row : Bar) (k : nat)
  : M nat :=
  let current_price := bar_close row in
  let timestamp := bar_timestamp row in
  (if Z.eqb (i mod 480) 0 then apply_funding_fees timestamp else ret tt) ;;
  b <- get ;;
  positions_to_remove <- liquidation_scan current_price (positions b) ;;
  remove_each positions_to_remove ;;
  b <- get ;;
  match grid_prices b with
  | None => raise AttributeError
  | Some levels => grid_trading rand current_price timestamp levels k
  end.

Fixpoint process_bars (rand : nat -> Q) (i : Z) (data : list Bar) (k : nat)
  : M nat :=
  match data with
  | [] => ret k
  | row :: rest =>
      k' <- process_bar rand i row k ;;
      process_bars rand (i + 1) rest k'
  end.

(** "Close remaining positions": [close_position] on every element of
    [self.positions], at the price and timestamp the bar loop left in its
    local variables (unbound when the loop ran on no bar). *)
Fixpoint close_each
    (rand : nat -> Q) (ps : list Position.t) (price : Q) (timestamp : Z)
    (k : nat) : M nat :=
  match ps with
  | [] => ret k
  | position :: rest =>
      close_position (rand k) position price timestamp ;;
      close_each rand rest price timestamp (S k)
  end.

Definition close_remaining (rand : nat -> Q) (data : list Bar) (k : nat)
  : M nat :=
  b <- get ;;
  match positions b, rev data with
  | [], _ => ret k
  | _ :: _, [] => raise NameError
  | _ :: _, row :: _ =>
      close_each rand (positions b) (bar_close row) (bar_timestamp row) k
  end.

(** [run_backtest] up to the end of the closing loop (the metrics and the
    report computed afterwards read the state left here). *)
Definition run_backtest (feed : PriceFeed) (rand : nat -> Q) (data : list Bar)
  : M unit :=
  levels <- calculate_grid_prices feed ;;
  modify (set_grid_prices (Some levels)) ;;
  k <- process_bars rand 0 data 0 ;;
  close_remaining rand data k ;;
  ret tt.

(** ** Live loop *)

Definition has_side (s : string) (b : Bot) : bool :=
  existsb (fun p => String.eqb (Position.side p) s) (positions b).

Definition crossed_up (last_price grid_price price : Q) : bool :=
  py_lt last_price grid_price && py_le grid_price price.

Definition crossed_down (last_price grid_price price : Q) : bool :=
  py_lt grid_price last_price && py_le price grid_price.

(** "Check for grid cross": the [for grid_price in self.grid_prices] of one
    cycle; the result is [trade_executed]. *)
Fixpoint check_grid_cross
    (u : Q) (last_price : option Q) (price : Q) (timestamp : Z)
    (levels : list Q) : M bool :=
  match levels with
  | [] => ret false
  | grid_price :: rest =>
      match last_price with
      | None => check_grid_cross u last_price price timestamp rest
      | Some last =>
          b <- get ;;
          let has_long := has_side "long" b in
          let has_short := has_side "short" b in
          if crossed_up last grid_price price && negb has_long then
            execute_trade u grid_price "buy" timestamp None ;;
            ret true
          else if crossed_down last grid_price price && negb has_short then
            match find (fun p => String.eqb (Position.side p) "long")
                       (positions b) with
            | Some position =>
                close_position u position grid_price timestamp ;;
                remove_position position ;;
                ret true
            | None => check_grid_cross u last_price price timestamp rest
            end
          else check_grid_cross u last_price price timestamp rest
      end
  end.

(** The [try] block of one cycle of [live_trading_loop]; [fetched] is the
    result of [get_live_price()].  It returns the next [last_price]. *)
Definition live_cycle_body
    (fetched : option Q) (timestamp : Z) (u : Q) (last_price : option Q)
  : M (option Q) :=
  match fetched with
  | None => ret last_price
  | Some price =>
      modify (set_current_price (Some price)) ;;
      b <- get ;;
      match grid_prices b with
      | None => raise AttributeError
      | Some levels =>
          check_grid_cross u last_price price timestamp levels ;;
          ret (Some price)
      end
  end.

(** One cycle with its [except Exception] handler: an exception leaves
    [last_price] as it was. *)
Definition live_cycle
    (fetched : option Q) (timestamp : Z) (u : Q)
    (st : option Q * Bot) : option Q * Bot :=
  match live_cycle_body fetched timestamp u (fst st) (snd st) with
  | (Return last_price, b) => (last_price, b)
  | (Raise _, b) => (fst st, b)
  end.

(** The inputs of one polling cycle. *)
Record Tick : Type := mkTick {
  tick_price : option Q;
  tick_timestamp : Z;
  tick_draw : Q
}.

(** [live_trading_loop] over the cycles it runs while [is_live_trading]
    holds; [last_price] starts as [None]. *)
Definition live_trading_loop (ticks : list Tick) (b : Bot) : option Q * Bot :=
  fold_left
    (fun st t => live_cycle (tick_price t) (tick_timestamp t) (tick_draw t) st)
    ticks (None, b).


(** ** Ledger histories *)

(** The three operations that move the ledger: an open, a close as the
    loops perform it ([close_position] followed by
    [self.positions.remove]), and a funding application. *)
Inductive ledger_op : Type :=
| Open (u price : Q) (side : string) (timestamp : Z) (leverage : option Q)
| Close (u : Q) (position : Position.t) (price : Q) (timestamp : Z)
| Funding (timestamp : Z).

Definition run_op (op : ledger_op) (b : Bot) : Bot :=
  match op with
  | Open u price side timestamp leverage =>
      state_after (execute_trade u price side timestamp leverage b)
  | Close u position price timestamp =>
      state_after
        ((close_position u position price timestamp ;;
          remove_position position) b)
  | Funding timestamp => state_after (apply_funding_fees timestamp b)
  end.

Definition run_ops (ops : list ledger_op) (b : Bot) : Bot :=
  fold_left (fun b op => run_op op b) ops b.

(** Realized PnL and sell fees, summed over the trade history. *)
Definition realized_pnl (ts : list Trade.t) : Q :=
  fold_right (fun t acc => Trade.pnl t + acc) 0 ts.

Definition sell_fees (ts : list Trade.t) : Q :=
  fold_right (fun t acc => Trade.fee t + acc) 0 ts.

(** ** Sample inputs *)

(** The default configuration written by [load_config], with numeric grid
    bounds 90 and 110 and a chosen number of levels. *)
Definition sample_config (grid_count : Z) : Config.t :=
  Config.mk 10000 3 (Price 90) (Price 110) grid_count 1000 "long"
            0.0004 0.0001 0.1 0.05 0.10.

(** The bot as [__init__] leaves it. *)
Definition sample_bot (grid_count : Z) : Bot := init (sample_config grid_count).

(** The same bot after [bot.trailing_stop_pct = 0.02]. *)
Definition tuned_bot (grid_count : Z) : Bot :=
  set_trailing_stop_pct (Some 0.02) (sample_bot grid_count).

(** Every random draw equal to 1, the midpoint of [uniform(0.5, 1.5)]. *)
Definition unit_draws : nat -> Q := fun _ => 1.

(** A long position of size 100 entered at 100 with leverage 1. *)
Definition sample_long : Position.t :=
  Position.mk 1 "long" 100 100 0 1 4 98 100.


(** An open long position of size 30 entered at 100 with leverage 3, and
    a running live bot (levels [100]) that holds it. *)
Definition held_long : Position.t :=
  Position.mk 1 "long" 100 30 0 3 1.2 98 100.

Definition holding_bot : Bot :=
  set_positions [held_long] (set_grid_prices (Some [100]) (sample_bot 5)).

(** [n] consecutive bars closing at 95. *)
Fixpoint flat_bars (n : nat) (timestamp : Z) : list Bar :=
  match n with
  | O => []
  | S n' => mkBar timestamp 95 :: flat_bars n' (timestamp + 1)
  end.

(** A position bought at level 100 on the sample configuration with
    draw 1. *)
Definition bought_at_100 (p : Position.t) : Prop :=
  Position.side p = "buy"%string
  /\ Position.entry_price p = 100 + 100 * 0.001 * 1 + 100 * 0.002
  /\ Position.size p = 1000 * 3 / 100
  /\ Position.leverage p = 3.

(** A backtest on the sample configuration and the levels [100], with
    [trailing_stop_pct] assigned, an untouched balance and only positions
    bought at level 100 in the open set. *)
Definition backtest_ready (b : Bot) : Prop :=
  config b = sample_config 3
  /\ grid_prices b = Some [100]
  /\ trailing_stop_pct b = Some 0.02
  /\ slippage_rate b = 0.001
  /\ spread_rate b = 0.002
  /\ current_balance b = 10000
  /\ Forall bought_at_100 (positions b).

(** [n] round trips of the price through the level 100: up to 101, back
    down to 99, with draws 1 and consecutive timestamps. *)
Fixpoint round_trips (n : nat) (timestamp : Z) : list Tick :=
  match n with
  | O => []
  | S n' =>
      mkTick (Some 101) timestamp 1
      :: mkTick (Some 99) (timestamp + 1) 1
      :: round_trips n' (timestamp + 2)
  end.

(** A running live bot on the sample configuration and the levels [100],
    with [trailing_stop_pct] assigned and no "long"-sided position. *)
Definition live_ready (b : Bot) : Prop :=
  config b = sample_config 5
  /\ grid_prices b = Some [100]
  /\ trailing_stop_pct b = Some 0.02
  /\ slippage_rate b = 0.001
  /\ spread_rate b = 0.002
  /\ has_side "long" b = false.

(** ** Relations between states *)

(** [b'] follows [b] with nothing closed: the trade history is the same
    and no position of [b'] has the side "long". *)
Definition nothing_closed (b b' : Bot) : Prop :=
  has_side "long" b' = false /\ trades b' = trades b.

(** ** Balance identity *)

(** The identity the ledger keeps: sell fees and funding fees are the only
    fees deducted from the balance. *)
Definition balanced (b : Bot) : Prop :=
  current_balance b
  == start_balance b + realized_pnl (trades b) - sell_fees (trades b)
     - funding_fees b.

(** * Properties *)

(** ** Comparisons and division *)

Lemma py_div_zero (x y : Q) : y == 0 -> py_div x y = Raise ZeroDivisionError.
Proof.
  intros H. unfold py_div. apply Qeq_bool_iff in H. now rewrite H.
Qed.

Lemma py_div_nonzero (x y : Q) : ~ y == 0 -> py_div x y = Return (x / y).
Proof.
  intros H. unfold py_div. destruct (Qeq_bool y 0) eqn:E; [|reflexivity].
  apply Qeq_bool_iff in E. contradiction.
Qed.

Lemma py_le_true (x y : Q) : py_le x y = true <-> x <= y.
Proof. apply Qle_bool_iff. Qed.

Lemma py_le_false (x y : Q) : py_le x y = false <-> y < x.
Proof.
  unfold py_le. split; intros H.
  - apply Qnot_le_lt. intros C. apply Qle_bool_iff in C. congruence.
  - destruct (Qle_bool x y) eqn:E; [|reflexivity].
    apply Qle_bool_iff in E. apply Qlt_not_le in H. contradiction.
Qed.

Lemma py_lt_true (x y : Q) : py_lt x y = true <-> x < y.
Proof.
  unfold py_lt. rewrite negb_true_iff. apply (py_le_false y x).
Qed.

Lemma py_lt_false (x y : Q) : py_lt x y = false <-> y <= x.
Proof.
  unfold py_lt. rewrite negb_false_iff. apply (py_le_true y x).
Qed.

Lemma py_eq_true (x y : Q) : py_eq x y = true <-> x == y.
Proof. apply Qeq_bool_iff. Qed.

Lemma py_eq_false (x y : Q) : py_eq x y = false <-> ~ x == y.
Proof.
  unfold py_eq. split; intros H.
  - intros C. apply Qeq_bool_iff in C. congruence.
  - destruct (Qeq_bool x y) eqn:E; [|reflexivity].
    apply Qeq_bool_iff in E. contradiction.
Qed.

(** ** Opening a position *)

Section OpenFacts.

Variable simulate : simulator.
Variables (price : Q) (side : string) (timestamp : Z) (leverage : option Q).
Variable b : Bot.

Let position_size : Q :=
  Config.investment_amount (config b) * Config.leverage (config b) / price.

Let leverage_used : Q :=
  match leverage with
  | None => Config.leverage (config b)
  | Some l => l
  end.

Lemma execute_trade_zero_price :
  price == 0 ->
  execute_trade_with simulate price side timestamp leverage b
  = (Raise ZeroDivisionError, b).
Proof.
  intros H. unfold execute_trade_with, calculate_position_size.
  now rewrite py_div_zero.
Qed.

Lemma execute_trade_rejects :
  ~ price == 0 -> position_size <= 0 ->
  execute_trade_with simulate price side timestamp leverage b
  = (Return false, b).
Proof.
  intros Hp Hs. unfold execute_trade_with, calculate_position_size.
  rewrite py_div_nonzero by assumption.
  apply py_le_true in Hs. fold position_size. now rewrite Hs.
Qed.

Lemma execute_trade_failed_order :
  ~ price == 0 -> 0 < position_size ->
  simulate b price (String.eqb side "buy") position_size = None ->
  execute_trade_with simulate price side timestamp leverage b
  = (Return false, b).
Proof.
  intros Hp Hs Hn. unfold execute_trade_with, calculate_position_size.
  rewrite py_div_nonzero by assumption.
  apply py_le_false in Hs. fold position_size. now rewrite Hs, Hn.
Qed.

(** A filled order on a bot whose [trailing_stop_pct] was never assigned:
    building the position dict raises before anything is booked. *)
Lemma execute_trade_unset_attribute (executed_price : Q) :
  ~ price == 0 -> 0 < position_size ->
  simulate b price (String.eqb side "buy") position_size
  = Some executed_price ->
  trailing_stop_pct b = None ->
  execute_trade_with simulate price side timestamp leverage b
  = (Raise AttributeError, b).
Proof.
  intros Hp Hs Hf Ht. unfold execute_trade_with, calculate_position_size.
  rewrite py_div_nonzero by assumption.
  apply py_le_false in Hs. fold position_size. now rewrite Hs, Hf, Ht.
Qed.

Lemma execute_trade_filled (tsp executed_price : Q) :
  ~ price == 0 -> 0 < position_size ->
  simulate b price (String.eqb side "buy") position_size
  = Some executed_price ->
  trailing_stop_pct b = Some tsp ->
  state_after (execute_trade_with simulate price side timestamp leverage b)
  = opened_state side timestamp leverage_used position_size tsp b
                 executed_price
  /\ (grid_prices b <> None -> ~ executed_price == 0 ->
      result_of (execute_trade_with simulate price side timestamp leverage b)
      = Return true).
Proof.
  intros Hp Hs Hf Ht. unfold execute_trade_with, calculate_position_size.
  rewrite py_div_nonzero by assumption.
  apply py_le_false in Hs. fold position_size. rewrite Hs, Hf, Ht.
  unfold bind, opened_message, ret, state_after, result_of, opened_state.
  cbn [grid_prices set_total_fees set_positions].
  destruct (grid_prices b) as [g|] eqn:G.
  - destruct (py_eq executed_price 0) eqn:E; cbn.
    + split; [reflexivity|]. intros _ H0. apply py_eq_true in E. contradiction.
    + split; reflexivity.
  - cbn. split; [reflexivity|]. intros C. congruence.
Qed.

End OpenFacts.

(** What [execute_trade] does once [trailing_stop_pct] has been assigned:
    the size is [(investment_amount * leverage) / price]; a size [<= 0] or
    a failed order returns [False] and changes nothing; a fill appends
    exactly one position entered at the fill price, adds the buy fee
    [size * fill * fee_rate] to [total_fees] and leaves the balance and
    the trade history alone. *)
Lemma execute_trade_opens_one_position
    (simulate : simulator) (price : Q) (side : string) (timestamp : Z)
    (leverage : option Q) (b : Bot) (tsp : Q) :
  trailing_stop_pct b = Some tsp ->
  let position_size :=
    Config.investment_amount (config b) * Config.leverage (config b)
    / price in
  let run := execute_trade_with simulate price side timestamp leverage b in
  (price == 0 -> run = (Raise ZeroDivisionError, b))
  /\ (~ price == 0 -> position_size <= 0 -> run = (Return false, b))
  /\ (~ price == 0 -> 0 < position_size ->
      simulate b price (String.eqb side "buy") position_size = None ->
      run = (Return false, b))
  /\ (forall executed_price : Q,
        ~ price == 0 -> 0 < position_size ->
        simulate b price (String.eqb side "buy") position_size
        = Some executed_price ->
        exists position : Position.t,
          positions (state_after run) = positions b ++ [position]
          /\ Position.entry_price position = executed_price
          /\ Position.size position = position_size
          /\ Position.side position = side
          /\ Position.buy_fee position
             = position_size * executed_price * Config.fee_rate (config b)
          /\ total_fees (state_after run)
             = total_fees b
               + position_size * executed_price * Config.fee_rate (config b)
          /\ current_balance (state_after run) = current_balance b
          /\ trades (state_after run) = trades b
          /\ funding_fees (state_after run) = funding_fees b
          /\ config (state_after run) = config b).
Proof.
  intros Ht position_size run. subst run position_size.
  split; [apply execute_trade_zero_price|].
  split; [apply execute_trade_rejects|].
  split; [apply execute_trade_failed_order|].
  intros executed_price Hp Hs Hf.
  destruct (execute_trade_filled simulate price side timestamp leverage b
              tsp executed_price Hp Hs Hf Ht) as [Hst _].
  rewrite Hst. eexists. repeat split.
Qed.

(** C4 (where the code departs from it).  [execute_trade] reads
    [self.trailing_stop_pct] while it builds the position dict, and nothing
    in the repository assigns that attribute: on a bot as [__init__]
    leaves it, every call whose order is filled raises [AttributeError]
    and leaves the state as it was, so no position is created and no fee
    is charged. *)
Theorem execute_trade_raises_on_fresh_bot :
  forall (c : Config.t) (u price : Q) (side : string) (timestamp : Z)
         (leverage : option Q),
    ~ price == 0 ->
    0 < Config.investment_amount c * Config.leverage c / price ->
    execute_trade u price side timestamp leverage (init c)
    = (Raise AttributeError, init c).
Proof.
  intros c u price side timestamp leverage Hp Hs.
  apply (execute_trade_unset_attribute
           (simulate_order_execution u) price side timestamp leverage (init c)
           (apply_slippage_and_spread u (init c) price (String.eqb side "buy")));
    try assumption; reflexivity.
Qed.

Lemma execute_trade_raises_on_fresh_bot_witness :
  execute_trade 1 100 "buy" 0 None (sample_bot 5)
  = (Raise AttributeError, sample_bot 5).
Proof.
  apply execute_trade_raises_on_fresh_bot.
  - intros C. discriminate C.
  - reflexivity.
Defined.

(** With the attribute assigned, the same call books the position. *)
Lemma execute_trade_on_tuned_bot :
  exists position : Position.t,
    positions (state_after (execute_trade 1 100 "buy" 0 None (tuned_bot 5)))
    = [position]
    /\ Qred (Position.entry_price position) = 100.3
    /\ Qred (Position.size position) = 30.
Proof.
  destruct (execute_trade_opens_one_position
              (simulate_order_execution 1) 100 "buy" 0 None (tuned_bot 5) 0.02
              eq_refl)
    as (_ & _ & _ & H).
  destruct (H (apply_slippage_and_spread 1 (tuned_bot 5) 100 true))
    as (p & Hp & He & Hs & _).
  - intros C. discriminate C.
  - reflexivity.
  - reflexivity.
  - exists p. split; [exact Hp|]. rewrite He, Hs. split; reflexivity.
Qed.

(** The fill of the repository's simulator: the requested price moved
    against the order by slippage and spread. *)
Lemma execute_trade_entry_price
    (u price : Q) (timestamp : Z) (b : Bot) (tsp : Q) :
  trailing_stop_pct b = Some tsp ->
  ~ price == 0 ->
  0 < Config.investment_amount (config b) * Config.leverage (config b) / price ->
  exists position : Position.t,
    positions (state_after (execute_trade u price "buy" timestamp None b))
    = positions b ++ [position]
    /\ Position.side position = "buy"%string
    /\ Position.entry_price position
       = price + price * slippage_rate b * u + price * spread_rate b.
Proof.
  intros Ht Hp Hs.
  destruct (execute_trade_opens_one_position
              (simulate_order_execution u) price "buy" timestamp None b tsp Ht)
    as (_ & _ & _ & H).
  destruct (H (apply_slippage_and_spread u b price true) Hp Hs eq_refl)
    as (p & Hpos & He & _ & Hside & _).
  exists p. repeat split; assumption.
Qed.

(** ** Liquidation check *)

(** C8.  [check_liquidation_risk]: the PnL is
    [(current - entry) * size * leverage] for a long and
    [(entry - current) * size * leverage] for a short, the margin is the
    position's size, and the result is true exactly when
    [(margin + pnl) / margin < liquidation_buffer]; with margin 100, PnL
    -95 and buffer 0.1 the ratio is 0.05 and the position is liquidated. *)
Theorem check_liquidation_risk_margin_ratio :
  forall (b : Bot) (position : Position.t) (current_price : Q),
    let entry := Position.entry_price position in
    let size := Position.size position in
    let lev := Position.leverage position in
    let margin := size in
    let pnl := position_pnl position current_price in
    ~ margin == 0 ->
    (Position.side position = "long"%string ->
     pnl = (current_price - entry) * size * lev)
    /\ (Position.side position = "short"%string ->
        pnl = (entry - current_price) * size * lev)
    /\ (exists liquidate : bool,
          check_liquidation_risk b position current_price = Return liquidate
          /\ (liquidate = true
              <-> (margin + pnl) / margin
                  < Config.liquidation_buffer (config b)))
    /\ (margin == 100 -> pnl == -95 ->
        Config.liquidation_buffer (config b) == 0.1 ->
        (margin + pnl) / margin == 0.05
        /\ check_liquidation_risk b position current_price = Return true).
Proof.
  intros b position current_price entry size lev margin pnl Hm.
  subst entry size lev margin pnl.
  split; [|split; [|split]].
  - intros Hs. unfold position_pnl. now rewrite Hs.
  - intros Hs. unfold position_pnl. now rewrite Hs.
  - unfold check_liquidation_risk. rewrite py_div_nonzero by assumption.
    eexists. split; [reflexivity|]. apply py_lt_true.
  - intros H100 H95 Hbuf.
    assert (Hr : (Position.size position + position_pnl position current_price)
                 / Position.size position == 0.05).
    { rewrite H95, H100. reflexivity. }
    split; [exact Hr|].
    unfold check_liquidation_risk. rewrite py_div_nonzero by assumption.
    f_equal. apply py_lt_true. rewrite Hr, Hbuf. reflexivity.
Qed.

Lemma check_liquidation_risk_margin_ratio_witness :
  check_liquidation_risk (sample_bot 5) sample_long 99.05 = Return true.
Proof.
  destruct (check_liquidation_risk_margin_ratio (sample_bot 5) sample_long 99.05)
    as (_ & _ & _ & H).
  - intros C. discriminate C.
  - apply H; reflexivity.
Defined.

(** ** Grid planning *)

(** [auto_set_grid_range] overwrites both bounds with numbers on every
    path. *)
Lemma auto_set_grid_range_bounds (feed : PriceFeed) (c : Config.t) :
  exists lo hi : Q,
    auto_set_grid_range feed c = Config.set_grid_range lo hi c.
Proof.
  destruct feed as [last_close volatility | price kline_volatility | price];
    cbn; eauto.
Qed.

(** The bounds it writes do not depend on the bounds it finds. *)
Lemma auto_set_grid_range_overwrites (feed : PriceFeed) (c : Config.t) (lo hi : Q) :
  auto_set_grid_range feed (Config.set_grid_range lo hi c)
  = auto_set_grid_range feed c.
Proof.
  destruct feed as [last_close volatility | price kline_volatility | price];
    reflexivity.
Qed.

Lemma calculate_grid_prices_unfold (feed : PriceFeed) (b : Bot) (lo hi : Q) :
  auto_set_grid_range feed (config b) = Config.set_grid_range lo hi (config b) ->
  calculate_grid_prices feed b
  = (levels_between lo hi (Config.grid_count (config b)),
     set_config (Config.set_grid_range lo hi (config b)) b).
Proof.
  intros H. unfold calculate_grid_prices, bind, modify, get, lift, ret.
  rewrite H. cbn. unfold levels_between.
  destruct (py_div (hi - lo) (inject_Z (Config.grid_count (config b) - 1)));
    reflexivity.
Qed.

Lemma inject_Z_pred_zero (n : Z) : inject_Z (n - 1) == 0 <-> n = 1%Z.
Proof.
  unfold Qeq. cbn. lia.
Qed.

(** ** Division sites *)

(** C9 (as the code has it).  None of the three division sites is guarded:
    [check_liquidation_risk] raises [ZeroDivisionError] when the position's
    size is zero, [calculate_liquidation_price] when the leverage is zero,
    [calculate_grid_prices] when [grid_count] is 1; on every other input
    each of them returns a value. *)
Theorem division_sites_raise_at_zero :
  (forall (b : Bot) (position : Position.t) (current_price : Q),
      (Position.size position == 0 ->
       check_liquidation_risk b position current_price
       = Raise ZeroDivisionError)
      /\ (~ Position.size position == 0 ->
          exists liquidate : bool,
            check_liquidation_risk b position current_price
            = Return liquidate))
  /\ (forall (entry_price position_size : Q) (is_long : bool) (leverage : Q),
         (leverage == 0 ->
          calculate_liquidation_price entry_price position_size is_long leverage
          = Raise ZeroDivisionError)
         /\ (~ leverage == 0 ->
             exists liquidation_price : Q,
               calculate_liquidation_price
                 entry_price position_size is_long leverage
               = Return liquidation_price))
  /\ (forall (feed : PriceFeed) (b : Bot),
         (Config.grid_count (config b) = 1%Z ->
          result_of (calculate_grid_prices feed b) = Raise ZeroDivisionError)
         /\ (Config.grid_count (config b) <> 1%Z ->
             exists levels : list Q,
               result_of (calculate_grid_prices feed b) = Return levels)).
Proof.
  split; [|split].
  - intros b position current_price. unfold check_liquidation_risk. split; intros H.
    + now rewrite py_div_zero.
    + rewrite py_div_nonzero by assumption. eauto.
  - intros entry_price position_size is_long leverage.
    unfold calculate_liquidation_price. split; intros H.
    + now rewrite py_div_zero.
    + rewrite py_div_nonzero by assumption. destruct is_long; eauto.
  - intros feed b.
    destruct (auto_set_grid_range_bounds feed (config b)) as (lo & hi & E).
    rewrite (calculate_grid_prices_unfold feed b lo hi E).
    unfold result_of, levels_between. cbn [fst]. split; intros H.
    + rewrite py_div_zero; [reflexivity|]. now apply inject_Z_pred_zero.
    + rewrite py_div_nonzero; [eauto|]. intros C.
      apply inject_Z_pred_zero in C. contradiction.
Qed.

Lemma division_sites_raise_at_zero_witness :
  check_liquidation_risk (sample_bot 5)
    (Position.mk 1 "long" 100 0 0 1 0 98 100) 100
  = Raise ZeroDivisionError
  /\ calculate_liquidation_price 100 30 true 0 = Raise ZeroDivisionError
  /\ (exists levels : list Q,
        result_of (calculate_grid_prices (Historical 100 0.02) (sample_bot 5))
        = Return levels).
Proof.
  destruct division_sites_raise_at_zero as (H1 & H2 & H3).
  split; [|split].
  - apply H1. reflexivity.
  - apply H2. reflexivity.
  - apply H3. cbn. discriminate.
Defined.

(** With [grid_count = 1] the spacing divides by [grid_count - 1 = 0]:
    [calculate_grid_prices] raises instead of returning levels. *)
Lemma calculate_grid_prices_single_level_raises :
  result_of (calculate_grid_prices (Historical 100 0.02) (sample_bot 1))
  = Raise ZeroDivisionError.
Proof. reflexivity. Qed.

(** What the spacing formula gives between two numeric bounds [lo < hi]
    for [n >= 2]: [n] levels, the first [lo], the last [hi], each one
    [(hi - lo) / (n - 1)] above the one before. *)
Lemma levels_between_spaced (lo hi : Q) (n : Z) :
  (2 <= n)%Z -> lo < hi ->
  exists levels : list Q,
    levels_between lo hi n = Return levels
    /\ List.length levels = Z.to_nat n
    /\ nth 0 levels 0 == lo
    /\ nth (Z.to_nat n - 1) levels 0 == hi
    /\ (forall i : nat,
          (S i < Z.to_nat n)%nat ->
          nth (S i) levels 0 - nth i levels 0 == (hi - lo) / inject_Z (n - 1)
          /\ nth i levels 0 < nth (S i) levels 0).
Proof.
  intros Hn Hlt.
  assert (Hpos : 0 < inject_Z (n - 1)).
  { change 0 with (inject_Z 0). rewrite <- Zlt_Qlt. lia. }
  assert (Hnz : ~ inject_Z (n - 1) == 0).
  { intros C. rewrite C in Hpos. now apply Qlt_irrefl in Hpos. }
  unfold levels_between. rewrite py_div_nonzero by assumption.
  set (f := fun i : nat => lo + inject_Z (Z.of_nat i) * ((hi - lo) / inject_Z (n - 1))).
  assert (Hnth : forall i, (i < Z.to_nat n)%nat ->
                           nth i (map f (seq 0 (Z.to_nat n))) 0 = f i).
  { intros i Hi.
    rewrite (nth_indep _ 0 (f 0%nat)) by now rewrite length_map, length_seq.
    rewrite map_nth, seq_nth by assumption. reflexivity. }
  eexists. split; [reflexivity|].
  split; [now rewrite length_map, length_seq|].
  split; [|split].
  - rewrite Hnth by lia. unfold f. cbn. field. exact Hnz.
  - rewrite Hnth by lia. unfold f.
    replace (Z.of_nat (Z.to_nat n - 1)) with (n - 1)%Z by lia.
    field. exact Hnz.
  - intros i Hi. rewrite !Hnth by lia. unfold f.
    assert (Hstep : lo + inject_Z (Z.of_nat (S i)) * ((hi - lo) / inject_Z (n - 1))
                    - (lo + inject_Z (Z.of_nat i) * ((hi - lo) / inject_Z (n - 1)))
                    == (hi - lo) / inject_Z (n - 1)).
    { rewrite Nat2Z.inj_succ. unfold Z.succ. rewrite inject_Z_plus.
      field. exact Hnz. }
    split; [exact Hstep|].
    assert (Hgap : 0 < (hi - lo) / inject_Z (n - 1)).
    { apply Qlt_shift_div_l; [exact Hpos|]. lra. }
    lra.
Qed.

(** C6 (where the code departs from it).  [calculate_grid_prices] first
    runs [auto_set_grid_range], which replaces the configured bounds
    whatever they are: the levels returned are the same for every pair of
    configured bounds, and with bounds 90 and 110, five levels and loaded
    data closing at 50000 with volatility 0.02 they are 45000, 47500,
    50000, 52500, 55000 rather than 90, 95, 100, 105, 110. *)
Theorem calculate_grid_prices_ignores_configured_bounds :
  (forall (feed : PriceFeed) (b : Bot) (lo hi : Q),
      result_of (calculate_grid_prices feed
                   (set_config (Config.set_grid_range lo hi (config b)) b))
      = result_of (calculate_grid_prices feed b))
  /\ Config.grid_lower_price (config (sample_bot 5)) = Price 90
  /\ Config.grid_upper_price (config (sample_bot 5)) = Price 110
  /\ match result_of (calculate_grid_prices (Historical 50000 0.02)
                                            (sample_bot 5)) with
     | Return levels => map Qred levels = [45000; 47500; 50000; 52500; 55000]
     | Raise _ => False
     end.
Proof.
  split; [|split; [reflexivity|split; [reflexivity|vm_compute; reflexivity]]].
  intros feed b lo hi.
  destruct (auto_set_grid_range_bounds feed (config b)) as (lo' & hi' & E).
  rewrite (calculate_grid_prices_unfold feed b lo' hi' E).
  rewrite (calculate_grid_prices_unfold feed _ lo' hi').
  - reflexivity.
  - cbn [config set_config]. rewrite auto_set_grid_range_overwrites.
    rewrite E. reflexivity.
Qed.

(** Relative to the bounds [auto_set_grid_range] writes, the levels are
    the equally spaced ones. *)
Lemma calculate_grid_prices_levels (feed : PriceFeed) (b : Bot) (lo hi : Q) :
  auto_set_grid_range feed (config b) = Config.set_grid_range lo hi (config b) ->
  (2 <= Config.grid_count (config b))%Z -> lo < hi ->
  exists levels : list Q,
    result_of (calculate_grid_prices feed b) = Return levels
    /\ List.length levels = Z.to_nat (Config.grid_count (config b))
    /\ nth 0 levels 0 == lo
    /\ nth (Z.to_nat (Config.grid_count (config b)) - 1) levels 0 == hi
    /\ (forall i : nat,
          (S i < Z.to_nat (Config.grid_count (config b)))%nat ->
          nth i levels 0 < nth (S i) levels 0).
Proof.
  intros E Hn Hlt. rewrite (calculate_grid_prices_unfold feed b lo hi E).
  destruct (levels_between_spaced lo hi _ Hn Hlt)
    as (levels & Hl & Hlen & H0 & Hlast & Hstep).
  exists levels. cbn [result_of fst]. repeat split; try assumption.
  intros i Hi. now apply Hstep.
Qed.

(** ** Execution simulator *)

(** With [order_failure_rate] set to 1 the simulated order still fills. *)
Lemma simulate_order_execution_fills_at_failure_rate_one :
  option_map Qred
    (simulate_order_execution 1 (set_order_failure_rate 1 (sample_bot 5))
                              100 true 30)
  = Some 100.3.
Proof. reflexivity. Qed.

(** C3 (as the code has it).  [simulate_order_execution] never returns
    [None]: for every draw, bot, price, direction and size it returns the
    price moved by slippage and spread, and [order_failure_rate] has no
    influence on it.  Inside [execute_trade] and [close_position] a [None]
    fill means that no trade occurred: they return [False] and [0] and
    leave the bot's state as it was. *)
Theorem simulate_order_execution_always_fills :
  forall (u : Q) (b : Bot) (price : Q) (is_buy : bool) (size : Q),
    simulate_order_execution u b price is_buy size
    = Some (apply_slippage_and_spread u b price is_buy)
    /\ (forall rate : Q,
          simulate_order_execution u (set_order_failure_rate rate b)
                                   price is_buy size
          = simulate_order_execution u b price is_buy size)
    /\ (forall (simulate : simulator) (side : string) (timestamp : Z)
               (leverage : option Q),
          ~ price == 0 ->
          (forall s : Q, simulate b price (String.eqb side "buy") s = None) ->
          execute_trade_with simulate price side timestamp leverage b
          = (Return false, b))
    /\ (forall (simulate : simulator) (position : Position.t) (timestamp : Z),
          simulate b price (String.eqb (Position.side position) "sell")
                   (Position.size position) = None ->
          close_position_with simulate position price timestamp b
          = (Return 0, b)).
Proof.
  intros u b price is_buy size. split; [reflexivity|].
  split; [reflexivity|]. split.
  - intros simulate side timestamp leverage Hp Hn.
    unfold execute_trade_with, calculate_position_size.
    rewrite py_div_nonzero by assumption.
    destruct (py_le _ 0); [reflexivity|]. now rewrite Hn.
  - intros simulate position timestamp Hn.
    unfold close_position_with. now rewrite Hn.
Qed.

Lemma simulate_order_execution_always_fills_witness :
  execute_trade_with (fun _ _ _ _ => None) 100 "buy" 0 None (sample_bot 5)
  = (Return false, sample_bot 5)
  /\ close_position_with (fun _ _ _ _ => None) sample_long 100 0 (sample_bot 5)
     = (Return 0, sample_bot 5).
Proof.
  destruct (simulate_order_execution_always_fills 1 (sample_bot 5) 100 true 30)
    as (_ & _ & Hopen & Hclose).
  split.
  - apply Hopen; [intros C; discriminate C | reflexivity].
  - apply Hclose. reflexivity.
Defined.

(** ** Balance accounting *)

Lemma realized_pnl_app (ts : list Trade.t) (t : Trade.t) :
  realized_pnl (ts ++ [t]) == realized_pnl ts + Trade.pnl t.
Proof.
  induction ts as [|x ts IH]; cbn.
  - ring.
  - fold (realized_pnl (ts ++ [t])). fold (realized_pnl ts). rewrite IH. ring.
Qed.

Lemma sell_fees_app (ts : list Trade.t) (t : Trade.t) :
  sell_fees (ts ++ [t]) == sell_fees ts + Trade.fee t.
Proof.
  induction ts as [|x ts IH]; cbn.
  - ring.
  - fold (sell_fees (ts ++ [t])). fold (sell_fees ts). rewrite IH. ring.
Qed.

(** An open touches neither the balance nor the trade history. *)
Lemma execute_trade_keeps_balance
    (simulate : simulator) (price : Q) (side : string) (timestamp : Z)
    (leverage : option Q) (b : Bot) :
  let b' :=
    state_after (execute_trade_with simulate price side timestamp leverage b) in
  current_balance b' = current_balance b
  /\ start_balance b' = start_balance b
  /\ trades b' = trades b
  /\ funding_fees b' = funding_fees b.
Proof.
  unfold execute_trade_with.
  destruct (calculate_position_size b price) as [position_size|e];
    [|cbn; auto].
  destruct (py_le position_size 0); [cbn; auto|].
  destruct (simulate b price (String.eqb side "buy") position_size)
    as [executed_price|]; [|cbn; auto].
  destruct (trailing_stop_pct b) as [tsp|]; [|cbn; auto].
  unfold bind, opened_message, ret.
  cbn [grid_prices set_total_fees set_positions].
  destruct (grid_prices b); [destruct (py_eq executed_price 0)|]; cbn; auto.
Qed.

Lemma execute_trade_balanced
    (simulate : simulator) (price : Q) (side : string) (timestamp : Z)
    (leverage : option Q) (b : Bot) :
  balanced b ->
  balanced (state_after
              (execute_trade_with simulate price side timestamp leverage b)).
Proof.
  unfold balanced.
  destruct (execute_trade_keeps_balance simulate price side timestamp leverage b)
    as (H1 & H2 & H3 & H4).
  now rewrite H1, H2, H3, H4.
Qed.

Lemma close_position_balanced
    (simulate : simulator) (position : Position.t) (price : Q) (timestamp : Z)
    (b : Bot) :
  balanced b ->
  balanced (state_after (close_position_with simulate position price timestamp b)).
Proof.
  unfold balanced, close_position_with. intros H.
  destruct (simulate b price _ _) as [executed_price|]; [|exact H].
  destruct (py_div _ _) as [pct|e]; cbn -[realized_pnl sell_fees];
    [|exact H].
  rewrite realized_pnl_app, sell_fees_app. cbn -[realized_pnl sell_fees].
  rewrite H. ring.
Qed.

Lemma remove_position_balanced (position : Position.t) (b : Bot) :
  balanced b -> balanced (state_after (remove_position position b)).
Proof.
  unfold balanced, remove_position. intros H.
  destruct (list_remove position (positions b)); exact H.
Qed.

Lemma apply_funding_fees_balanced (timestamp : Z) (b : Bot) :
  balanced b -> balanced (state_after (apply_funding_fees timestamp b)).
Proof.
  unfold balanced, apply_funding_fees. intros H.
  destruct (0 <? List.length (positions b))%nat;
    cbn -[realized_pnl sell_fees]; [|exact H].
  rewrite H. ring.
Qed.

Lemma run_op_balanced (op : ledger_op) (b : Bot) :
  balanced b -> balanced (run_op op b).
Proof.
  intros H. destruct op as [u price side timestamp leverage
                           | u position price timestamp | timestamp]; cbn [run_op].
  - now apply execute_trade_balanced.
  - unfold bind.
    pose proof (close_position_balanced (simulate_order_execution u)
                  position price timestamp b H) as Hc.
    unfold close_position.
    destruct (close_position_with _ position price timestamp b) as [[pnl|e] b'].
    + now apply remove_position_balanced.
    + exact Hc.
  - now apply apply_funding_fees_balanced.
Qed.

Lemma run_ops_balanced (ops : list ledger_op) (b : Bot) :
  balanced b -> balanced (run_ops ops b).
Proof.
  revert b. induction ops as [|op ops IH]; intros b H; cbn.
  - exact H.
  - apply IH. now apply run_op_balanced.
Qed.

(** After one open (on a bot whose [trailing_stop_pct] is assigned) the
    balance is still the start balance while [total_fees] already holds the
    buy fee: the balance is more than 1e-6 away from
    start + realized PnL - total fees. *)
Lemma balance_is_not_start_plus_pnl_minus_total_fees :
  total_fees (run_ops [Open 1 100 "buy" 0 None] (tuned_bot 5)) == 1.2036
  /\ 1e-6
     < Qabs (current_balance (run_ops [Open 1 100 "buy" 0 None] (tuned_bot 5))
             - (start_balance (run_ops [Open 1 100 "buy" 0 None] (tuned_bot 5))
                + realized_pnl
                    (trades (run_ops [Open 1 100 "buy" 0 None] (tuned_bot 5)))
                - total_fees
                    (run_ops [Open 1 100 "buy" 0 None] (tuned_bot 5)))).
Proof. split; vm_compute; reflexivity. Qed.

(** C2 (as the code has it).  After any finite sequence of opens, closes
    and funding applications on an initialised bot, with
    [trailing_stop_pct] assigned or not, the balance is the start balance
    plus the realized PnL of the trade history, minus the sell fees
    recorded there, minus the funding fees; buy fees enter [total_fees]
    only.  In exact arithmetic the identity has no error, so it holds
    within 1e-6. *)
Theorem balance_is_start_plus_pnl_minus_sell_and_funding_fees :
  forall (c : Config.t) (tsp : option Q) (ops : list ledger_op),
    let b := run_ops ops (set_trailing_stop_pct tsp (init c)) in
    current_balance b
    == start_balance b + realized_pnl (trades b) - sell_fees (trades b)
       - funding_fees b
    /\ Qabs (current_balance b
             - (start_balance b + realized_pnl (trades b)
                - sell_fees (trades b) - funding_fees b)) <= 1e-6.
Proof.
  intros c tsp ops b.
  assert (H : balanced b).
  { apply run_ops_balanced. unfold balanced. cbn. ring. }
  split; [exact H|].
  unfold balanced in H. rewrite H.
  setoid_replace (start_balance b + realized_pnl (trades b)
                  - sell_fees (trades b) - funding_fees b
                  - (start_balance b + realized_pnl (trades b)
                     - sell_fees (trades b) - funding_fees b)) with 0 by ring.
  cbn. discriminate.
Qed.

(** ** Closing a position *)

(** [close_position] never touches the open set. *)
Lemma close_position_keeps_positions
    (simulate : simulator) (position : Position.t) (price : Q) (timestamp : Z)
    (b : Bot) :
  positions (state_after (close_position_with simulate position price timestamp b))
  = positions b.
Proof.
  unfold close_position_with.
  destruct (simulate b price _ _) as [executed_price|]; [|reflexivity].
  destruct (py_div _ _); reflexivity.
Qed.

(** A filled close of a position with a non-zero entry value appends
    exactly one trade, credits [pnl - sell_fee] to the balance, and then
    raises while it builds the notification. *)
Lemma close_position_books_then_raises
    (u : Q) (position : Position.t) (price : Q) (timestamp : Z) (b : Bot) :
  ~ Position.entry_price position * Position.size position == 0 ->
  let executed_price :=
    apply_slippage_and_spread
      u b price (String.eqb (Position.side position) "sell") in
  let sell_fee :=
    Position.size position * executed_price * Config.fee_rate (config b) in
  let b' := state_after (close_position u position price timestamp b) in
  result_of (close_position u position price timestamp b) = Raise NameError
  /\ positions b' = positions b
  /\ exists trade : Trade.t,
       trades b' = trades b ++ [trade]
       /\ Trade.price trade = executed_price
       /\ Trade.pnl trade = position_pnl position executed_price
       /\ Trade.fee trade = sell_fee
       /\ current_balance b'
          = current_balance b
            + (position_pnl position executed_price - sell_fee)
       /\ total_fees b' = total_fees b + sell_fee.
Proof.
  intros Hv executed_price sell_fee b'. subst b' sell_fee executed_price.
  unfold close_position, close_position_with, simulate_order_execution.
  rewrite py_div_nonzero by assumption.
  cbn. split; [reflexivity|]. split; [reflexivity|].
  eexists. repeat split.
Qed.

(** C1 (where the code departs from it).  [close_position] never removes
    the position it closes, and after booking the trade it raises
    [NameError] while building its notification, so the
    [self.positions.remove(position)] that follows it at the call sites is
    not reached.  Closing the held long at 110 leaves it in the open set
    with its trade already in the history; in the live loop the exception
    is swallowed, and a second downward cross closes the same position a
    second time. *)
Theorem close_position_is_not_atomic :
  (forall (simulate : simulator) (position : Position.t) (price : Q)
          (timestamp : Z) (b : Bot),
      positions
        (state_after (close_position_with simulate position price timestamp b))
      = positions b)
  /\ result_of (close_position 1 held_long 110 5 holding_bot) = Raise NameError
  /\ positions (state_after (close_position 1 held_long 110 5 holding_bot))
     = [held_long]
  /\ map (fun t => (Trade.timestamp t, Trade.side t, Qred (Trade.price t),
                    Qred (Trade.pnl t)))
         (trades (state_after (close_position 1 held_long 110 5 holding_bot)))
     = [(5%Z, "sell"%string, 109.67, 870.3)]
  /\ positions
       (snd (live_trading_loop
               [mkTick (Some 101) 0 1; mkTick (Some 99) 1 1;
                mkTick (Some 101) 2 1; mkTick (Some 99) 3 1]
               holding_bot))
     = [held_long]
  /\ map (fun t => (Trade.timestamp t, Trade.side t, Qred (Trade.price t)))
         (trades
            (snd (live_trading_loop
                    [mkTick (Some 101) 0 1; mkTick (Some 99) 1 1;
                     mkTick (Some 101) 2 1; mkTick (Some 99) 3 1]
                    holding_bot)))
     = [(1%Z, "sell"%string, 99.7); (3%Z, "sell"%string, 99.7)].
Proof.
  split; [exact close_position_keeps_positions|].
  repeat split; vm_compute; reflexivity.
Qed.

(** The closing loop at the end of [run_backtest] has no removal of its
    own, and stops at its first close: with [trailing_stop_pct] assigned,
    one bar closing at 95 on levels 90, 100, 110 opens two positions; the
    run ends in [NameError] with both still open and the first one also in
    the trade history. *)
Lemma run_backtest_closing_loop_aborts :
  result_of (run_backtest (Historical 100 0.02) unit_draws [mkBar 0 95]
                          (tuned_bot 3))
  = Raise NameError
  /\ map (fun p => (Position.id p, Qred (Position.size p)))
         (positions
            (state_after
               (run_backtest (Historical 100 0.02) unit_draws [mkBar 0 95]
                             (tuned_bot 3))))
     = [(1%nat, 30); (2%nat, 300 # 11)]
  /\ map (fun t => Qred (Trade.size t))
         (trades
            (state_after
               (run_backtest (Historical 100 0.02) unit_draws [mkBar 0 95]
                             (tuned_bot 3))))
     = [30].
Proof. repeat split; vm_compute; reflexivity. Qed.

(** ** Backtest grid logic *)

(** A buy fills strictly above the requested price once the spread is
    positive: the entry price of a position opened at a level is never the
    level itself. *)
Lemma buy_fill_above_request (u : Q) (b : Bot) (price : Q) :
  0 < price -> 0 <= slippage_rate b * u -> 0 < spread_rate b ->
  price < apply_slippage_and_spread u b price true
  /\ py_eq (apply_slippage_and_spread u b price true) price = false.
Proof.
  intros Hp Hs Hsp. unfold apply_slippage_and_spread.
  assert (H1 : 0 <= price * slippage_rate b * u).
  { rewrite <- Qmult_assoc. apply Qmult_le_0_compat; [lra|assumption]. }
  assert (H2 : 0 < price * spread_rate b).
  { apply Qmult_lt_0_compat; assumption. }
  split; [lra|]. apply py_eq_false. intros C. lra.
Qed.

(** So an open at a level is invisible to that level's guard: the
    positions the guard counts are the same before and after. *)
Lemma open_at_level_escapes_guard
    (u grid_price : Q) (timestamp : Z) (b : Bot) (tsp : Q) :
  trailing_stop_pct b = Some tsp ->
  0 < grid_price ->
  0 < Config.investment_amount (config b) * Config.leverage (config b)
      / grid_price ->
  0 <= slippage_rate b * u -> 0 < spread_rate b ->
  filter (fun p => py_eq (Position.entry_price p) grid_price)
         (positions
            (state_after (execute_trade u grid_price "buy" timestamp None b)))
  = filter (fun p => py_eq (Position.entry_price p) grid_price) (positions b).
Proof.
  intros Ht Hg Hs Hsl Hsp.
  assert (Hnz : ~ grid_price == 0) by (intros C; lra).
  destruct (execute_trade_entry_price u grid_price timestamp b tsp Ht Hnz Hs)
    as (p & Hpos & _ & He).
  rewrite Hpos, filter_app. cbn [filter]. rewrite He.
  destruct (buy_fill_above_request u b grid_price Hg Hsl Hsp) as [_ Hne].
  unfold apply_slippage_and_spread in Hne. rewrite Hne.
  now rewrite app_nil_r.
Qed.

(** On the bot as [__init__] leaves it the first open of a backtest
    raises and the run stops there, with nothing opened. *)
Lemma run_backtest_aborts_on_fresh_bot :
  result_of (run_backtest (Historical 100 0.02) unit_draws [mkBar 0 95]
                          (sample_bot 3))
  = Raise AttributeError
  /\ positions
       (state_after
          (run_backtest (Historical 100 0.02) unit_draws [mkBar 0 95]
                        (sample_bot 3)))
     = [].
Proof. split; vm_compute; reflexivity. Qed.

(** At 95 the liquidation check spares every position bought at 100. *)
Lemma liquidation_scan_spares (b : Bot) (ps : list Position.t) :
  config b = sample_config 3 ->
  Forall bought_at_100 ps ->
  liquidation_scan 95 ps b = (Return [], b).
Proof.
  intros Hc H. induction H as [|p ps (Hs & He & Hz & Hl) _ IH]; [reflexivity|].
  cbn [liquidation_scan]. unfold bind at 1. unfold get.
  unfold bind at 1. unfold lift.
  assert (Hk : check_liquidation_risk b p 95 = Return false).
  { unfold check_liquidation_risk, position_pnl. rewrite Hs, He, Hz, Hl, Hc.
    reflexivity. }
  rewrite Hk. exact IH.
Qed.

(** The guard of level 100 counts none of them. *)
Lemma guard_sees_nothing (ps : list Position.t) :
  Forall bought_at_100 ps ->
  filter (fun p => py_eq (Position.entry_price p) 100) ps = [].
Proof.
  intros H. induction H as [|p ps (Hs & He & Hz & Hl) _ IH]; [reflexivity|].
  cbn [filter]. rewrite He. exact IH.
Qed.

(** So a bar closing at 95 outside a funding step opens one more position
    at level 100, whatever is already open there. *)
Lemma bar_below_level_opens (i : Z) (timestamp : Z) (k : nat) (b : Bot) :
  (i mod 480 <> 0)%Z \/ positions b = [] ->
  backtest_ready b ->
  exists b' : Bot,
    process_bar unit_draws i (mkBar timestamp 95) k b = (Return (S k), b')
    /\ backtest_ready b'
    /\ List.length (positions b') = S (List.length (positions b)).
Proof.
  intros Hi (Hc & Hg & Ht & Hsl & Hsp & Hb & Hp).
  unfold process_bar. cbn [bar_close bar_timestamp].
  assert (Hf : (if Z.eqb (i mod 480) 0
                then apply_funding_fees timestamp else ret tt) b
               = (Return tt, b)).
  { destruct (Z.eqb (i mod 480) 0) eqn:E; [|reflexivity].
    destruct Hi as [Hi|Hi]; [apply Z.eqb_eq in E; contradiction|].
    unfold apply_funding_fees. now rewrite Hi. }
  unfold bind at 1. rewrite Hf.
  unfold bind at 1. unfold get at 1.
  unfold bind at 1. rewrite (liquidation_scan_spares b (positions b) Hc Hp).
  unfold bind at 1. cbn [remove_each]. unfold ret at 1.
  unfold bind at 1. unfold get at 1. rewrite Hg.
  cbn [grid_trading]. unfold bind at 1.
  unfold grid_level. unfold bind at 1. unfold get at 1.
  rewrite (guard_sees_nothing _ Hp). rewrite Hb, Hc.
  change (py_le 95 100 && Nat.eqb (List.length (@nil Position.t)) 0) with true.
  change (py_lt (Config.investment_amount (sample_config 3)) 10000) with true.
  cbn match. change (unit_draws k) with 1.
  assert (Hfill : apply_slippage_and_spread 1 b 100 true
                  = 100 + 100 * 0.001 * 1 + 100 * 0.002).
  { unfold apply_slippage_and_spread. now rewrite Hsl, Hsp. }
  destruct (execute_trade_filled (simulate_order_execution 1) 100 "buy"
              timestamp None b 0.02 (apply_slippage_and_spread 1 b 100 true))
    as [Hst Hres].
  - intros C. discriminate C.
  - rewrite Hc. reflexivity.
  - reflexivity.
  - exact Ht.
  - assert (Hr : result_of (execute_trade_with (simulate_order_execution 1)
                              100 "buy" timestamp None b) = Return true).
    { apply Hres.
      - rewrite Hg. discriminate.
      - rewrite Hfill. intros C. discriminate C. }
    unfold bind, execute_trade, ret.
    destruct (execute_trade_with (simulate_order_execution 1) 100 "buy"
                timestamp None b) as [o b'] eqn:E.
    cbn [state_after result_of fst snd] in Hst, Hr. subst o.
    exists b'. split; [reflexivity|]. rewrite Hst.
    unfold opened_state, backtest_ready.
    cbn [config grid_prices trailing_stop_pct slippage_rate spread_rate
         positions current_balance set_total_fees set_positions].
    split.
    + split; [exact Hc|]. split; [exact Hg|]. split; [exact Ht|].
      split; [exact Hsl|]. split; [exact Hsp|]. split; [exact Hb|].
      apply Forall_app. split; [exact Hp|].
      constructor; [|constructor].
      unfold bought_at_100, opened_position.
      cbn [Position.side Position.entry_price Position.size Position.leverage].
      rewrite Hfill, Hc. repeat split.
    + rewrite length_app. cbn. lia.
Qed.

Lemma flat_bars_accumulate (n : nat) :
  forall (i timestamp : Z) (k : nat) (b : Bot),
    (0 < i)%Z \/ (i = 0%Z /\ positions b = []) ->
    (i + Z.of_nat n <= 480)%Z ->
    backtest_ready b ->
    exists b' : Bot,
      process_bars unit_draws i (flat_bars n timestamp) k b
      = (Return (k + n)%nat, b')
      /\ backtest_ready b'
      /\ List.length (positions b') = (List.length (positions b) + n)%nat.
Proof.
  induction n as [|n IH]; intros i timestamp k b Hi Hn H;
    cbn [flat_bars process_bars].
  - exists b. rewrite !Nat.add_0_r. repeat split; try apply H.
  - destruct (bar_below_level_opens i timestamp k b) as (b1 & E1 & H1 & L1);
      [|exact H|].
    { destruct Hi as [Hi|[_ Hi]]; [left|right; exact Hi].
      rewrite Z.mod_small; lia. }
    unfold bind. rewrite E1.
    destruct (IH (i + 1)%Z (timestamp + 1)%Z (S k) b1) as (b2 & E2 & H2 & L2);
      [left; lia | lia | exact H1 |].
    exists b2. rewrite E2. split; [f_equal; f_equal; lia|].
    split; [exact H2|]. rewrite L2, L1. lia.
Qed.

(** C5 (where the code departs from it).  The "no position at this level"
    test compares each position's entry price, which is the fill price,
    with the level.  With [trailing_stop_pct] assigned, on levels 90, 100,
    110 and two bars closing at 95, the loop opens at 100 and 110 on the
    first bar and again on the second: four positions are open on three
    levels, two of them bought at level 100 and two at level 110.  On the
    single level 100, [n] bars closing at 95 (up to the second funding
    step) leave [n] positions open at that level. *)
Theorem backtest_opens_twice_at_one_level :
  result_of (process_bars unit_draws 0 [mkBar 0 95; mkBar 1 95] 0
               (set_grid_prices (Some [90; 100; 110]) (tuned_bot 3)))
  = Return 4%nat
  /\ map (fun p => (Position.timestamp p, Position.side p,
                    Qred (Position.entry_price p)))
         (positions
            (state_after
               (process_bars unit_draws 0 [mkBar 0 95; mkBar 1 95] 0
                  (set_grid_prices (Some [90; 100; 110]) (tuned_bot 3)))))
     = [(0%Z, "buy"%string, 100.3); (0%Z, "buy"%string, 110.33);
        (1%Z, "buy"%string, 100.3); (1%Z, "buy"%string, 110.33)]
  /\ (forall n : nat,
        (n <= 480)%nat ->
        exists b' : Bot,
          process_bars unit_draws 0 (flat_bars n 0) 0
                       (set_grid_prices (Some [100]) (tuned_bot 3))
          = (Return n, b')
          /\ List.length (positions b') = n
          /\ Forall bought_at_100 (positions b')).
Proof.
  split; [vm_compute; reflexivity|]. split; [vm_compute; reflexivity|].
  intros n Hn.
  destruct (flat_bars_accumulate n 0 0 0
              (set_grid_prices (Some [100]) (tuned_bot 3)))
    as (b' & E & H & L).
  - right. split; reflexivity.
  - lia.
  - repeat split. constructor.
  - exists b'. split; [exact E|]. split; [exact L|apply H].
Qed.

Lemma backtest_opens_twice_at_one_level_witness :
  exists b' : Bot,
    process_bars unit_draws 0 (flat_bars 3 0) 0
                 (set_grid_prices (Some [100]) (tuned_bot 3))
    = (Return 3%nat, b')
    /\ List.length (positions b') = 3%nat
    /\ Forall bought_at_100 (positions b').
Proof.
  destruct backtest_opens_twice_at_one_level as (_ & _ & H).
  apply H. lia.
Defined.

(** ** Live grid crossings *)

Lemma existsb_false_find {A} (f : A -> bool) (l : list A) :
  existsb f l = false -> find f l = None.
Proof.
  induction l as [|x l IH]; cbn; [reflexivity|].
  destruct (f x); cbn; [discriminate|exact IH].
Qed.

(** The loops open with the side "buy": an open never makes [has_long]
    true, and it records no trade. *)
Lemma execute_trade_buy_no_long
    (simulate : simulator) (price : Q) (timestamp : Z) (leverage : option Q)
    (b : Bot) :
  has_side "long" b = false ->
  has_side "long"
    (state_after (execute_trade_with simulate price "buy" timestamp leverage b))
  = false.
Proof.
  intros H. unfold execute_trade_with.
  destruct (calculate_position_size b price) as [position_size|e];
    [|exact H].
  destruct (py_le position_size 0); [exact H|].
  destruct (simulate b price _ position_size) as [executed_price|];
    [|exact H].
  destruct (trailing_stop_pct b) as [tsp|]; [|exact H].
  unfold bind, opened_message, ret.
  cbn [grid_prices set_total_fees set_positions].
  assert (Hn : has_side "long"
                 (set_total_fees
                    (total_fees b
                     + position_size * executed_price
                       * Config.fee_rate (config b))
                    (set_positions
                       (positions b
                        ++ [opened_position
                              "buy" timestamp
                              match leverage with
                              | Some l => l
                              | None => Config.leverage (config b)
                              end position_size tsp b executed_price]) b))
               = false).
  { unfold has_side in *. cbn [positions set_total_fees set_positions].
    rewrite existsb_app, H. reflexivity. }
  destruct (grid_prices b); [destruct (py_eq executed_price 0)|]; exact Hn.
Qed.

(** From a state with no position of side "long", the grid-cross check
    closes nothing. *)
Lemma check_grid_cross_never_closes
    (u : Q) (last_price : option Q) (price : Q) (timestamp : Z)
    (levels : list Q) :
  forall b : Bot,
    has_side "long" b = false ->
    nothing_closed
      b (state_after (check_grid_cross u last_price price timestamp levels b)).
Proof.
  induction levels as [|grid_price rest IH]; intros b H;
    [split; [exact H|reflexivity]|].
  cbn [check_grid_cross]. destruct last_price as [last|]; [|now apply IH].
  unfold bind at 1. unfold get. rewrite H. cbn [negb].
  destruct (crossed_up last grid_price price && true).
  - unfold bind, execute_trade.
    pose proof (execute_trade_buy_no_long
                  (simulate_order_execution u) grid_price timestamp None b H)
      as Hl.
    destruct (execute_trade_keeps_balance
                (simulate_order_execution u) grid_price "buy" timestamp None b)
      as (_ & _ & Ht & _).
    destruct (execute_trade_with _ grid_price "buy" timestamp None b)
      as [[r|e] b']; split; assumption.
  - destruct (crossed_down last grid_price price && negb (has_side "short" b)).
    + rewrite (existsb_false_find _ _ H). now apply IH.
    + now apply IH.
Qed.

Lemma live_cycle_never_closes
    (fetched : option Q) (timestamp : Z) (u : Q) (st : option Q * Bot) :
  has_side "long" (snd st) = false ->
  nothing_closed (snd st) (snd (live_cycle fetched timestamp u st)).
Proof.
  destruct st as [last_price b]. cbn [fst snd]. intros H.
  unfold live_cycle, live_cycle_body. cbn [fst snd].
  destruct fetched as [price|]; [|split; [exact H|reflexivity]].
  unfold bind at 1. unfold modify. unfold bind at 1. unfold get.
  cbn [grid_prices set_current_price].
  destruct (grid_prices b) as [levels|]; [|split; [exact H|reflexivity]].
  unfold bind, ret.
  pose proof (check_grid_cross_never_closes
                u last_price price timestamp levels
                (set_current_price (Some price) b) H) as Hc.
  destruct (check_grid_cross u last_price price timestamp levels
              (set_current_price (Some price) b)) as [[r|e] b']; exact Hc.
Qed.

(** However the price moves, the live loop never closes a position it
    has opened: started with no "long"-sided position, it ends with the
    trade history it started with. *)
Lemma live_trading_loop_never_closes (ticks : list Tick) (b : Bot) :
  has_side "long" b = false ->
  nothing_closed b (snd (live_trading_loop ticks b)).
Proof.
  unfold live_trading_loop. generalize (@None Q) as last_price.
  revert b. induction ticks as [|t ticks IH]; intros b last_price H;
    [split; [exact H|reflexivity]|].
  cbn [fold_left].
  destruct (live_cycle_never_closes
              (tick_price t) (tick_timestamp t) (tick_draw t) (last_price, b) H)
    as [Hl Ht].
  destruct (live_cycle (tick_price t) (tick_timestamp t) (tick_draw t)
              (last_price, b)) as [last_price' b'].
  cbn [snd] in Hl, Ht. destruct (IH b' last_price' Hl) as [IH1 IH2].
  split; [exact IH1|now rewrite IH2].
Qed.

(** The two edge tests, as the loop writes them. *)
Lemma crossing_tests (last_price grid_price price : Q) :
  (crossed_up last_price grid_price price = true
   <-> last_price < grid_price /\ grid_price <= price)
  /\ (crossed_down last_price grid_price price = true
      <-> grid_price < last_price /\ price <= grid_price).
Proof.
  unfold crossed_up, crossed_down.
  rewrite !andb_true_iff, !py_lt_true, !py_le_true. split; reflexivity.
Qed.

(** A cycle whose price equals the previous one crosses no level. *)
Lemma stationary_price_crosses_nothing (price grid_price : Q) :
  crossed_up price grid_price price = false
  /\ crossed_down price grid_price price = false.
Proof.
  unfold crossed_up, crossed_down.
  destruct (py_lt price grid_price) eqn:E1, (py_le grid_price price) eqn:E2,
           (py_lt grid_price price) eqn:E3, (py_le price grid_price) eqn:E4;
    try (split; reflexivity); exfalso;
    repeat match goal with
           | H : py_lt _ _ = true |- _ => apply py_lt_true in H
           | H : py_lt _ _ = false |- _ => apply py_lt_false in H
           | H : py_le _ _ = true |- _ => apply py_le_true in H
           | H : py_le _ _ = false |- _ => apply py_le_false in H
           end; lra.
Qed.

(** C7 (where the code departs from it).  Levels [100].  With
    [trailing_stop_pct] assigned and prices 99, 101, 99: the upward cross
    opens a position with [execute_trade(..., 'buy', ...)], so its side is
    "buy"; the downward cross looks for a position whose side is "long",
    finds none and closes nothing, so the position is still open and no
    trade is recorded.  On the bot as [__init__] leaves it and prices 99,
    101, the upward cross opens nothing at all and the previous price
    stays 99. *)
Theorem live_cross_down_keeps_position_open :
  crossed_up 99 100 101 = true
  /\ crossed_down 101 100 99 = true
  /\ fst (live_trading_loop
            [mkTick (Some 99) 0 1; mkTick (Some 101) 1 1; mkTick (Some 99) 2 1]
            (set_grid_prices (Some [100]) (tuned_bot 5)))
     = Some 99
  /\ map (fun p => (Position.timestamp p, Position.side p,
                    Qred (Position.entry_price p)))
         (positions
            (snd (live_trading_loop
                    [mkTick (Some 99) 0 1; mkTick (Some 101) 1 1;
                     mkTick (Some 99) 2 1]
                    (set_grid_prices (Some [100]) (tuned_bot 5)))))
     = [(1%Z, "buy"%string, 100.3)]
  /\ trades
       (snd (live_trading_loop
               [mkTick (Some 99) 0 1; mkTick (Some 101) 1 1;
                mkTick (Some 99) 2 1]
               (set_grid_prices (Some [100]) (tuned_bot 5))))
     = []
  /\ live_trading_loop
       [mkTick (Some 99) 0 1; mkTick (Some 101) 1 1]
       (set_grid_prices (Some [100]) (sample_bot 5))
     = (Some 99,
        set_current_price (Some 101)
          (set_grid_prices (Some [100]) (sample_bot 5))).
Proof. repeat split; vm_compute; reflexivity. Qed.

(** An upward cross on a ready bot opens one more position, whatever is
    already open. *)
Lemma up_cross_opens (timestamp : Z) (b : Bot) :
  live_ready b ->
  exists b' : Bot,
    live_cycle (Some 101) timestamp 1 (Some 99, b) = (Some 101, b')
    /\ live_ready b'
    /\ List.length (positions b') = S (List.length (positions b)).
Proof.
  intros (Hc & Hg & Ht & Hsl & Hsp & Hl).
  unfold live_cycle, live_cycle_body. cbn [fst snd].
  unfold bind at 1. unfold modify. unfold bind at 1. unfold get.
  cbn [grid_prices set_current_price]. rewrite Hg.
  unfold bind at 1. cbn [check_grid_cross].
  unfold bind at 1. unfold get.
  replace (has_side "long" (set_current_price (Some 101) b)) with false
    by (symmetry; exact Hl).
  change (crossed_up 99 100 101 && negb false) with true. cbn match.
  set (b1 := set_current_price (Some 101) b).
  assert (Hfill : apply_slippage_and_spread 1 b1 100 true = 100 + 100 * 0.001 * 1 + 100 * 0.002).
  { unfold apply_slippage_and_spread, b1. cbn [slippage_rate spread_rate set_current_price].
    now rewrite Hsl, Hsp. }
  destruct (execute_trade_filled (simulate_order_execution 1) 100 "buy" timestamp None b1
              0.02 (apply_slippage_and_spread 1 b1 100 true)) as [Hst Hres].
  - intros C. discriminate C.
  - unfold b1. cbn [config set_current_price]. rewrite Hc. reflexivity.
  - reflexivity.
  - exact Ht.
  - assert (Hr : result_of (execute_trade_with (simulate_order_execution 1) 100 "buy" timestamp None b1) = Return true).
    { apply Hres.
      - unfold b1. cbn [grid_prices set_current_price]. rewrite Hg. discriminate.
      - rewrite Hfill. intros C. discriminate C. }
    unfold bind, execute_trade, ret.
    destruct (execute_trade_with (simulate_order_execution 1) 100 "buy" timestamp None b1)
      as [o b'] eqn:E.
    cbn [state_after result_of fst snd] in Hst, Hr. subst o.
    exists b'. split; [reflexivity|]. rewrite Hst.
    unfold opened_state, live_ready, has_side, b1.
    cbn [config grid_prices trailing_stop_pct slippage_rate spread_rate positions
         set_total_fees set_positions set_current_price].
    repeat split; try assumption.
    + unfold has_side in Hl. rewrite existsb_app, Hl. reflexivity.
    + rewrite length_app. cbn. lia.
Qed.

Lemma down_cross_closes_nothing (timestamp : Z) (b : Bot) :
  live_ready b ->
  exists b' : Bot,
    live_cycle (Some 99) timestamp 1 (Some 101, b) = (Some 99, b')
    /\ live_ready b'
    /\ positions b' = positions b.
Proof.
  intros (Hc & Hg & Ht & Hsl & Hsp & Hl).
  unfold live_cycle, live_cycle_body. cbn [fst snd].
  unfold bind at 1. unfold modify. unfold bind at 1. unfold get.
  cbn [grid_prices set_current_price]. rewrite Hg.
  unfold bind at 1. cbn [check_grid_cross].
  unfold bind at 1. unfold get.
  change (crossed_up 101 100 99) with false. cbn [andb].
  set (b1 := set_current_price (Some 99) b).
  assert (Hf : find (fun p => String.eqb (Position.side p) "long") (positions b1) = None).
  { apply existsb_false_find. exact Hl. }
  rewrite Hf.
  exists b1.
  destruct (crossed_down 101 100 99 && negb (has_side "short" b1)); cbn;
    (split; [reflexivity|split; [|reflexivity]]);
    unfold live_ready, b1; cbn; repeat split; assumption.
Qed.

Lemma round_trips_accumulate (n : nat) :
  forall (timestamp : Z) (b : Bot),
    live_ready b ->
    let st :=
      fold_left
        (fun st t =>
           live_cycle (tick_price t) (tick_timestamp t) (tick_draw t) st)
        (round_trips n timestamp) (Some 99, b) in
    fst st = Some 99
    /\ live_ready (snd st)
    /\ List.length (positions (snd st)) = (List.length (positions b) + n)%nat.
Proof.
  induction n as [|n IH]; intros timestamp b H; cbn [round_trips fold_left].
  - cbn [fst snd]. split; [reflexivity|]. split; [exact H|lia].
  - cbn [tick_price tick_timestamp tick_draw].
    destruct (up_cross_opens timestamp b H) as (b1 & E1 & H1 & L1).
    rewrite E1.
    destruct (down_cross_closes_nothing (timestamp + 1) b1 H1)
      as (b2 & E2 & H2 & L2).
    rewrite E2.
    destruct (IH (timestamp + 2)%Z b2 H2) as (F & R & L).
    split; [exact F|]. split; [exact R|].
    rewrite L, L2, L1. lia.
Qed.

(** C10 (where the code departs from it).  Levels [100], prices 99, 101,
    99, 101, [trailing_stop_pct] assigned.  The guard [has_long] looks for
    the side "long" and the loop opens with the side "buy", so the guard
    is false before the second upward cross as before the first, and that
    cross opens a second position while the first is still open.  In
    general [n] round trips of the price through the level leave [n]
    positions open and no trade recorded. *)
Theorem live_opens_second_position :
  map (fun p => (Position.id p, Position.side p, Position.timestamp p))
      (positions
         (snd (live_trading_loop
                 [mkTick (Some 99) 0 1; mkTick (Some 101) 1 1;
                  mkTick (Some 99) 2 1; mkTick (Some 101) 3 1]
                 (set_grid_prices (Some [100]) (tuned_bot 5)))))
  = [(1%nat, "buy"%string, 1%Z); (2%nat, "buy"%string, 3%Z)]
  /\ has_side "long"
       (snd (live_trading_loop
               [mkTick (Some 99) 0 1; mkTick (Some 101) 1 1;
                mkTick (Some 99) 2 1]
               (set_grid_prices (Some [100]) (tuned_bot 5))))
     = false
  /\ (forall n : nat,
        List.length
          (positions
             (snd (live_trading_loop
                     (mkTick (Some 99) 0 1 :: round_trips n 1)
                     (set_grid_prices (Some [100]) (tuned_bot 5)))))
        = n
        /\ trades
             (snd (live_trading_loop
                     (mkTick (Some 99) 0 1 :: round_trips n 1)
                     (set_grid_prices (Some [100]) (tuned_bot 5))))
           = []).
Proof.
  split; [vm_compute; reflexivity|]. split; [vm_compute; reflexivity|].
  intros n. split.
  - unfold live_trading_loop. cbn [fold_left].
    change (live_cycle (tick_price (mkTick (Some 99) 0 1))
              (tick_timestamp (mkTick (Some 99) 0 1))
              (tick_draw (mkTick (Some 99) 0 1))
              (None, set_grid_prices (Some [100]) (tuned_bot 5)))
      with (Some 99,
            set_current_price (Some 99)
              (set_grid_prices (Some [100]) (tuned_bot 5))).
    destruct (round_trips_accumulate n 1
                (set_current_price (Some 99)
                   (set_grid_prices (Some [100]) (tuned_bot 5))))
      as (_ & _ & L).
    + repeat split.
    + exact L.
  - destruct (live_trading_loop_never_closes
                (mkTick (Some 99) 0 1 :: round_trips n 1)
                (set_grid_prices (Some [100]) (tuned_bot 5)) eq_refl)
      as [_ T].
    exact T.
Qed.


(** * Further functions of the bot *)

(** The rest of the file models functions of [pionex_futures_grid_bot.py]
    and [pionex_optimizer.py] that the properties above do not reach: the
    remaining formulas, the risk engine, the performance metrics, the
    liquidation pass of the backtest, the stop and reset commands, the
    status summary and the optimizer's choice of the best result. *)

(** ** Margin, liquidation price and funding formulas *)

Definition calculate_margin_required (b : Bot) (position_size price : Q)
  : outcome Q :=
  let leverage := Config.leverage (config b) in
  py_div (position_size * price) leverage.

(** The two keys [check_liquidation] reads from its position dict. *)
Module Levered.
Record t : Type := mk {
  liquidation_price : Q;
  is_long : bool
}.
End Levered.

Definition check_liquidation (current_price : Q) (position : Levered.t) : bool :=
  let liquidation_price := Levered.liquidation_price position in
  let is_long := Levered.is_long position in
  if is_long && py_le current_price liquidation_price then true
  else if negb is_long && py_le liquidation_price current_price then true
  else false.

Definition calculate_funding_fee
    (b : Bot) (position : Position.t) (time_diff_hours : Q) : Q :=
  let funding_rate := Config.funding_rate (config b) in
  let position_value :=
    Position.size position * Position.entry_price position in
  position_value * funding_rate * (time_diff_hours / 8).

(** ** Risk engine *)

(** The switches and limits [__init__] sets for the risk engine. *)
Record RiskSettings : Type := mkRiskSettings {
  max_position_size : Q;
  trend_strength_threshold : Q;
  dynamic_leverage_enabled : bool;
  adaptive_grid_enabled : bool;
  risk_management_enabled : bool
}.

Definition init_risk_settings : RiskSettings :=
  mkRiskSettings 0.01 0.6 true true true.

Definition calculate_dynamic_leverage
    (s : RiskSettings) (b : Bot) (volatility : Q) (trend : string)
    (balance : Q) : Q :=
  if negb (dynamic_leverage_enabled s) then Config.leverage (config b)
  else
    let base_leverage := Config.leverage (config b) in
    let leverage_multiplier :=
      if py_lt volatility 0.01 then 1.2
      else if py_lt 0.05 volatility then 0.7
      else 1.0 in
    let trend_multiplier :=
      if String.eqb trend "bullish" then 1.1
      else if String.eqb trend "bearish" then 0.9
      else 1.0 in
    let balance_multiplier := py_min 1.5 (1.0 + balance / 100000) in
    let dynamic_leverage :=
      base_leverage * leverage_multiplier * trend_multiplier
      * balance_multiplier in
    py_max 1.0 (py_min 3.0 dynamic_leverage).

Definition calculate_adaptive_position_size
    (s : RiskSettings) (b : Bot) (price volatility : Q) (trend : string)
  : outcome Q :=
  if negb (adaptive_grid_enabled s) then calculate_position_size b price
  else
    let base_amount := Config.investment_amount (config b) in
    let vol_multiplier :=
      if py_lt volatility 0.01 then 1.3
      else if py_lt 0.05 volatility then 0.7
      else 1.0 in
    let trend_multiplier :=
      if String.eqb trend "bullish" then 1.2
      else if String.eqb trend "bearish" then 0.8
      else 1.0 in
    let balance_multiplier := py_min 2.0 (1.0 + current_balance b / 50000) in
    let adaptive_amount :=
      base_amount * vol_multiplier * trend_multiplier * balance_multiplier in
    let max_position_value := current_balance b * max_position_size s in
    Return (py_min adaptive_amount max_position_value).

(** [int(x)] on a float: truncation towards zero. *)
Definition py_int (x : Q) : Z := Z.quot (Qnum x) (Zpos (Qden x)).

Definition calculate_adaptive_grid_prices
    (feed : PriceFeed) (current_price volatility : Q) : M (list Q) :=
  modify (fun b => set_config (auto_set_grid_range feed (config b)) b) ;;
  b <- get ;;
  lower_price <- lift (float_of_bound (Config.grid_lower_price (config b))) ;;
  upper_price <- lift (float_of_bound (Config.grid_upper_price (config b))) ;;
  let grid_count := Config.grid_count (config b) in
  let grid_count :=
    if py_lt 0.05 volatility then py_int (inject_Z grid_count * 1.5)
    else if py_lt volatility 0.01 then py_int (inject_Z grid_count * 0.8)
    else grid_count in
  let price_range := upper_price - lower_price in
  grid_spacing <- lift (py_div price_range (inject_Z (grid_count - 1))) ;;
  let center_price := current_price in
  let start_price :=
    center_price - inject_Z (grid_count / 2) * grid_spacing in
  let end_price :=
    center_price + inject_Z (grid_count / 2) * grid_spacing in
  let start_price := py_max lower_price start_price in
  let end_price := py_min upper_price end_price in
  ret (map (fun i => start_price + inject_Z (Z.of_nat i) * grid_spacing)
           (seq 0 (Z.to_nat grid_count))).

Definition advanced_risk_management
    (s : RiskSettings) (b : Bot) (position : Position.t)
    (current_price volatility : Q) : outcome bool :=
  if negb (risk_management_enabled s)
  then check_liquidation_risk b position current_price
  else
    let pnl := position_pnl position current_price in
    let margin := Position.size position in
    match py_div (margin + pnl) margin with
    | Raise e => Raise e
    | Return margin_ratio =>
        let base_liquidation_buffer := Config.liquidation_buffer (config b) in
        let volatility_adjustment := volatility * 10 in
        let dynamic_buffer := base_liquidation_buffer + volatility_adjustment in
        if py_lt margin_ratio dynamic_buffer then Return true
        else
          match py_div (Qabs pnl) margin with
          | Raise e => Raise e
          | Return loss_ratio =>
              if py_lt (Config.stop_loss_pct (config b)) loss_ratio
              then Return true
              else
                match py_div pnl margin with
                | Raise e => Raise e
                | Return gain_ratio =>
                    if py_lt (Config.take_profit_pct (config b)) gain_ratio
                    then Return true
                    else Return false
                end
          end
    end.

(** ** Trend classification *)

(** A value of the indicator row: a number, an infinity or NaN, as the
    float arithmetic of the data frame produces them. *)
Inductive npfloat : Type :=
| Num (q : Q)
| Inf (positive : bool)
| NaN.

(** [x > y] and [x < y] against a constant: false on NaN. *)
Definition np_gt (x : npfloat) (y : Q) : bool :=
  match x with
  | Num q => py_lt y q
  | Inf positive => positive
  | NaN => false
  end.

Definition np_lt (x : npfloat) (y : Q) : bool :=
  match x with
  | Num q => py_lt q y
  | Inf positive => negb positive
  | NaN => false
  end.

(** The columns of [data.iloc[index]] that [detect_trend] reads; [None]
    is NaN. *)
Record Indicators : Type := mkIndicators {
  close : option Q;
  rsi : option Q;
  macd : option Q;
  macd_signal : option Q;
  adx : option Q;
  bb_upper : option Q;
  bb_lower : option Q
}.

(** [(close - bb_lower) / (bb_upper - bb_lower)] on the row's floats: a
    zero band width gives an infinity or NaN, not an exception. *)
Definition bb_position (current : Indicators) : npfloat :=
  match close current, bb_lower current, bb_upper current with
  | Some c, Some l, Some u =>
      if py_eq (u - l) 0 then
        if py_lt 0 (c - l) then Inf true
        else if py_lt (c - l) 0 then Inf false
        else NaN
      else Num ((c - l) / (u - l))
  | _, _, _ => NaN
  end.

Definition rsi_bullish (current : Indicators) : bool :=
  match rsi current with
  | Some r => py_lt 50 r
  | None => false
  end.

Definition macd_bullish (current : Indicators) : bool :=
  match macd current, macd_signal current with
  | Some m, Some sg => py_lt sg m
  | _, _ => false
  end.

Definition bb_trend (current : Indicators) : string :=
  match bb_upper current, bb_lower current with
  | Some _, Some _ =>
      let position := bb_position current in
      if np_gt position 0.7 then "bullish"%string
      else if np_lt position 0.3 then "bearish"%string
      else "neutral"%string
  | _, _ => "neutral"%string
  end.

Definition trend_strength (current : Indicators) : Q :=
  match adx current with
  | Some a => a / 100.0
  | None => 0.5
  end.

(** [detect_trend] on the row [current = data.iloc[index]]. *)
Definition detect_trend
    (s : RiskSettings) (index : nat) (current : Indicators) : string :=
  if (index <? 50)%nat then "neutral"%string
  else
    let rsi_trend :=
      (if rsi_bullish current then "bullish" else "bearish")%string in
    let macd_trend :=
      (if macd_bullish current then "bullish" else "bearish")%string in
    let bb := bb_trend current in
    let count (tag : string) : nat :=
      ((if String.eqb rsi_trend tag then 1 else 0)
       + (if String.eqb macd_trend tag then 1 else 0)
       + (if String.eqb bb tag then 1 else 0))%nat in
    let bullish_signals := count "bullish"%string in
    let bearish_signals := count "bearish"%string in
    if py_lt (trend_strength current) (trend_strength_threshold s)
    then "neutral"%string
    else if (2 <=? bullish_signals)%nat then "bullish"%string
    else if (2 <=? bearish_signals)%nat then "bearish"%string
    else "neutral"%string.

(** ** Performance metrics *)

(** [self.max_balance], [self.min_balance] and [self.max_drawdown]. *)
Record Performance : Type := mkPerformance {
  max_balance : Q;
  min_balance : Q;
  max_drawdown : Q
}.

(** Their values after [__init__]. *)
Definition init_performance (c : Config.t) : Performance :=
  mkPerformance (Config.initial_balance c) (Config.initial_balance c) 0.

Definition update_performance_metrics (b : Bot) (p : Performance)
  : Performance :=
  let max_balance :=
    if py_lt (max_balance p) (current_balance b) then current_balance b
    else max_balance p in
  let min_balance :=
    if py_lt (current_balance b) (min_balance p) then current_balance b
    else min_balance p in
  if py_lt 0 max_balance then
    let current_drawdown := (max_balance - current_balance b) / max_balance in
    if py_lt (max_drawdown p) current_drawdown
    then mkPerformance max_balance min_balance current_drawdown
    else mkPerformance max_balance min_balance (max_drawdown p)
  else mkPerformance max_balance min_balance (max_drawdown p).

(** [update_performance_metrics] after each of a series of balances. *)
Definition track_performance (b : Bot) (balances : list Q) (p : Performance)
  : Performance :=
  fold_left
    (fun p balance => update_performance_metrics (set_current_balance balance b) p)
    balances p.

(** The locals [max_balance] and [min_balance] of [run_backtest] after
    the balances the bars leave behind. *)
Definition bar_extremes (initial_balance : Q) (balances : list Q) : Q * Q :=
  fold_left
    (fun extremes balance =>
       (py_max (fst extremes) balance, py_min (snd extremes) balance))
    balances (initial_balance, initial_balance).

(** The entries of the dict [run_backtest] returns, the run time apart. *)
Record Results : Type := mkResults {
  res_initial_balance : Q;
  res_final_balance : Q;
  res_total_return : Q;
  res_max_drawdown : Q;
  res_total_trades : nat;
  res_win_trades : nat;
  res_win_rate : Q;
  res_liquidated_positions : nat;
  res_trading_fees : Q;
  res_funding_fees : Q;
  res_total_fees : Q
}.

(** "Calculate metrics": the end of [run_backtest], from its locals
    [initial_balance], [max_balance], [min_balance] and the bot. *)
Definition backtest_results
    (initial_balance max_balance min_balance : Q) (b : Bot) : outcome Results :=
  match py_div (current_balance b - initial_balance) initial_balance with
  | Raise e => Raise e
  | Return ratio =>
      let total_return := ratio * 100 in
      match py_div (max_balance - min_balance) max_balance with
      | Raise e => Raise e
      | Return range =>
          let max_drawdown := range * 100 in
          let win_trades :=
            List.length (filter (fun t => py_lt 0 (Trade.pnl t)) (trades b)) in
          let total_trades := List.length (trades b) in
          let win_rate :=
            if (0 <? total_trades)%nat
            then inject_Z (Z.of_nat win_trades)
                 / inject_Z (Z.of_nat total_trades) * 100
            else 0 in
          Return (mkResults initial_balance (current_balance b) total_return
                            max_drawdown total_trades win_trades win_rate
                            (liquidated_positions b)
                            (total_fees b - funding_fees b) (funding_fees b)
                            (total_fees b))
      end
  end.

(** ** Stop and reset commands, status summary *)

(** The closing loop of [stop_live_trading], over the copy
    [self.positions[:]]: [close_position] at the fetched price, then
    [self.positions.remove]; [now] gives the successive values of
    [datetime.now()]. *)
Fixpoint close_and_remove_each
    (rand : nat -> Q) (now : nat -> Z) (ps : list Position.t) (price : Q)
    (k : nat) : M unit :=
  match ps with
  | [] => ret tt
  | position :: rest =>
      close_position (rand k) position price (now k) ;;
      remove_position position ;;
      close_and_remove_each rand now rest price (S k)
  end.

(** [stop_live_trading]; [is_live_trading] is the flag it finds and
    [fetched] what [get_live_price()] returns when it is asked.  The last
    step is the arithmetic of the final summary. *)
Definition stop_live_trading
    (is_live_trading : bool) (fetched : option Q)
    (rand : nat -> Q) (now : nat -> Z) : M unit :=
  if negb is_live_trading then ret tt
  else
    b <- get ;;
    match positions b, fetched with
    | _ :: _, Some current_price =>
        if py_eq current_price 0 then ret tt
        else close_and_remove_each rand now (positions b) current_price 0
    | _, _ => ret tt
    end ;;
    b <- get ;;
    lift (py_div (current_balance b - start_balance b) (start_balance b)) ;;
    ret tt.

Definition set_start_balance (v : Q) (b : Bot) : Bot :=
  mkBot (config b) (positions b) (trades b) (total_fees b) (funding_fees b)
        (liquidated_positions b) v (current_balance b)
        (grid_prices b) (current_price b) (slippage_rate b) (spread_rate b)
        (order_failure_rate b) (trailing_stop_pct b).

(** [cmd_reset_stats]: the four assignments. *)
Definition cmd_reset_stats (b : Bot) : Bot :=
  let b1 := set_trades [] b in
  let b2 := set_total_fees 0 b1 in
  let b3 := set_liquidated_positions 0 b2 in
  set_start_balance (current_balance b3) b3.

(** The "Unrealized PnL" figure of [cmd_status]. *)
Definition status_unrealized_pnl (b : Bot) : Q :=
  match positions b, current_price b with
  | _ :: _, Some price =>
      if py_eq price 0 then 0
      else
        fold_left
          (fun unrealized_pnl p =>
             if String.eqb (Position.side p) "long" then
               unrealized_pnl
               + (price - Position.entry_price p)
                 * Position.size p * Position.leverage p
             else if String.eqb (Position.side p) "short" then
               unrealized_pnl
               + (Position.entry_price p - price)
                 * Position.size p * Position.leverage p
             else unrealized_pnl)
          (positions b) 0
  | _, _ => 0
  end.

(** ** Optimizer: the best result *)

Section Optimizer.

(** The result dict of a backtest, of which the optimizer compares
    [results['total_return']], and the parameter dict of a test. *)
Variables (R P : Type).
Variable total_return : R -> Q.

(** [update_best_result] on the pair [(best_result, best_params)]. *)
Definition update_best_result
    (results : option R) (params : P) (best : option (R * P))
  : option (R * P) :=
  match results with
  | None => best
  | Some r =>
      match best with
      | None => Some (r, params)
      | Some (best_result, _) =>
          if py_lt (total_return best_result) (total_return r)
          then Some (r, params)
          else best
      end
  end.

(** The test loop of [run_optimization] on the outcomes of
    [run_single_test]: a successful result is appended to [all_results]
    and offered to [update_best_result]. *)
Definition run_tests (tests : list (option R * P))
  : list R * option (R * P) :=
  fold_left
    (fun st test =>
       match fst test with
       | Some r =>
           (fst st ++ [r], update_best_result (Some r) (snd test) (snd st))
       | None => st
       end)
    tests ([], None).

End Optimizer.

(** * Properties of the further functions *)

(** ** Margin, liquidation price and funding *)

(** X1.  The margin [calculate_margin_required] asks for the size
    [calculate_position_size] returns is the configured investment
    amount, at every non-zero price and leverage. *)
Theorem margin_of_position_size_is_investment :
  forall (b : Bot) (price : Q),
    ~ price == 0 -> ~ Config.leverage (config b) == 0 ->
    exists position_size margin : Q,
      calculate_position_size b price = Return position_size
      /\ calculate_margin_required b position_size price = Return margin
      /\ margin == Config.investment_amount (config b).
Proof.
  intros b price Hp Hl.
  unfold calculate_position_size, calculate_margin_required.
  eexists. eexists. rewrite !py_div_nonzero by assumption.
  split; [reflexivity|]. split; [reflexivity|].
  field. split; assumption.
Qed.

Lemma margin_of_position_size_is_investment_witness :
  exists position_size margin : Q,
    calculate_position_size (sample_bot 5) 100 = Return position_size
    /\ calculate_margin_required (sample_bot 5) position_size 100
       = Return margin
    /\ margin == 1000.
Proof.
  apply (margin_of_position_size_is_investment (sample_bot 5) 100);
    intros C; discriminate C.
Defined.

Lemma calculate_liquidation_price_sides
  (entry_price position_size leverage : Q) :
  0 < entry_price -> 0 < leverage ->
  calculate_liquidation_price entry_price position_size true leverage
  = Return (entry_price * (1 - 1 / leverage))
  /\ calculate_liquidation_price entry_price position_size false leverage
     = Return (entry_price * (1 + 1 / leverage))
  /\ entry_price * (1 - 1 / leverage) < entry_price
  /\ entry_price < entry_price * (1 + 1 / leverage).
Proof.
  intros He Hl.
  assert (Hnz : ~ leverage == 0)
    by (intros C; rewrite C in Hl; now apply Qlt_irrefl in Hl).
  unfold calculate_liquidation_price. rewrite py_div_nonzero by assumption.
  assert (Hinv : 0 < 1 / leverage).
  { apply Qlt_shift_div_l; [assumption|]. lra. }
  assert (Hgap : 0 < entry_price * (1 / leverage)).
  { apply Qmult_lt_0_compat; assumption. }
  split; [reflexivity|]. split; [reflexivity|]. split; lra.
Qed.

(** X2.  For a positive entry price and any positive leverage the long
    liquidation price lies strictly below the entry and the short one
    strictly above it, at equal distances; the long one is positive
    exactly when the leverage exceeds 1 and is zero at leverage 1. *)
Theorem liquidation_prices_bracket_entry :
  forall (entry_price position_size leverage : Q),
    0 < entry_price -> 0 < leverage ->
    exists long_price short_price : Q,
      calculate_liquidation_price entry_price position_size true leverage
      = Return long_price
      /\ calculate_liquidation_price entry_price position_size false leverage
         = Return short_price
      /\ long_price < entry_price
      /\ entry_price < short_price
      /\ entry_price - long_price == short_price - entry_price
      /\ (0 < long_price <-> 1 < leverage)
      /\ (leverage == 1 -> long_price == 0).
Proof.
  intros entry_price position_size leverage He Hl.
  assert (Hnz : ~ leverage == 0) by (intros C; rewrite C in Hl; now apply Qlt_irrefl in Hl).
  unfold calculate_liquidation_price. rewrite py_div_nonzero by assumption.
  assert (Hinv : 0 < 1 / leverage).
  { apply Qlt_shift_div_l; [assumption|]. lra. }
  assert (Hgap : 0 < entry_price * (1 / leverage)).
  { apply Qmult_lt_0_compat; assumption. }
  eexists. eexists. split; [reflexivity|]. split; [reflexivity|].
  split; [lra|]. split; [lra|]. split; [ring|]. split.
  - assert (Heq : entry_price * (1 - 1 / leverage)
                  == entry_price * ((leverage - 1) / leverage))
      by (field; exact Hnz).
    rewrite Heq. split; intros H.
    + destruct (Qlt_le_dec 1 leverage) as [H1|H1]; [exact H1|exfalso].
      assert (Hq : (leverage - 1) / leverage <= 0).
      { apply Qle_shift_div_r; [assumption|]. lra. }
      assert (Hp : entry_price * ((leverage - 1) / leverage) <= 0) by nra.
      lra.
    + apply Qmult_lt_0_compat; [assumption|].
      apply Qlt_shift_div_l; [assumption|]. lra.
  - intros H1. rewrite H1. field.
Qed.

Lemma liquidation_prices_bracket_entry_witness :
  exists long_price short_price : Q,
    calculate_liquidation_price 100 30 true 3 = Return long_price
    /\ calculate_liquidation_price 100 30 false 3 = Return short_price
    /\ long_price < 100
    /\ 100 < short_price.
Proof.
  destruct (liquidation_prices_bracket_entry 100 30 3)
    as (l & s & Hl & Hs & H1 & H2 & _); [reflexivity|reflexivity|].
  exists l, s. repeat split; assumption.
Defined.

(** X3.  [check_liquidation] on a position carrying the price
    [calculate_liquidation_price] computed for it (positive entry and
    leverage): a long is liquidated exactly when the current price is at
    or below that price, a short exactly when it is at or above it; the
    position is liquidated at the liquidation price itself and is not at
    its entry price. *)
Theorem check_liquidation_at_computed_price :
  forall (entry_price position_size leverage current_price : Q)
         (is_long : bool),
    0 < entry_price -> 0 < leverage ->
    exists liquidation_price : Q,
      calculate_liquidation_price entry_price position_size is_long leverage
      = Return liquidation_price
      /\ (check_liquidation current_price
            (Levered.mk liquidation_price is_long) = true
          <-> if is_long then current_price <= liquidation_price
              else liquidation_price <= current_price)
      /\ check_liquidation liquidation_price
           (Levered.mk liquidation_price is_long) = true
      /\ check_liquidation entry_price
           (Levered.mk liquidation_price is_long) = false.
Proof.
  intros entry_price position_size leverage current_price is_long He Hl.
  destruct (calculate_liquidation_price_sides entry_price position_size
              leverage He Hl) as (El & Es & Hlt & Hgt).
  set (l := entry_price * (1 - 1 / leverage)) in *.
  set (s := entry_price * (1 + 1 / leverage)) in *.
  assert (Hiff : forall cur lp,
             check_liquidation cur (Levered.mk lp is_long) = true
             <-> if is_long then cur <= lp else lp <= cur).
  { intros cur lp. unfold check_liquidation. cbn [Levered.liquidation_price Levered.is_long].
    destruct is_long; cbn [andb negb].
    - destruct (py_le cur lp) eqn:E.
      + apply py_le_true in E. split; auto.
      + apply py_le_false in E. split; [discriminate|].
        intros C. apply Qle_not_lt in C. contradiction.
    - destruct (py_le lp cur) eqn:E.
      + apply py_le_true in E. split; auto.
      + apply py_le_false in E. split; [discriminate|].
        intros C. apply Qle_not_lt in C. contradiction. }
  destruct is_long.
  - exists l. split; [exact El|]. split; [apply Hiff|]. split.
    + apply Hiff. apply Qle_refl.
    + destruct (check_liquidation entry_price (Levered.mk l true)) eqn:E;
        [|reflexivity].
      apply Hiff in E. apply Qle_not_lt in E. contradiction.
  - exists s. split; [exact Es|]. split; [apply Hiff|]. split.
    + apply Hiff. apply Qle_refl.
    + destruct (check_liquidation entry_price (Levered.mk s false)) eqn:E;
        [|reflexivity].
      apply Hiff in E. apply Qle_not_lt in E. contradiction.
Qed.

Lemma check_liquidation_at_computed_price_witness :
  exists liquidation_price : Q,
    calculate_liquidation_price 100 30 true 3 = Return liquidation_price
    /\ check_liquidation liquidation_price (Levered.mk liquidation_price true)
       = true
    /\ check_liquidation 100 (Levered.mk liquidation_price true) = false.
Proof.
  destruct (check_liquidation_at_computed_price 100 30 3 50 true)
    as (l & El & _ & H1 & H2); [reflexivity|reflexivity|].
  exists l. repeat split; assumption.
Defined.

(** The sum of [calculate_funding_fee] over a list of positions. *)
Definition funding_due (b : Bot) (hours : Q) (ps : list Position.t) : Q :=
  fold_right (fun p acc => calculate_funding_fee b p hours + acc) 0 ps.

Lemma total_position_value_from (ps : list Position.t) (acc : Q) :
  fold_left (fun acc pos => acc + Position.size pos * Position.entry_price pos)
            ps acc
  == acc + total_position_value ps.
Proof.
  unfold total_position_value. revert acc.
  induction ps as [|p ps IH]; intros acc; cbn [fold_left].
  - ring.
  - rewrite IH. rewrite (IH (0 + _)). ring.
Qed.

Lemma funding_due_eight_hours (b : Bot) (ps : list Position.t) :
  funding_due b 8 ps
  == total_position_value ps * Config.funding_rate (config b).
Proof.
  induction ps as [|p ps IH].
  - unfold total_position_value. cbn. ring.
  - cbn [funding_due fold_right]. fold (funding_due b 8 ps). rewrite IH.
    unfold total_position_value at 2. cbn [fold_left].
    rewrite total_position_value_from.
    unfold calculate_funding_fee. field.
Qed.

(** X4.  One call of [apply_funding_fees] charges, for every open
    position, what [calculate_funding_fee] computes for eight hours,
    whatever time has passed: the sum is added to [funding_fees] and to
    [total_fees] and taken from the balance, and nothing else changes;
    with no open position nothing is charged. *)
Theorem apply_funding_fees_charges_eight_hours :
  forall (timestamp : Z) (b : Bot),
    result_of (apply_funding_fees timestamp b) = Return tt
    /\ funding_fees (state_after (apply_funding_fees timestamp b))
       == funding_fees b + funding_due b 8 (positions b)
    /\ total_fees (state_after (apply_funding_fees timestamp b))
       == total_fees b + funding_due b 8 (positions b)
    /\ current_balance (state_after (apply_funding_fees timestamp b))
       == current_balance b - funding_due b 8 (positions b)
    /\ positions (state_after (apply_funding_fees timestamp b)) = positions b
    /\ trades (state_after (apply_funding_fees timestamp b)) = trades b
    /\ start_balance (state_after (apply_funding_fees timestamp b))
       = start_balance b.
Proof.
  intros timestamp b. unfold apply_funding_fees.
  destruct (positions b) as [|p ps] eqn:E.
  - cbn. rewrite E. repeat split; try reflexivity; ring.
  - cbn [List.length Nat.ltb Nat.leb].
    cbn [result_of state_after fst snd funding_fees total_fees current_balance
         positions trades start_balance set_funding_fees set_total_fees
         set_current_balance].
    rewrite <- E, funding_due_eight_hours.
    repeat split; try reflexivity.
Qed.

Lemma position_pnl_per_unit (position : Position.t) (price : Q) :
  position_pnl position price
  == (if String.eqb (Position.side position) "long"
      then price - Position.entry_price position
      else Position.entry_price position - price)
     * Position.leverage position * Position.size position.
Proof.
  unfold position_pnl. destruct (String.eqb _ _); ring.
Qed.



Lemma py_max_cases (a b : Q) :
  (a < b /\ py_max a b = b) \/ (b <= a /\ py_max a b = a).
Proof.
  unfold py_max. destruct (py_lt a b) eqn:E.
  - left. split; [apply py_lt_true; exact E|reflexivity].
  - right. split; [apply py_lt_false; exact E|reflexivity].
Qed.

Lemma py_min_cases (a b : Q) :
  (b < a /\ py_min a b = b) \/ (a <= b /\ py_min a b = a).
Proof.
  unfold py_min. destruct (py_lt b a) eqn:E.
  - left. split; [apply py_lt_true; exact E|reflexivity].
  - right. split; [apply py_lt_false; exact E|reflexivity].
Qed.

Lemma py_max_bounds (a b : Q) : a <= py_max a b /\ b <= py_max a b.
Proof.
  destruct (py_max_cases a b) as [[H E]|[H E]]; rewrite E; split; lra.
Qed.

Lemma py_min_bounds (a b : Q) : py_min a b <= a /\ py_min a b <= b.
Proof.
  destruct (py_min_cases a b) as [[H E]|[H E]]; rewrite E; split; lra.
Qed.

(** X6.  Whatever the basic check [check_liquidation_risk] flags, the
    advanced check flags too, as long as the volatility is not negative:
    with risk management switched off it is the basic check, and switched
    on its first test compares the same margin ratio with a buffer that
    is at least the configured one. *)
Theorem advanced_risk_management_flags_what_basic_flags :
  forall (s : RiskSettings) (b : Bot) (position : Position.t)
         (current_price volatility : Q),
    0 <= volatility ->
    check_liquidation_risk b position current_price = Return true ->
    advanced_risk_management s b position current_price volatility
    = Return true.
Proof.
  intros s b position current_price volatility Hv H.
  unfold advanced_risk_management.
  destruct (risk_management_enabled s); cbn [negb]; [|exact H].
  unfold check_liquidation_risk in H.
  destruct (py_div (Position.size position
                    + position_pnl position current_price)
                   (Position.size position)) as [r|e]; [|discriminate H].
  injection H as H. apply py_lt_true in H.
  assert (E : py_lt r (Config.liquidation_buffer (config b) + volatility * 10)
              = true) by (apply py_lt_true; lra).
  rewrite E. reflexivity.
Qed.

Lemma advanced_risk_management_flags_what_basic_flags_witness :
  advanced_risk_management init_risk_settings (sample_bot 5) held_long
                           (69 # 1) 0.02
  = Return true.
Proof.
  apply (advanced_risk_management_flags_what_basic_flags
           init_risk_settings (sample_bot 5) held_long (69 # 1) 0.02).
  - discriminate.
  - vm_compute. reflexivity.
Defined.

(** X7.  With risk management on, a position of positive size and a stop
    loss not above the take profit: the verdict is decided by the margin
    ratio and the stop-loss test alone, and the stop-loss test takes the
    absolute value of the PnL, so a gain larger than [stop_loss_pct] of
    the margin closes the position before [take_profit_pct] is ever
    compared. *)
Theorem take_profit_is_shadowed_by_stop_loss :
  forall (s : RiskSettings) (b : Bot) (position : Position.t)
         (current_price volatility : Q),
    risk_management_enabled s = true ->
    0 < Position.size position ->
    Config.stop_loss_pct (config b) <= Config.take_profit_pct (config b) ->
    exists close_it : bool,
      advanced_risk_management s b position current_price volatility
      = Return close_it
      /\ (close_it = true
          <-> (Position.size position + position_pnl position current_price)
              / Position.size position
              < Config.liquidation_buffer (config b) + volatility * 10
              \/ Config.stop_loss_pct (config b)
                 < Qabs (position_pnl position current_price)
                   / Position.size position).
Proof.
  intros s b position current_price volatility Hon Hsize Hsl.
  assert (Hnz : ~ Position.size position == 0)
    by (intros C; rewrite C in Hsize; now apply Qlt_irrefl in Hsize).
  unfold advanced_risk_management. rewrite Hon. cbn [negb].
  rewrite !py_div_nonzero by assumption.
  set (pnl := position_pnl position current_price).
  set (margin := Position.size position) in *.
  assert (Habs : pnl / margin <= Qabs pnl / margin).
  { unfold Qdiv. apply Qmult_le_compat_r; [apply Qle_Qabs|].
    apply Qinv_le_0_compat. apply Qlt_le_weak. exact Hsize. }
  destruct (py_lt ((margin + pnl) / margin)
                  (Config.liquidation_buffer (config b) + volatility * 10))
    eqn:E1.
  - eexists. split; [reflexivity|]. apply py_lt_true in E1. tauto.
  - apply py_lt_false in E1.
    destruct (py_lt (Config.stop_loss_pct (config b)) (Qabs pnl / margin))
      eqn:E2.
    + eexists. split; [reflexivity|]. apply py_lt_true in E2. tauto.
    + apply py_lt_false in E2.
      assert (E3 : py_lt (Config.take_profit_pct (config b)) (pnl / margin)
                   = false) by (apply py_lt_false; lra).
      rewrite E3. eexists. split; [reflexivity|].
      split; [discriminate|]. intros [H|H]; exfalso; lra.
Qed.

Lemma take_profit_is_shadowed_by_stop_loss_witness :
  exists close_it : bool,
    advanced_risk_management init_risk_settings (sample_bot 5) held_long
                             (1002 # 10) 0.02
    = Return close_it
    /\ (close_it = true
        <-> (Position.size held_long + position_pnl held_long (1002 # 10))
            / Position.size held_long
            < Config.liquidation_buffer (config (sample_bot 5)) + 0.02 * 10
            \/ Config.stop_loss_pct (config (sample_bot 5))
               < Qabs (position_pnl held_long (1002 # 10))
                 / Position.size held_long).
Proof.
  apply (take_profit_is_shadowed_by_stop_loss
           init_risk_settings (sample_bot 5) held_long (1002 # 10) 0.02).
  - reflexivity.
  - reflexivity.
  - discriminate.
Defined.

(** X8.  With dynamic leverage on, [calculate_dynamic_leverage] stays
    between 1 and 3 for every configuration, volatility, trend and
    balance; a configured leverage of 5 or more with a non-negative
    balance always comes out as exactly 3.0.  With dynamic leverage off
    the configured leverage is returned without any clamping. *)
Theorem calculate_dynamic_leverage_is_clamped :
  forall (s : RiskSettings) (b : Bot) (volatility : Q) (trend : string)
         (balance : Q),
    (dynamic_leverage_enabled s = true ->
     1 <= calculate_dynamic_leverage s b volatility trend balance <= 3
     /\ (0 <= balance -> 5 <= Config.leverage (config b) ->
         calculate_dynamic_leverage s b volatility trend balance = 3.0))
    /\ (dynamic_leverage_enabled s = false ->
        calculate_dynamic_leverage s b volatility trend balance
        = Config.leverage (config b)).
Proof.
  intros s b volatility trend balance. unfold calculate_dynamic_leverage.
  split; intros Hs; rewrite Hs; cbn [negb]; [|reflexivity].
  set (vm := if py_lt volatility 0.01 then 1.2
             else if py_lt 0.05 volatility then 0.7 else 1.0).
  set (tm := if String.eqb trend "bullish" then 1.1
             else if String.eqb trend "bearish" then 0.9 else 1.0).
  set (bm := py_min 1.5 (1.0 + balance / 100000)).
  set (dl := Config.leverage (config b) * vm * tm * bm).
  split.
  - destruct (py_max_cases 1.0 (py_min 3.0 dl)) as [[H E]|[H E]];
      rewrite E; destruct (py_min_cases 3.0 dl) as [[H' E']|[H' E']];
      rewrite E' in *; split; lra.
  - intros Hb Hl.
    assert (Hvm : 0.7 <= vm).
    { unfold vm. destruct (py_lt volatility 0.01);
        [|destruct (py_lt 0.05 volatility)]; lra. }
    assert (Htm : 0.9 <= tm).
    { unfold tm. destruct (String.eqb trend "bullish");
        [|destruct (String.eqb trend "bearish")]; lra. }
    assert (Hbm : 1 <= bm).
    { unfold bm. destruct (py_min_cases 1.5 (1.0 + balance / 100000))
        as [[H E]|[H E]]; rewrite E; [|lra].
      assert (0 <= balance / 100000)
        by (apply Qle_shift_div_l; [reflexivity|lra]).
      lra. }
    assert (Hdl : 3.0 <= dl).
    { unfold dl.
      assert (H1 : 3.5 <= Config.leverage (config b) * vm) by nra.
      assert (H2 : 3.15 <= Config.leverage (config b) * vm * tm) by nra.
      nra. }
    destruct (py_min_cases 3.0 dl) as [[H E]|[H E]]; [lra|].
    rewrite E. reflexivity.
Qed.

(** X9.  With the adaptive grid on, [calculate_adaptive_position_size]
    never raises, does not look at the price, and returns at most
    [current_balance * max_position_size]; with the adaptive grid off it
    is [calculate_position_size] and raises ZeroDivisionError at a zero
    price. *)
Theorem calculate_adaptive_position_size_is_capped :
  forall (s : RiskSettings) (b : Bot) (price volatility : Q)
         (trend : string),
    (adaptive_grid_enabled s = true ->
     exists amount : Q,
       calculate_adaptive_position_size s b price volatility trend
       = Return amount
       /\ amount <= current_balance b * max_position_size s
       /\ forall other_price : Q,
            calculate_adaptive_position_size s b other_price volatility trend
            = Return amount)
    /\ (adaptive_grid_enabled s = false ->
        calculate_adaptive_position_size s b 0 volatility trend
        = Raise ZeroDivisionError).
Proof.
  intros s b price volatility trend.
  unfold calculate_adaptive_position_size.
  split; intros Hs; rewrite Hs; cbn [negb].
  - eexists. split; [reflexivity|]. split; [|reflexivity].
    apply py_min_bounds.
  - unfold calculate_position_size. apply py_div_zero. reflexivity.
Qed.

(** The level count [calculate_adaptive_grid_prices] works with. *)
Definition adapted_grid_count (grid_count : Z) (volatility : Q) : Z :=
  if py_lt 0.05 volatility then py_int (inject_Z grid_count * 1.5)
  else if py_lt volatility 0.01 then py_int (inject_Z grid_count * 0.8)
  else grid_count.

Lemma calculate_adaptive_grid_prices_unfold
  (feed : PriceFeed) (b : Bot) (current_price volatility lo hi : Q) :
  auto_set_grid_range feed (config b) = Config.set_grid_range lo hi (config b) ->
  result_of (calculate_adaptive_grid_prices feed current_price volatility b)
  = let n := adapted_grid_count (Config.grid_count (config b)) volatility in
    match py_div (hi - lo) (inject_Z (n - 1)) with
    | Raise e => Raise e
    | Return grid_spacing =>
        Return
          (map (fun i =>
                  py_max lo (current_price - inject_Z (n / 2) * grid_spacing)
                  + inject_Z (Z.of_nat i) * grid_spacing)
               (seq 0 (Z.to_nat n)))
    end.
Proof.
  intros H.
  unfold calculate_adaptive_grid_prices, bind, modify, get, lift, ret.
  rewrite H. cbn -[py_int py_lt py_div py_max py_min Z.div Z.sub].
  unfold adapted_grid_count.
  destruct (py_lt 0.05 volatility); [|destruct (py_lt volatility 0.01)];
    match goal with
    | |- context [py_div ?x ?y] => destruct (py_div x y)
    end; reflexivity.
Qed.

(** X10.  [calculate_adaptive_grid_prices], relative to the bounds
    [lo < hi] that [auto_set_grid_range] writes and the adapted level
    count [n]: for [n >= 2] it returns [n] levels that start at or above
    [lo] and always span exactly [hi - lo], so the top level is at or
    above [hi], and strictly above it whenever the centred start price is
    above [lo] (the clamped [end_price] is not used); for [n = 1] it
    raises ZeroDivisionError, which is what two configured levels become
    at a volatility below 0.01. *)
Theorem calculate_adaptive_grid_prices_span :
  forall (feed : PriceFeed) (b : Bot) (current_price volatility lo hi : Q),
    auto_set_grid_range feed (config b)
    = Config.set_grid_range lo hi (config b) ->
    let n := adapted_grid_count (Config.grid_count (config b)) volatility in
    ((2 <= n)%Z -> lo < hi ->
     exists levels : list Q,
       result_of (calculate_adaptive_grid_prices feed current_price
                                                 volatility b)
       = Return levels
       /\ List.length levels = Z.to_nat n
       /\ lo <= nth 0 levels 0
       /\ nth (Z.to_nat n - 1) levels 0 - nth 0 levels 0 == hi - lo
       /\ hi <= nth (Z.to_nat n - 1) levels 0
       /\ (lo < current_price
                - inject_Z (n / 2) * ((hi - lo) / inject_Z (n - 1)) ->
           hi < nth (Z.to_nat n - 1) levels 0))
    /\ (n = 1%Z ->
        result_of (calculate_adaptive_grid_prices feed current_price
                                                  volatility b)
        = Raise ZeroDivisionError)
    /\ (Config.grid_count (config b) = 2%Z -> volatility < 0.01 -> n = 1%Z).
Proof.
  intros feed b current_price volatility lo hi E n.
  rewrite (calculate_adaptive_grid_prices_unfold feed b current_price
             volatility lo hi E).
  fold n. cbv zeta. split; [|split].
  - intros Hn Hlt.
    assert (Hpos : 0 < inject_Z (n - 1)).
    { change 0 with (inject_Z 0). rewrite <- Zlt_Qlt. lia. }
    assert (Hnz : ~ inject_Z (n - 1) == 0).
    { intros C. rewrite C in Hpos. now apply Qlt_irrefl in Hpos. }
    rewrite py_div_nonzero by assumption.
    set (sp := (hi - lo) / inject_Z (n - 1)).
    set (start := py_max lo (current_price - inject_Z (n / 2) * sp)).
    set (f := fun i : nat => start + inject_Z (Z.of_nat i) * sp).
    assert (Hnth : forall i, (i < Z.to_nat n)%nat ->
                             nth i (map f (seq 0 (Z.to_nat n))) 0 = f i).
    { intros i Hi.
      rewrite (nth_indep _ 0 (f 0%nat)) by now rewrite length_map, length_seq.
      rewrite map_nth, seq_nth by assumption. reflexivity. }
    assert (Hfirst : f 0%nat == start) by (unfold f; cbn; ring).
    assert (Hlast : f (Z.to_nat n - 1)%nat == start + (hi - lo)).
    { unfold f, sp.
      replace (Z.of_nat (Z.to_nat n - 1)) with (n - 1)%Z by lia.
      field. exact Hnz. }
    assert (Hstart : lo <= start) by apply py_max_bounds.
    eexists. split; [reflexivity|].
    split; [now rewrite length_map, length_seq|].
    rewrite !Hnth by lia. rewrite Hfirst, Hlast.
    split; [exact Hstart|]. split; [ring|]. split; [lra|].
    intros Habove.
    assert (Hs : current_price - inject_Z (n / 2) * sp <= start)
      by apply py_max_bounds.
    lra.
  - intros H1. rewrite py_div_zero; [reflexivity|].
    apply inject_Z_pred_zero. exact H1.
  - intros H2 Hv. unfold n, adapted_grid_count. rewrite H2.
    assert (E1 : py_lt 0.05 volatility = false)
      by (apply py_lt_false; lra).
    assert (E2 : py_lt volatility 0.01 = true)
      by (apply py_lt_true; exact Hv).
    rewrite E1, E2. reflexivity.
Qed.

Lemma calculate_adaptive_grid_prices_span_witness :
  exists levels : list Q,
    result_of (calculate_adaptive_grid_prices (Historical 100 0.02) 105 0.02
                                              (sample_bot 5))
    = Return levels
    /\ (22000 # 200) < nth 4 levels 0.
Proof.
  destruct (calculate_adaptive_grid_prices_span
              (Historical 100 0.02) (sample_bot 5) 105 0.02
              (18000 # 200) (22000 # 200))
    as [H _]; [vm_compute; reflexivity|].
  destruct H as (levels & Hl & _ & _ & _ & _ & Habove);
    [vm_compute; discriminate|reflexivity|].
  exists levels. split; [exact Hl|]. apply Habove. reflexivity.
Defined.

Lemma bb_trend_cases (current : Indicators) :
  bb_trend current = "bullish"%string
  \/ bb_trend current = "bearish"%string
  \/ bb_trend current = "neutral"%string.
Proof.
  unfold bb_trend.
  destruct (bb_upper current); [|tauto].
  destruct (bb_lower current); [|tauto].
  destruct (np_gt (bb_position current) 0.7); [tauto|].
  destruct (np_lt (bb_position current) 0.3); tauto.
Qed.

(** X11.  [detect_trend] is "neutral" before row 50 and whenever the
    trend strength is below the threshold.  Otherwise the RSI and MACD
    signals decide as soon as they agree, whatever the Bollinger signal
    says, and when they disagree the answer is the Bollinger signal,
    "neutral" included. *)
Theorem detect_trend_majority :
  forall (s : RiskSettings) (index : nat) (current : Indicators),
    ((index < 50)%nat -> detect_trend s index current = "neutral"%string)
    /\ (trend_strength current < trend_strength_threshold s ->
        detect_trend s index current = "neutral"%string)
    /\ ((50 <= index)%nat ->
        trend_strength_threshold s <= trend_strength current ->
        detect_trend s index current
        = if Bool.eqb (rsi_bullish current) (macd_bullish current)
          then (if rsi_bullish current then "bullish" else "bearish")%string
          else bb_trend current).
Proof.
  intros s index current. unfold detect_trend. split; [|split].
  - intros H. apply Nat.ltb_lt in H. rewrite H. reflexivity.
  - intros H. apply py_lt_true in H. rewrite H.
    destruct (index <? 50)%nat; reflexivity.
  - intros Hi Hs.
    assert (E1 : (index <? 50)%nat = false) by (apply Nat.ltb_ge; exact Hi).
    assert (E2 : py_lt (trend_strength current) (trend_strength_threshold s)
                 = false) by (apply py_lt_false; exact Hs).
    rewrite E1, E2.
    destruct (rsi_bullish current), (macd_bullish current);
      destruct (bb_trend_cases current) as [E|[E|E]]; rewrite E; reflexivity.
Qed.

Lemma update_performance_metrics_bounds (b : Bot) (p : Performance) :
  max_balance p <= max_balance (update_performance_metrics b p)
  /\ current_balance b <= max_balance (update_performance_metrics b p)
  /\ min_balance (update_performance_metrics b p) <= min_balance p
  /\ min_balance (update_performance_metrics b p) <= current_balance b
  /\ max_drawdown p <= max_drawdown (update_performance_metrics b p)
  /\ (0 <= current_balance b -> max_drawdown p <= 1 ->
      max_drawdown (update_performance_metrics b p) <= 1).
Proof.
  unfold update_performance_metrics.
  destruct (py_lt (max_balance p) (current_balance b)) eqn:E1;
    destruct (py_lt (current_balance b) (min_balance p)) eqn:E2;
    try apply py_lt_true in E1; try apply py_lt_false in E1;
    try apply py_lt_true in E2; try apply py_lt_false in E2;
    match goal with
    | |- context [py_lt 0 ?m] => destruct (py_lt 0 m) eqn:E3
    end;
    try match goal with
    | |- context [py_lt (max_drawdown p) ?d] =>
        destruct (py_lt (max_drawdown p) d) eqn:E4;
        [apply py_lt_true in E4|apply py_lt_false in E4]
    end;
    cbn [max_balance min_balance max_drawdown];
    repeat split; try lra; intros Hc Hd; try lra;
    apply py_lt_true in E3;
    (apply Qle_shift_div_r; [exact E3|lra]).
Qed.

Lemma track_performance_bounds (b : Bot) (balances : list Q) :
  forall p : Performance,
    max_balance p <= max_balance (track_performance b balances p)
    /\ min_balance (track_performance b balances p) <= min_balance p
    /\ Forall (fun x => min_balance (track_performance b balances p) <= x
                        /\ x <= max_balance (track_performance b balances p))
              balances
    /\ max_drawdown p <= max_drawdown (track_performance b balances p)
    /\ (Forall (fun x => 0 <= x) balances -> max_drawdown p <= 1 ->
        max_drawdown (track_performance b balances p) <= 1).
Proof.
  induction balances as [|x rest IH]; intros p.
  - cbn. repeat split; try lra; auto.
  - unfold track_performance. cbn [fold_left].
    set (p1 := update_performance_metrics (set_current_balance x b) p).
    fold (track_performance b rest p1).
    destruct (update_performance_metrics_bounds (set_current_balance x b) p)
      as (U1 & U2 & U3 & U4 & U5 & U6).
    fold p1 in U1, U2, U3, U4, U5, U6.
    cbn [current_balance set_current_balance] in U2, U4, U6.
    destruct (IH p1) as (I1 & I2 & I3 & I4 & I5).
    split; [lra|]. split; [lra|]. split; [|split; [lra|]].
    + constructor; [split; lra|exact I3].
    + intros HF Hd. inversion HF as [|y l Hy Hl]; subst.
      apply I5; [exact Hl|]. apply U6; assumption.
Qed.

(** X12.  [update_performance_metrics] run after each of a series of
    balances, from the values [__init__] sets: the recorded minimum and
    maximum enclose the initial balance and every balance seen, the
    recorded drawdown is never negative, and it is at most 1 as long as
    no balance seen is negative. *)
Theorem track_performance_encloses_balances :
  forall (c : Config.t) (b : Bot) (balances : list Q),
    let p := track_performance b balances (init_performance c) in
    min_balance p <= Config.initial_balance c
    /\ Config.initial_balance c <= max_balance p
    /\ Forall (fun x => min_balance p <= x /\ x <= max_balance p) balances
    /\ 0 <= max_drawdown p
    /\ (Forall (fun x => 0 <= x) balances -> max_drawdown p <= 1).
Proof.
  intros c b balances p.
  destruct (track_performance_bounds b balances (init_performance c))
    as (H1 & H2 & H3 & H4 & H5).
  fold p in H1, H2, H3, H4, H5.
  cbn [init_performance max_balance min_balance max_drawdown] in H1, H2, H4, H5.
  repeat split; try assumption.
  intros HF. apply H5; [exact HF|lra].
Qed.

(** A series of balances none of which is below the one before it,
    starting from [previous]. *)
Fixpoint rising (previous : Q) (balances : list Q) : Prop :=
  match balances with
  | [] => True
  | x :: rest => previous <= x /\ rising x rest
  end.

Lemma track_performance_rising (b : Bot) (balances : list Q) :
  forall (previous : Q) (p : Performance),
    rising previous balances ->
    max_balance p <= previous -> 0 <= max_drawdown p ->
    max_drawdown (track_performance b balances p) = max_drawdown p.
Proof.
  induction balances as [|x rest IH]; intros previous p Hr Hm Hd.
  - reflexivity.
  - destruct Hr as [Hx Hr]. unfold track_performance. cbn [fold_left].
    set (p1 := update_performance_metrics (set_current_balance x b) p).
    fold (track_performance b rest p1).
    assert (H1 : max_balance p1 <= x /\ max_drawdown p1 = max_drawdown p).
    { unfold p1, update_performance_metrics.
      cbn [current_balance set_current_balance].
      destruct (py_lt (max_balance p) x) eqn:E1;
        [apply py_lt_true in E1|apply py_lt_false in E1];
        destruct (py_lt x (min_balance p));
        match goal with
        | |- context [py_lt 0 ?m] => destruct (py_lt 0 m) eqn:E3
        end;
        try match goal with
        | |- context [py_lt (max_drawdown p) ?d] =>
            assert (E4 : py_lt (max_drawdown p) d = false);
            [apply py_lt_false; apply py_lt_true in E3;
             apply Qle_shift_div_r; [exact E3|];
             assert (0 <= max_drawdown p * 0) by lra; nra
            |rewrite E4]
        end;
        cbn [max_balance max_drawdown]; split; try reflexivity; lra. }
    destruct H1 as [H1 H2].
    rewrite (IH x p1 Hr H1) by (rewrite H2; exact Hd). exact H2.
Qed.

Lemma last_nonempty_default (y : Q) (l : list Q) (d d' : Q) :
  last (y :: l) d = last (y :: l) d'.
Proof.
  revert y. induction l as [|z l IH]; intros y; [reflexivity|].
  change (last (z :: l) d = last (z :: l) d'). apply IH.
Qed.

Lemma bar_extremes_rising (balances : list Q) :
  forall (previous mx mn : Q),
    rising previous balances -> mx == previous -> mn <= previous ->
    fst (fold_left
           (fun extremes balance =>
              (py_max (fst extremes) balance, py_min (snd extremes) balance))
           balances (mx, mn))
    == last balances previous
    /\ snd (fold_left
              (fun extremes balance =>
                 (py_max (fst extremes) balance,
                  py_min (snd extremes) balance))
              balances (mx, mn))
       = mn.
Proof.
  induction balances as [|x rest IH]; intros previous mx mn Hr Hmx Hmn.
  - cbn. split; [exact Hmx|reflexivity].
  - destruct Hr as [Hx Hr]. cbn [fold_left fst snd].
    assert (Emin : py_min mn x = mn).
    { destruct (py_min_cases mn x) as [[H E]|[H E]]; [lra|exact E]. }
    assert (Emax : py_max mx x == x).
    { destruct (py_max_cases mx x) as [[H E]|[H E]]; rewrite E;
        [reflexivity|lra]. }
    rewrite Emin.
    destruct (IH x (py_max mx x) mn Hr Emax) as [I1 I2]; [lra|].
    split; [|exact I2]. rewrite I1.
    destruct rest as [|y rest']; [reflexivity|].
    change (last (x :: y :: rest') previous)
      with (last (y :: rest') previous).
    rewrite (last_nonempty_default y rest' x previous). reflexivity.
Qed.

Lemma rising_last (balances : list Q) :
  forall (previous floor : Q),
    rising previous balances -> floor <= previous ->
    floor <= last balances floor.
Proof.
  induction balances as [|x rest IH]; intros previous floor Hr Hf.
  - cbn. apply Qle_refl.
  - destruct Hr as [Hx Hr]. destruct rest as [|y rest'].
    + cbn. lra.
    + change (last (x :: y :: rest') floor) with (last (y :: rest') floor).
      apply (IH x floor Hr). lra.
Qed.

(** X13.  Over balances that never fall, starting from a positive
    initial balance, the drawdown [update_performance_metrics] records
    stays 0, while the extremes [run_backtest] keeps are the initial and
    the last balance and the "max_drawdown" it reports is the whole gain,
    [(last - initial) / last * 100]: it measures the distance between the
    highest and the lowest balance, in whatever order they occurred. *)
Theorem backtest_drawdown_reports_gains :
  forall (c : Config.t) (b : Bot) (balances : list Q),
    0 < Config.initial_balance c ->
    rising (Config.initial_balance c) balances ->
    let initial_balance := Config.initial_balance c in
    let final_balance := last balances initial_balance in
    max_drawdown (track_performance b balances (init_performance c)) = 0
    /\ fst (bar_extremes initial_balance balances) == final_balance
    /\ snd (bar_extremes initial_balance balances) = initial_balance
    /\ exists results : Results,
         backtest_results initial_balance
           (fst (bar_extremes initial_balance balances))
           (snd (bar_extremes initial_balance balances)) b
         = Return results
         /\ res_max_drawdown results
            == (final_balance - initial_balance) / final_balance * 100
         /\ (initial_balance < final_balance ->
             0 < res_max_drawdown results).
Proof.
  intros c b balances Hpos Hr. cbv zeta.
  set (initial_balance := Config.initial_balance c) in *.
  set (final_balance := last balances initial_balance).
  destruct (bar_extremes_rising balances initial_balance initial_balance
              initial_balance Hr) as [E1 E2]; [reflexivity|lra|].
  fold (bar_extremes initial_balance balances) in E1, E2.
  fold final_balance in E1.
  assert (Hfinal : initial_balance <= final_balance).
  { unfold final_balance.
    apply (rising_last balances initial_balance initial_balance Hr).
    apply Qle_refl. }
  split.
  - apply (track_performance_rising b balances initial_balance);
      [exact Hr|apply Qle_refl|apply Qle_refl].
  - split; [exact E1|]. split; [exact E2|].
    unfold backtest_results.
    assert (Hnz : ~ initial_balance == 0) by lra.
    assert (Hmx : ~ fst (bar_extremes initial_balance balances) == 0)
      by (rewrite E1; lra).
    rewrite !py_div_nonzero by assumption.
    eexists. split; [reflexivity|]. cbn [res_max_drawdown].
    rewrite E2.
    assert (Eq : (fst (bar_extremes initial_balance balances)
                  - initial_balance)
                 / fst (bar_extremes initial_balance balances) * 100
                 == (final_balance - initial_balance) / final_balance * 100).
    { rewrite E1. reflexivity. }
    split; [exact Eq|]. intros Hgain. rewrite Eq.
    assert (0 < (final_balance - initial_balance) / final_balance).
    { apply Qlt_shift_div_l; lra. }
    lra.
Qed.

Lemma backtest_drawdown_reports_gains_witness :
  max_drawdown (track_performance (sample_bot 5) [10500; 11000]
                                  (init_performance (sample_config 5)))
  = 0
  /\ exists results : Results,
       backtest_results 10000 (fst (bar_extremes 10000 [10500; 11000]))
                        (snd (bar_extremes 10000 [10500; 11000]))
                        (sample_bot 5)
       = Return results
       /\ 0 < res_max_drawdown results.
Proof.
  destruct (backtest_drawdown_reports_gains
              (sample_config 5) (sample_bot 5) [10500; 11000])
    as (H1 & _ & _ & results & H2 & _ & H3).
  - reflexivity.
  - cbn. repeat split; discriminate.
  - split; [exact H1|]. exists results. split; [exact H2|].
    apply H3. reflexivity.
Defined.

(** X14.  The metrics at the end of [run_backtest]: they raise
    ZeroDivisionError when the initial balance or the highest balance is
    zero; otherwise every recorded trade is counted, the winners are at
    most that many, the win rate lies between 0 and 100 and is 0 without
    trades, and the trading and funding fees add up to the total fees. *)
Theorem backtest_results_are_consistent :
  forall (initial_balance max_balance min_balance : Q) (b : Bot),
    (initial_balance == 0 \/ max_balance == 0 ->
     backtest_results initial_balance max_balance min_balance b
     = Raise ZeroDivisionError)
    /\ (~ initial_balance == 0 -> ~ max_balance == 0 ->
        exists results : Results,
          backtest_results initial_balance max_balance min_balance b
          = Return results
          /\ res_total_trades results = List.length (trades b)
          /\ (res_win_trades results <= res_total_trades results)%nat
          /\ 0 <= res_win_rate results <= 100
          /\ (trades b = [] -> res_win_rate results = 0)
          /\ res_trading_fees results + res_funding_fees results
             == res_total_fees results
          /\ res_total_return results * initial_balance
             == (current_balance b - initial_balance) * 100).
Proof.
  intros initial_balance max_balance min_balance b.
  unfold backtest_results. split.
  - intros [H|H].
    + rewrite (py_div_zero _ initial_balance H). reflexivity.
    + destruct (Qeq_dec initial_balance 0) as [Hi|Hi].
      * rewrite (py_div_zero _ initial_balance Hi). reflexivity.
      * rewrite (py_div_nonzero _ initial_balance Hi).
        rewrite (py_div_zero _ max_balance H). reflexivity.
  - intros Hi Hm. rewrite !py_div_nonzero by assumption.
    eexists. split; [reflexivity|].
    cbn [res_total_trades res_win_trades res_win_rate res_trading_fees
         res_funding_fees res_total_fees res_total_return].
    set (wins := List.length (filter (fun t => py_lt 0 (Trade.pnl t))
                                     (trades b))).
    assert (Hw : (wins <= List.length (trades b))%nat)
      by apply filter_length_le.
    split; [reflexivity|]. split; [exact Hw|]. split; [|split; [|split]].
    + destruct (List.length (trades b)) as [|n] eqn:El.
      * cbn. split; [apply Qle_refl|discriminate].
      * cbn [Nat.ltb Nat.leb].
        assert (Hpos : 0 < inject_Z (Z.of_nat (S n))).
        { change 0 with (inject_Z 0). rewrite <- Zlt_Qlt. lia. }
        assert (H0 : 0 <= inject_Z (Z.of_nat wins)).
        { change 0 with (inject_Z 0). rewrite <- Zle_Qle. lia. }
        assert (H1 : inject_Z (Z.of_nat wins) <= inject_Z (Z.of_nat (S n))).
        { rewrite <- Zle_Qle. lia. }
        assert (Hq0 : 0 <= inject_Z (Z.of_nat wins)
                          / inject_Z (Z.of_nat (S n))).
        { apply Qle_shift_div_l; [exact Hpos|]. lra. }
        assert (Hq1 : inject_Z (Z.of_nat wins) / inject_Z (Z.of_nat (S n))
                      <= 1).
        { apply Qle_shift_div_r; [exact Hpos|]. lra. }
        split; lra.
    + intros E. rewrite E. reflexivity.
    + ring.
    + field. exact Hi.
Qed.

(** "Check liquidations": the two loops of [run_backtest] on one bar. *)
Definition check_liquidations (current_price : Q) : M unit :=
  b <- get ;;
  positions_to_remove <- liquidation_scan current_price (positions b) ;;
  remove_each positions_to_remove.

(** The verdict of [check_liquidation_risk] where it returns one. *)
Definition flagged (b : Bot) (current_price : Q) (position : Position.t)
  : bool :=
  match check_liquidation_risk b position current_price with
  | Return verdict => verdict
  | Raise _ => false
  end.

Lemma py_lt_compat (a a' c c' : Q) :
  a == a' -> c == c' -> py_lt a c = py_lt a' c'.
Proof.
  intros Ha Hc.
  destruct (py_lt a c) eqn:E1; destruct (py_lt a' c') eqn:E2; try reflexivity;
    try apply py_lt_true in E1; try apply py_lt_false in E1;
    try apply py_lt_true in E2; try apply py_lt_false in E2;
    rewrite Ha, Hc in E1; exfalso; lra.
Qed.

Lemma Position_eqb_refl (p : Position.t) : Position.eqb p p = true.
Proof.
  unfold Position.eqb, py_eq.
  rewrite Nat.eqb_refl, String.eqb_refl, Z.eqb_refl.
  rewrite !(proj2 (Qeq_bool_iff _ _) (Qeq_refl _)). reflexivity.
Qed.

Lemma flagged_respects_eqb (b : Bot) (current_price : Q) (p q : Position.t) :
  Position.eqb p q = true ->
  flagged b current_price p = flagged b current_price q.
Proof.
  unfold Position.eqb, py_eq. intros H.
  repeat (apply andb_prop in H; destruct H as [H ?]).
  repeat match goal with
         | H : Qeq_bool _ _ = true |- _ => apply Qeq_bool_iff in H
         end.
  match goal with
  | H : String.eqb _ _ = true |- _ => apply String.eqb_eq in H; rename H into Hside
  end.
  assert (Hsize : Position.size p == Position.size q) by assumption.
  assert (Hentry : Position.entry_price p == Position.entry_price q)
    by assumption.
  assert (Hlev : Position.leverage p == Position.leverage q) by assumption.
  assert (Hpnl : position_pnl p current_price == position_pnl q current_price).
  { rewrite !position_pnl_per_unit. rewrite Hside.
    destruct (String.eqb (Position.side q) "long");
      rewrite Hsize, Hentry, Hlev; reflexivity. }
  unfold flagged, check_liquidation_risk.
  destruct (Qeq_dec (Position.size p) 0) as [Hz|Hz].
  - rewrite (py_div_zero _ _ Hz).
    rewrite py_div_zero by (rewrite <- Hsize; exact Hz). reflexivity.
  - rewrite (py_div_nonzero _ _ Hz).
    rewrite py_div_nonzero by (rewrite <- Hsize; exact Hz).
    apply py_lt_compat; [|reflexivity].
    rewrite Hpnl, Hsize. reflexivity.
Qed.

Lemma check_liquidation_risk_flagged
  (b : Bot) (current_price : Q) (p : Position.t) :
  ~ Position.size p == 0 ->
  check_liquidation_risk b p current_price
  = Return (flagged b current_price p).
Proof.
  intros Hp. unfold flagged, check_liquidation_risk.
  rewrite (py_div_nonzero _ _ Hp). reflexivity.
Qed.

Lemma liquidation_scan_collects (current_price : Q) (ps : list Position.t) :
  forall b : Bot,
    Forall (fun p => ~ Position.size p == 0) ps ->
    liquidation_scan current_price ps b
    = (Return (filter (flagged b current_price) ps),
       set_liquidated_positions
         (liquidated_positions b
          + List.length (filter (flagged b current_price) ps))
         b).
Proof.
  induction ps as [|p rest IH]; intros b HF.
  - cbn. unfold ret. rewrite Nat.add_0_r. destruct b; reflexivity.
  - inversion HF as [|x l Hp Hrest]; subst.
    cbn [liquidation_scan filter]. unfold bind at 1. unfold get.
    unfold bind at 1. unfold lift.
    rewrite (check_liquidation_risk_flagged b current_price p Hp).
    destruct (flagged b current_price p) eqn:Ef.
    + unfold bind at 1. unfold modify. unfold bind at 1.
      rewrite (IH _ Hrest). unfold ret.
      change (flagged (set_liquidated_positions (liquidated_positions b + 1) b)
                      current_price)
        with (flagged b current_price).
      cbn [List.length liquidated_positions set_liquidated_positions].
      f_equal. destruct b; unfold set_liquidated_positions; cbn.
      f_equal. lia.
    + apply (IH b Hrest).
Qed.

Lemma list_remove_after_unequal (x : Position.t) (pre rest : list Position.t) :
  Forall (fun y => Position.eqb y x = false) pre ->
  list_remove x (pre ++ x :: rest) = Some (pre ++ rest).
Proof.
  induction pre as [|y pre IH]; intros HF.
  - cbn. rewrite Position_eqb_refl. reflexivity.
  - inversion HF as [|z l Hy Hpre]; subst.
    cbn. rewrite Hy, (IH Hpre). reflexivity.
Qed.

Lemma remove_each_filters (f : Position.t -> bool) :
  (forall p q, Position.eqb p q = true -> f p = f q) ->
  forall (l pre : list Position.t) (b : Bot),
    Forall (fun y => f y = false) pre ->
    positions b = pre ++ l ->
    remove_each (filter f l) b
    = (Return tt,
       set_positions (pre ++ filter (fun p => negb (f p)) l) b).
Proof.
  intros Hf. induction l as [|x l IH]; intros pre b Hpre Hb.
  - cbn. unfold ret. f_equal. rewrite <- Hb. destruct b; reflexivity.
  - cbn [filter]. destruct (f x) eqn:Ex; cbn [negb].
    + cbn [remove_each]. unfold bind, remove_position.
      rewrite Hb, list_remove_after_unequal.
      * rewrite (IH pre (set_positions (pre ++ l) b) Hpre eq_refl).
        reflexivity.
      * apply Forall_forall. intros y Hy.
        rewrite Forall_forall in Hpre. specialize (Hpre y Hy).
        destruct (Position.eqb y x) eqn:E; [|reflexivity].
        rewrite (Hf y x E) in Hpre. congruence.
    + rewrite (IH (pre ++ [x]) b).
      * rewrite <- app_assoc. reflexivity.
      * apply Forall_app. split; [exact Hpre|]. constructor; [exact Ex|constructor].
      * rewrite <- app_assoc. exact Hb.
Qed.

(** X15.  The liquidation check of a bar, on positions of non-zero
    size: it removes exactly the positions [check_liquidation_risk]
    flags, keeps the others in order, and adds their number to
    [liquidated_positions]; the balance, the fees and the trade list are
    left as they were, so a liquidated position is dropped without its
    loss being booked anywhere. *)
Theorem check_liquidations_books_no_loss :
  forall (b : Bot) (current_price : Q),
    Forall (fun p => ~ Position.size p == 0) (positions b) ->
    result_of (check_liquidations current_price b) = Return tt
    /\ positions (state_after (check_liquidations current_price b))
       = filter (fun p => negb (flagged b current_price p)) (positions b)
    /\ liquidated_positions
         (state_after (check_liquidations current_price b))
       = (liquidated_positions b
          + List.length (filter (flagged b current_price) (positions b)))%nat
    /\ current_balance (state_after (check_liquidations current_price b))
       = current_balance b
    /\ total_fees (state_after (check_liquidations current_price b))
       = total_fees b
    /\ trades (state_after (check_liquidations current_price b)) = trades b.
Proof.
  intros b current_price HF.
  unfold check_liquidations. unfold bind at 1. unfold get.
  unfold bind. rewrite (liquidation_scan_collects current_price _ b HF).
  rewrite (remove_each_filters (flagged b current_price)
             (flagged_respects_eqb b current_price)
             (positions b) [] (set_liquidated_positions _ b)
             (Forall_nil _) eq_refl).
  cbn. repeat split; reflexivity.
Qed.

Lemma check_liquidations_books_no_loss_witness :
  positions (state_after (check_liquidations (69 # 1) holding_bot)) = []
  /\ liquidated_positions (state_after (check_liquidations (69 # 1) holding_bot))
     = 1%nat
  /\ current_balance (state_after (check_liquidations (69 # 1) holding_bot))
     = current_balance holding_bot.
Proof.
  destruct (check_liquidations_books_no_loss holding_bot (69 # 1))
    as (_ & H1 & H2 & H3 & _).
  - repeat constructor. discriminate.
  - split; [exact H1|]. split; [exact H2|exact H3].
Defined.

(** X16.  For a positive price, non-negative rates and a draw between
    0.5 and 1.5, the simulated fill always goes against the order: a buy
    fills above the requested price and a sell below it, by the same
    distance for the same draw, and that distance lies between
    [price * (0.5 * slippage_rate + spread_rate)] and
    [price * (1.5 * slippage_rate + spread_rate)], whatever the size. *)
Theorem simulated_fill_is_within_slippage_band :
  forall (u : Q) (b : Bot) (price size : Q),
    0 < price -> 0 <= slippage_rate b -> 0 <= spread_rate b ->
    0.5 <= u <= 1.5 ->
    exists buy_fill sell_fill : Q,
      simulate_order_execution u b price true size = Some buy_fill
      /\ simulate_order_execution u b price false size = Some sell_fill
      /\ buy_fill - price == price - sell_fill
      /\ price * (0.5 * slippage_rate b + spread_rate b) <= buy_fill - price
      /\ buy_fill - price <= price * (1.5 * slippage_rate b + spread_rate b)
      /\ sell_fill <= price <= buy_fill.
Proof.
  intros u b price size Hp Hs Hsp [Hu1 Hu2].
  unfold simulate_order_execution, apply_slippage_and_spread.
  eexists. eexists. split; [reflexivity|]. split; [reflexivity|].
  assert (H1 : 0 <= price * slippage_rate b) by nra.
  assert (H2 : 0 <= price * spread_rate b) by nra.
  assert (H3 : price * slippage_rate b * 0.5 <= price * slippage_rate b * u)
    by nra.
  assert (H4 : price * slippage_rate b * u <= price * slippage_rate b * 1.5)
    by nra.
  split; [ring|]. split; [lra|]. split; [lra|]. split; lra.
Qed.

Lemma simulated_fill_is_within_slippage_band_witness :
  exists buy_fill sell_fill : Q,
    simulate_order_execution 1 (sample_bot 5) 100 true 30 = Some buy_fill
    /\ simulate_order_execution 1 (sample_bot 5) 100 false 30 = Some sell_fill
    /\ sell_fill <= 100 <= buy_fill.
Proof.
  destruct (simulated_fill_is_within_slippage_band 1 (sample_bot 5) 100 30)
    as (buy_fill & sell_fill & H1 & H2 & _ & _ & _ & H3).
  - reflexivity.
  - discriminate.
  - discriminate.
  - split; discriminate.
  - exists buy_fill, sell_fill. split; [exact H1|]. split; [exact H2|exact H3].
Defined.

(** X17.  A position opened by [execute_trade] with the side 'buy' and
    closed by [close_position] at the same requested price: the close
    books the trade with the side 'buy' and a PnL from the short formula,
    [(entry - exit) * size * leverage], so the slippage and spread paid on
    both fills come out as a gain of
    [investment * leverage^2 * (slippage_rate * (u1 + u2) + 2 * spread_rate)],
    the leverage counted once in the size and once more in the PnL. *)
Theorem round_trip_at_one_price_books_a_gain :
  forall (u1 u2 price : Q) (t1 t2 : Z) (b : Bot) (tsp : Q),
    trailing_stop_pct b = Some tsp ->
    0 < price ->
    0 < Config.investment_amount (config b) ->
    0 < Config.leverage (config b) ->
    0 <= slippage_rate b * u1 -> 0 <= slippage_rate b * u2 ->
    0 < spread_rate b ->
    exists (position : Position.t) (trade : Trade.t),
      positions (state_after (execute_trade u1 price "buy" t1 None b))
      = positions b ++ [position]
      /\ trades (state_after
                   (close_position u2 position price t2
                      (state_after (execute_trade u1 price "buy" t1 None b))))
         = trades b ++ [trade]
      /\ Trade.side trade = "buy"%string
      /\ Trade.pnl trade
         == Config.investment_amount (config b)
            * Config.leverage (config b) * Config.leverage (config b)
            * (slippage_rate b * (u1 + u2) + 2 * spread_rate b)
      /\ 0 < Trade.pnl trade.
Proof.
  intros u1 u2 price t1 t2 b tsp Ht Hp Hi Hl Hu1 Hu2 Hsp.
  assert (Hnz : ~ price == 0) by lra.
  assert (Hlnz : ~ Config.leverage (config b) == 0) by lra.
  set (position_size :=
         Config.investment_amount (config b) * Config.leverage (config b)
         / price).
  assert (Hsize : 0 < position_size).
  { unfold position_size. apply Qlt_shift_div_l; [exact Hp|]. nra. }
  set (entry := apply_slippage_and_spread u1 b price true).
  destruct (execute_trade_filled (simulate_order_execution u1) price "buy" t1
              None b tsp entry Hnz Hsize eq_refl Ht) as [Hopen _].
  fold (execute_trade u1) in Hopen. rewrite Hopen.
  set (position := opened_position "buy" t1 (Config.leverage (config b))
                                   position_size tsp b entry).
  assert (Hentry : price < entry).
  { unfold entry, apply_slippage_and_spread. nra. }
  assert (Hvalue : ~ Position.entry_price position * Position.size position
                     == 0).
  { cbn [position opened_position Position.entry_price Position.size]. nra. }
  destruct (close_position_books_then_raises u2 position price t2
              (opened_state "buy" t1 (Config.leverage (config b))
                            position_size tsp b entry) Hvalue)
    as (_ & _ & trade & Htr & Hprice & Hpnl & _).
  exists position, trade.
  split; [reflexivity|]. split; [exact Htr|].
  assert (Hside : Trade.side trade = "buy"%string).
  { revert Htr. unfold close_position, close_position_with,
      simulate_order_execution.
    rewrite (py_div_nonzero _ _ Hvalue).
    cbn. intros Htr. apply app_inv_head in Htr.
    injection Htr as Htr. rewrite <- Htr. reflexivity. }
  split; [exact Hside|].
  assert (Heq : Trade.pnl trade
                == Config.investment_amount (config b)
                   * Config.leverage (config b) * Config.leverage (config b)
                   * (slippage_rate b * (u1 + u2) + 2 * spread_rate b)).
  { rewrite Hpnl, position_pnl_per_unit.
    cbn [position opened_position Position.side Position.entry_price
         Position.size Position.leverage String.eqb Ascii.eqb Bool.eqb].
    unfold entry, apply_slippage_and_spread, position_size.
    cbn [String.eqb Ascii.eqb Bool.eqb slippage_rate spread_rate opened_state
         set_total_fees set_positions].
    field. exact Hnz. }
  split; [exact Heq|]. rewrite Heq.
  assert (Ha : 0 < Config.investment_amount (config b)
                   * Config.leverage (config b))
    by (apply Qmult_lt_0_compat; assumption).
  assert (Hb : 0 < Config.investment_amount (config b)
                   * Config.leverage (config b) * Config.leverage (config b))
    by (apply Qmult_lt_0_compat; assumption).
  assert (Hc : 0 < slippage_rate b * (u1 + u2) + 2 * spread_rate b).
  { assert (E : slippage_rate b * (u1 + u2)
                == slippage_rate b * u1 + slippage_rate b * u2) by ring.
    rewrite E. lra. }
  apply Qmult_lt_0_compat; assumption.
Qed.

Lemma round_trip_at_one_price_books_a_gain_witness :
  exists (position : Position.t) (trade : Trade.t),
    positions (state_after (execute_trade 1 100 "buy" 0 None (tuned_bot 5)))
    = [position]
    /\ Trade.side trade = "buy"%string
    /\ 0 < Trade.pnl trade.
Proof.
  destruct (round_trip_at_one_price_books_a_gain 1 1 100 0 1 (tuned_bot 5) 0.02)
    as (position & trade & H1 & _ & H2 & _ & H3);
    try reflexivity; try discriminate.
  exists position, trade. split; [exact H1|]. split; [exact H2|exact H3].
Defined.

(** How far the balance is from start balance + realized PnL - sell fees
    - funding fees. *)
Definition ledger_gap (b : Bot) : Q :=
  current_balance b
  - (start_balance b + realized_pnl (trades b) - sell_fees (trades b)
     - funding_fees b).

Lemma run_op_keeps_ledger_gap (op : ledger_op) (b : Bot) :
  ledger_gap (run_op op b) == ledger_gap b
  /\ start_balance (run_op op b) = start_balance b.
Proof.
  unfold ledger_gap.
  destruct op as [u price side timestamp leverage
                 | u position price timestamp | timestamp]; cbn [run_op].
  - destruct (execute_trade_keeps_balance (simulate_order_execution u) price
                side timestamp leverage b) as (H1 & H2 & H3 & H4).
    unfold execute_trade. rewrite H1, H2, H3, H4. split; reflexivity.
  - unfold bind, close_position, close_position_with,
      simulate_order_execution, closed_message, raise, remove_position.
    destruct (py_div _ _) as [pct|e]; cbn -[realized_pnl sell_fees].
    + rewrite realized_pnl_app, sell_fees_app. cbn -[realized_pnl sell_fees].
      split; [ring|reflexivity].
    + split; reflexivity.
  - unfold apply_funding_fees.
    destruct (0 <? List.length (positions b))%nat;
      cbn -[realized_pnl sell_fees]; split; try reflexivity; ring.
Qed.

Lemma run_ops_keep_ledger_gap (ops : list ledger_op) :
  forall b : Bot,
    ledger_gap (run_ops ops b) == ledger_gap b
    /\ start_balance (run_ops ops b) = start_balance b.
Proof.
  induction ops as [|op ops IH]; intros b; cbn [run_ops fold_left].
  - split; reflexivity.
  - fold (run_ops ops (run_op op b)).
    destruct (IH (run_op op b)) as [I1 I2].
    destruct (run_op_keeps_ledger_gap op b) as [R1 R2].
    split; [rewrite I1; exact R1|rewrite I2; exact R2].
Qed.

(** X18.  [cmd_reset_stats] clears the trade history, [total_fees] and
    the liquidation counter and restarts the start balance, but leaves
    [funding_fees] as it is.  From then on, after any sequence of opens,
    closes and funding applications, the balance exceeds start balance +
    realized PnL - sell fees - funding fees by exactly the funding fees
    charged before the reset, and right after the reset
    [total_fees - funding_fees], the figure reported as trading fees, is
    minus those funding fees. *)
Theorem cmd_reset_stats_keeps_funding_fees :
  forall (b : Bot) (ops : list ledger_op),
    let b' := run_ops ops (cmd_reset_stats b) in
    current_balance b'
    == start_balance b' + realized_pnl (trades b') - sell_fees (trades b')
       - funding_fees b' + funding_fees b
    /\ start_balance b' = current_balance b
    /\ funding_fees (cmd_reset_stats b) = funding_fees b
    /\ trades (cmd_reset_stats b) = []
    /\ positions (cmd_reset_stats b) = positions b
    /\ total_fees (cmd_reset_stats b) - funding_fees (cmd_reset_stats b)
       == - funding_fees b.
Proof.
  intros b ops b'.
  destruct (run_ops_keep_ledger_gap ops (cmd_reset_stats b)) as [G S].
  fold b' in G, S.
  assert (G0 : ledger_gap (cmd_reset_stats b) == funding_fees b).
  { unfold ledger_gap, cmd_reset_stats. cbn. ring. }
  rewrite G0 in G. unfold ledger_gap in G.
  split; [|split; [exact S|repeat split; cbn; ring]].
  assert (E : current_balance b'
              == current_balance b'
                 - (start_balance b' + realized_pnl (trades b')
                    - sell_fees (trades b') - funding_fees b')
                 + (start_balance b' + realized_pnl (trades b')
                    - sell_fees (trades b') - funding_fees b')) by ring.
  rewrite E at 1. rewrite G. ring.
Qed.

Lemma bind_raise {A B : Type} (m : M A) (k : A -> M B) (b b1 : Bot) (e : exn) :
  m b = (Raise e, b1) -> bind m k b = (Raise e, b1).
Proof.
  intros H. unfold bind. rewrite H. reflexivity.
Qed.

Lemma close_position_always_raises
  (u : Q) (position : Position.t) (price : Q) (timestamp : Z) (b : Bot) :
  exists (e : exn) (b1 : Bot),
    close_position u position price timestamp b = (Raise e, b1)
    /\ (e = NameError \/ e = ZeroDivisionError)
    /\ positions b1 = positions b
    /\ (List.length (trades b1) <= List.length (trades b) + 1)%nat.
Proof.
  unfold close_position, close_position_with, simulate_order_execution,
    closed_message, raise, bind.
  destruct (py_div _ _) as [pct|e] eqn:E.
  - eexists. eexists. split; [reflexivity|]. cbn. rewrite length_app. cbn.
    split; [left; reflexivity|]. split; [reflexivity|lia].
  - eexists. eexists. split; [reflexivity|]. cbn.
    split; [|split; [reflexivity|lia]].
    right. unfold py_div in E. destruct (Qeq_bool _ _); congruence.
Qed.

(** X19.  [stop_live_trading] never removes a position: whatever the
    flag, the fetched price and the open set, the positions after it are
    the positions before it, and at most one trade has been added.  When
    it does reach the closing loop (trading was live, a position is open
    and a non-zero price was fetched) it raises out of the first
    [close_position], before [self.positions.remove] and before the final
    summary. *)
Theorem stop_live_trading_closes_nothing :
  forall (is_live_trading : bool) (fetched : option Q)
         (rand : nat -> Q) (now : nat -> Z) (b : Bot),
    positions (state_after
                 (stop_live_trading is_live_trading fetched rand now b))
    = positions b
    /\ (List.length
          (trades (state_after
                     (stop_live_trading is_live_trading fetched rand now b)))
        <= List.length (trades b) + 1)%nat
    /\ (forall current_price : Q,
          is_live_trading = true -> positions b <> [] ->
          fetched = Some current_price -> ~ current_price == 0 ->
          result_of (stop_live_trading is_live_trading fetched rand now b)
          = Raise NameError
          \/ result_of (stop_live_trading is_live_trading fetched rand now b)
             = Raise ZeroDivisionError).
Proof.
  intros is_live_trading fetched rand now b.
  assert (Hquiet : forall m : M unit,
             m b = (Return tt, b) ->
             exists o : outcome unit,
               (m ;; b0 <- get ;;
                lift (py_div (current_balance b0 - start_balance b0)
                             (start_balance b0)) ;;
                ret tt) b
               = (o, b)).
  { intros m Hm. unfold bind at 1. rewrite Hm.
    unfold bind, get, lift, ret.
    destruct (py_div _ _); eexists; reflexivity. }
  assert (Hloop : forall (p : Position.t) (rest : list Position.t)
                         (current_price : Q),
             exists (e : exn) (b1 : Bot),
               close_and_remove_each rand now (p :: rest) current_price 0 b
               = (Raise e, b1)
               /\ (e = NameError \/ e = ZeroDivisionError)
               /\ positions b1 = positions b
               /\ (List.length (trades b1)
                   <= List.length (trades b) + 1)%nat).
  { intros p rest current_price.
    destruct (close_position_always_raises (rand 0%nat) p current_price
                (now 0%nat) b) as (e & b1 & Hc & Hcase & Hpos & Hlen).
    exists e, b1. split; [|repeat split; assumption].
    cbn [close_and_remove_each]. apply bind_raise. exact Hc. }
  remember (stop_live_trading is_live_trading fetched rand now b) as run
    eqn:Hrun.
  unfold stop_live_trading in Hrun.
  destruct is_live_trading; cbn [negb] in Hrun.
  - unfold bind at 1 in Hrun. unfold get at 1 in Hrun.
    destruct (positions b) as [|p rest] eqn:Ep.
    + destruct (Hquiet (ret tt) eq_refl) as [o Ho].
      rewrite Ho in Hrun. subst run. cbn [state_after result_of fst snd].
      split; [exact Ep|]. split; [lia|].
      intros current_price _ C. congruence.
    + destruct fetched as [current_price|].
      * destruct (py_eq current_price 0) eqn:E0.
        -- destruct (Hquiet (ret tt) eq_refl) as [o Ho].
           rewrite Ho in Hrun. subst run. cbn [state_after result_of fst snd].
           split; [exact Ep|]. split; [lia|].
           intros c _ _ Hc Hnz. injection Hc as Hc. subst c.
           apply py_eq_true in E0. contradiction.
        -- destruct (Hloop p rest current_price)
             as (e & b1 & He & Hcase & Hpos & Hlen).
           rewrite (bind_raise _ _ b b1 e He) in Hrun. subst run.
           cbn [state_after result_of fst snd].
           split; [exact Hpos|]. split; [exact Hlen|].
           intros c _ _ _ _. destruct Hcase as [H|H]; subst e; auto.
      * destruct (Hquiet (ret tt) eq_refl) as [o Ho].
        rewrite Ho in Hrun. subst run. cbn [state_after result_of fst snd].
        split; [exact Ep|]. split; [lia|].
        intros c _ _ C. discriminate C.
  - subst run. cbn. split; [reflexivity|]. split; [lia|].
    intros c C. discriminate C.
Qed.

(** The ledger operations as the loops issue them: every open asks for
    the side 'buy'. *)
Definition opens_buy (op : ledger_op) : Prop :=
  match op with
  | Open _ _ side _ _ => side = "buy"%string
  | _ => True
  end.

Definition all_bought (b : Bot) : Prop :=
  Forall (fun p => Position.side p = "buy"%string) (positions b).

Lemma execute_trade_positions
  (simulate : simulator) (price : Q) (side : string) (timestamp : Z)
  (leverage : option Q) (b : Bot) :
  positions (state_after
               (execute_trade_with simulate price side timestamp leverage b))
  = positions b
  \/ exists position : Position.t,
       positions (state_after
                    (execute_trade_with simulate price side timestamp
                                        leverage b))
       = positions b ++ [position]
       /\ Position.side position = side.
Proof.
  unfold execute_trade_with.
  destruct (calculate_position_size b price) as [position_size|e];
    [|left; reflexivity].
  destruct (py_le position_size 0); [left; reflexivity|].
  destruct (simulate b price (String.eqb side "buy") position_size)
    as [executed_price|]; [|left; reflexivity].
  destruct (trailing_stop_pct b) as [tsp|]; [|left; reflexivity].
  right. eexists. unfold bind, opened_message, ret.
  cbn [grid_prices set_total_fees set_positions].
  destruct (grid_prices b); [destruct (py_eq executed_price 0)|];
    cbn; split; reflexivity.
Qed.

Lemma list_remove_keeps_sides (P : Position.t -> Prop) (x : Position.t) :
  forall l l' : list Position.t,
    Forall P l -> list_remove x l = Some l' -> Forall P l'.
Proof.
  induction l as [|y l IH]; intros l' HF H; [discriminate H|].
  inversion HF as [|z m Hy Hl]; subst. cbn in H.
  destruct (Position.eqb y x).
  - injection H as H. subst l'. exact Hl.
  - destruct (list_remove x l) as [r|]; [|discriminate H].
    injection H as H. subst l'. constructor; [exact Hy|].
    apply IH; [exact Hl|reflexivity].
Qed.

Lemma run_op_all_bought (op : ledger_op) (b : Bot) :
  opens_buy op -> all_bought b -> all_bought (run_op op b).
Proof.
  unfold all_bought. intros Hop Hb.
  destruct op as [u price side timestamp leverage
                 | u position price timestamp | timestamp]; cbn [run_op].
  - cbn in Hop. subst side. unfold execute_trade.
    destruct (execute_trade_positions (simulate_order_execution u) price
                "buy" timestamp leverage b) as [E|(p & E & Hs)]; rewrite E.
    + exact Hb.
    + apply Forall_app. split; [exact Hb|]. constructor; [exact Hs|constructor].
  - destruct (close_position_always_raises u position price timestamp b)
      as (e & b1 & Hc & _ & Hpos & _).
    rewrite (bind_raise _ _ b b1 e Hc). cbn [state_after snd].
    rewrite Hpos. exact Hb.
  - unfold apply_funding_fees.
    destruct (0 <? List.length (positions b))%nat; exact Hb.
Qed.

Lemma status_unrealized_pnl_bought (b : Bot) :
  all_bought b -> status_unrealized_pnl b = 0.
Proof.
  unfold all_bought, status_unrealized_pnl. intros Hb.
  destruct (positions b) as [|p rest] eqn:Ep; [reflexivity|].
  destruct (current_price b) as [price|]; [|reflexivity].
  destruct (py_eq price 0); [reflexivity|].
  revert Hb. generalize (p :: rest) as l. clear.
  induction l as [|x l IH]; intros HF; [reflexivity|].
  inversion HF as [|y m Hx Hl]; subst.
  cbn [fold_left]. rewrite Hx. cbn [String.eqb Ascii.eqb Bool.eqb].
  apply IH. exact Hl.
Qed.

(** X20.  The "Unrealized PnL" of the status summary adds something
    only for positions whose side is 'long' or 'short'.  The positions
    the loops open have the side 'buy', so after any sequence of such
    opens, closes and funding applications on a bot holding only bought
    positions the summary shows 0, at every price. *)
Theorem status_unrealized_pnl_is_zero :
  forall (ops : list ledger_op) (b : Bot) (price : option Q),
    Forall opens_buy ops -> all_bought b ->
    status_unrealized_pnl (set_current_price price (run_ops ops b)) = 0
    /\ all_bought (run_ops ops b).
Proof.
  intros ops b price Hops Hb.
  assert (H : all_bought (run_ops ops b)).
  { revert b Hb. induction ops as [|op ops IH]; intros b Hb;
      cbn [run_ops fold_left]; [exact Hb|].
    inversion Hops as [|o l Ho Hl]; subst.
    fold (run_ops ops (run_op op b)).
    apply (IH Hl). apply run_op_all_bought; assumption. }
  split; [|exact H]. apply status_unrealized_pnl_bought. exact H.
Qed.

Lemma status_unrealized_pnl_is_zero_witness :
  status_unrealized_pnl
    (set_current_price (Some 90)
       (run_ops [Open 1 100 "buy" 0 None] (tuned_bot 5)))
  = 0
  /\ List.length (positions (run_ops [Open 1 100 "buy" 0 None] (tuned_bot 5)))
     = 1%nat.
Proof.
  split; [|reflexivity].
  apply (status_unrealized_pnl_is_zero
           [Open 1 100 "buy" 0 None] (tuned_bot 5) (Some 90)).
  - repeat constructor.
  - constructor.
Defined.

Section OptimizerFacts.

Variables (R P : Type).
Variable total_return : R -> Q.

(** The results of the tests that did not fail, in test order. *)
Definition successes (tests : list (option R * P)) : list R :=
  flat_map (fun test => match fst test with
                        | Some r => [r]
                        | None => []
                        end) tests.

Lemma successes_app (xs ys : list (option R * P)) :
  successes (xs ++ ys) = successes xs ++ successes ys.
Proof.
  unfold successes. apply flat_map_app.
Qed.

Lemma run_tests_snoc (tests : list (option R * P)) (test : option R * P) :
  run_tests R P total_return (tests ++ [test])
  = match fst test with
    | Some r =>
        (fst (run_tests R P total_return tests) ++ [r],
         update_best_result R P total_return (Some r) (snd test)
                            (snd (run_tests R P total_return tests)))
    | None => run_tests R P total_return tests
    end.
Proof.
  unfold run_tests. rewrite fold_left_app. reflexivity.
Qed.

(** X21.  The test loop of [run_optimization]: [all_results] holds the
    results of the tests that did not fail, in test order; no best result
    is kept exactly when every test failed; otherwise the best result is
    the first test whose [total_return] is not exceeded by any other, so
    every successful test before it returned strictly less and none after
    it returned more. *)
Theorem run_tests_keeps_first_best :
  forall tests : list (option R * P),
    fst (run_tests R P total_return tests) = successes tests
    /\ (snd (run_tests R P total_return tests) = None <-> successes tests = [])
    /\ (forall (r : R) (p : P),
          snd (run_tests R P total_return tests) = Some (r, p) ->
          exists pre post : list (option R * P),
            tests = pre ++ (Some r, p) :: post
            /\ Forall (fun r' => total_return r' < total_return r)
                      (successes pre)
            /\ Forall (fun r' => total_return r' <= total_return r)
                      (successes post)).
Proof.
  induction tests as [|test tests IH] using rev_ind.
  - cbn. split; [reflexivity|]. split; [tauto|]. intros r p H. discriminate H.
  - destruct IH as (IH1 & IH2 & IH3).
    rewrite run_tests_snoc, successes_app.
    destruct test as [[r0|] p0]; cbn [fst snd].
    + cbn [successes flat_map fst app]. split; [rewrite IH1; reflexivity|].
      split.
      * split.
        -- unfold update_best_result.
           destruct (snd (run_tests R P total_return tests)) as [[rb pb]|];
             [destruct (py_lt _ _)|]; discriminate.
        -- intros C. destruct (successes tests); discriminate C.
      * intros r p H. unfold update_best_result in H.
        destruct (snd (run_tests R P total_return tests)) as [[rb pb]|] eqn:Eb.
        -- destruct (IH3 rb pb eq_refl) as (pre & post & Et & Hpre & Hpost).
           destruct (py_lt (total_return rb) (total_return r0)) eqn:Elt.
           ++ injection H as H1 H2. subst r p.
              apply py_lt_true in Elt.
              exists tests, []. split; [reflexivity|].
              split; [|constructor].
              rewrite Et, successes_app. cbn [successes flat_map fst app].
              fold (successes post).
              apply Forall_app. split.
              ** eapply Forall_impl; [|exact Hpre]. cbn. intros a Ha. lra.
              ** constructor; [exact Elt|].
                 eapply Forall_impl; [|exact Hpost]. cbn. intros a Ha. lra.
           ++ injection H as H1 H2. subst rb pb.
              apply py_lt_false in Elt.
              exists pre, (post ++ [(Some r0, p0)]).
              split; [rewrite Et, <- app_assoc; reflexivity|].
              split; [exact Hpre|].
              rewrite successes_app. apply Forall_app. split; [exact Hpost|].
              cbn. constructor; [exact Elt|constructor].
        -- injection H as H1 H2. subst r p.
           exists tests, []. split; [reflexivity|].
           split; [|constructor].
           rewrite (proj1 IH2 eq_refl). constructor.
    + cbn [successes flat_map fst app]. rewrite app_nil_r.
      split; [exact IH1|]. split; [exact IH2|].
      intros r p H.
      destruct (IH3 r p H) as (pre & post & Et & Hpre & Hpost).
      exists pre, (post ++ [(None, p0)]).
      split; [rewrite Et, <- app_assoc; reflexivity|].
      split; [exact Hpre|].
      rewrite successes_app. cbn. rewrite app_nil_r. exact Hpost.
Qed.

End OptimizerFacts.

Section BarLoop.

(** The state the bar loop starts from. *)
Variable b0 : Bot.

(** No trade recorded since [b0], only bought positions open, and the
    balance moved by nothing but funding fees. *)
Definition steady (b : Bot) : Prop :=
  trades b = trades b0
  /\ all_bought b
  /\ current_balance b + funding_fees b
     == current_balance b0 + funding_fees b0.

Definition keeps {A : Type} (m : M A) : Prop :=
  forall b : Bot, steady b -> steady (state_after (m b)).

Lemma keeps_ret {A : Type} (a : A) : keeps (ret a).
Proof. intros b H. exact H. Qed.

Lemma keeps_raise {A : Type} (e : exn) : keeps (@raise A e).
Proof. intros b H. exact H. Qed.

Lemma keeps_lift {A : Type} (o : outcome A) : keeps (lift o).
Proof. intros b H. exact H. Qed.

Lemma keeps_bind {A B : Type} (m : M A) (k : A -> M B) :
  keeps m -> (forall a, keeps (k a)) -> keeps (bind m k).
Proof.
  intros Hm Hk b H. unfold bind. specialize (Hm b H).
  unfold state_after in *. destruct (m b) as [[a|e] b1]; cbn [snd] in *.
  - apply Hk. exact Hm.
  - exact Hm.
Qed.

Lemma keeps_get_bind {B : Type} (k : Bot -> M B) :
  (forall b, steady b -> steady (state_after (k b b))) -> keeps (bind get k).
Proof.
  intros Hk b H. unfold bind, get. apply Hk. exact H.
Qed.

Lemma keeps_apply_funding_fees (timestamp : Z) :
  keeps (apply_funding_fees timestamp).
Proof.
  intros b (H1 & H2 & H3). unfold apply_funding_fees.
  destruct (0 <? List.length (positions b))%nat; [|repeat split; assumption].
  unfold steady, all_bought. cbn.
  split; [exact H1|]. split; [exact H2|]. rewrite <- H3. ring.
Qed.

Lemma keeps_count_liquidation :
  keeps (modify (fun b =>
                   set_liquidated_positions (liquidated_positions b + 1) b)).
Proof.
  intros b H. exact H.
Qed.

Lemma keeps_liquidation_scan (current_price : Q) (ps : list Position.t) :
  keeps (liquidation_scan current_price ps).
Proof.
  induction ps as [|p rest IH]; cbn [liquidation_scan].
  - apply keeps_ret.
  - apply keeps_get_bind. intros b Hb.
    apply keeps_bind; [apply keeps_lift| |exact Hb].
    intros [|].
    + apply keeps_bind; [apply keeps_count_liquidation|]. intros _.
      apply keeps_bind; [exact IH|]. intros l. apply keeps_ret.
    + exact IH.
Qed.

Lemma keeps_remove_position (position : Position.t) :
  keeps (remove_position position).
Proof.
  intros b (H1 & H2 & H3). unfold remove_position.
  destruct (list_remove position (positions b)) as [l|] eqn:E;
    [|repeat split; assumption].
  split; [exact H1|]. split; [|exact H3].
  unfold all_bought in *. cbn.
  exact (list_remove_keeps_sides _ position (positions b) l H2 E).
Qed.

Lemma keeps_remove_each (ps : list Position.t) : keeps (remove_each ps).
Proof.
  induction ps as [|p rest IH]; cbn [remove_each].
  - apply keeps_ret.
  - apply keeps_bind; [apply keeps_remove_position|]. intros _. exact IH.
Qed.

Lemma keeps_execute_trade_buy
  (u price : Q) (timestamp : Z) (leverage : option Q) :
  keeps (execute_trade u price "buy" timestamp leverage).
Proof.
  intros b (H1 & H2 & H3). unfold execute_trade.
  destruct (execute_trade_keeps_balance (simulate_order_execution u) price
              "buy" timestamp leverage b) as (E1 & _ & E3 & E4).
  unfold steady. rewrite E1, E3, E4.
  split; [exact H1|]. split; [|exact H3].
  unfold all_bought in *.
  destruct (execute_trade_positions (simulate_order_execution u) price
              "buy" timestamp leverage b) as [E|(p & E & Hs)]; rewrite E.
  - exact H2.
  - apply Forall_app. split; [exact H2|]. constructor; [exact Hs|constructor].
Qed.

Lemma find_long_among_bought (grid_price : Q) (b : Bot) :
  all_bought b ->
  find (fun p => py_eq (Position.entry_price p) grid_price
                 && String.eqb (Position.side p) "long")
       (positions b)
  = None.
Proof.
  unfold all_bought. induction (positions b) as [|p l IH]; intros H;
    [reflexivity|].
  inversion H as [|x m Hp Hl]; subst. cbn [find]. rewrite Hp.
  cbn [String.eqb Ascii.eqb Bool.eqb]. rewrite andb_false_r.
  apply IH. exact Hl.
Qed.

Lemma keeps_grid_level
  (rand : nat -> Q) (current_price : Q) (timestamp : Z) (grid_price : Q)
  (k : nat) :
  keeps (grid_level rand current_price timestamp grid_price k).
Proof.
  unfold grid_level. apply keeps_get_bind. intros b Hb.
  destruct (py_le current_price grid_price && _).
  - destruct (py_lt _ _).
    + apply keeps_bind; [apply keeps_execute_trade_buy| |exact Hb].
      intros _. apply keeps_ret.
    + exact Hb.
  - destruct (py_le grid_price current_price); [|exact Hb].
    rewrite (find_long_among_bought grid_price b (proj1 (proj2 Hb))).
    exact Hb.
Qed.

Lemma keeps_grid_trading
  (rand : nat -> Q) (current_price : Q) (timestamp : Z) (levels : list Q) :
  forall k : nat, keeps (grid_trading rand current_price timestamp levels k).
Proof.
  induction levels as [|grid_price rest IH]; intros k; cbn [grid_trading].
  - apply keeps_ret.
  - apply keeps_bind; [apply keeps_grid_level|]. intros k'. apply IH.
Qed.

Lemma keeps_process_bar (rand : nat -> Q) (i : Z) (row : Bar) (k : nat) :
  keeps (process_bar rand i row k).
Proof.
  unfold process_bar. apply keeps_bind.
  - destruct (Z.eqb (i mod 480) 0);
      [apply keeps_apply_funding_fees|apply keeps_ret].
  - intros _. apply keeps_get_bind. intros b Hb.
    apply keeps_bind; [apply keeps_liquidation_scan| |exact Hb].
    intros ps. apply keeps_bind; [apply keeps_remove_each|].
    intros _. apply keeps_get_bind. intros b1 Hb1.
    destruct (grid_prices b1) as [levels|]; [|exact Hb1].
    apply keeps_grid_trading. exact Hb1.
Qed.

Lemma keeps_process_bars (rand : nat -> Q) (data : list Bar) :
  forall (i : Z) (k : nat), keeps (process_bars rand i data k).
Proof.
  induction data as [|row rest IH]; intros i k; cbn [process_bars].
  - apply keeps_ret.
  - apply keeps_bind; [apply keeps_process_bar|]. intros k'. apply IH.
Qed.

End BarLoop.

(** X22.  The bar loop of [run_backtest] never sells: its sell branch
    looks for a position whose side is 'long', and the positions it opens
    have the side 'buy'.  From a bot holding only bought positions, over
    any bars and draws, whether the loop finishes or raises, no trade is
    recorded, the open positions are still bought ones, and the balance
    has moved by exactly the funding fees charged. *)
Theorem bar_loop_never_sells :
  forall (rand : nat -> Q) (i : Z) (data : list Bar) (k : nat) (b : Bot),
    all_bought b ->
    trades (state_after (process_bars rand i data k b)) = trades b
    /\ all_bought (state_after (process_bars rand i data k b))
    /\ current_balance (state_after (process_bars rand i data k b))
       == current_balance b
          - (funding_fees (state_after (process_bars rand i data k b))
             - funding_fees b).
Proof.
  intros rand i data k b Hb.
  destruct (keeps_process_bars b rand data i k b) as (H1 & H2 & H3).
  - split; [reflexivity|]. split; [exact Hb|reflexivity].
  - split; [exact H1|]. split; [exact H2|].
    assert (E : forall x y z w : Q, x + y == z + w -> x == z - (y - w))
      by (intros x y z w H; lra).
    apply E. exact H3.
Qed.

Lemma bar_loop_never_sells_witness :
  trades (state_after
            (process_bars unit_draws 0 (flat_bars 2 0) 0
                          (set_grid_prices (Some [100]) (tuned_bot 3))))
  = [].
Proof.
  apply (bar_loop_never_sells unit_draws 0 (flat_bars 2 0) 0
           (set_grid_prices (Some [100]) (tuned_bot 3))).
  constructor.
Defined.

Lemma close_remaining_returns_only_when_flat
  (rand : nat -> Q) (data : list Bar) (k : nat) (b : Bot) :
  (positions b = [] /\ close_remaining rand data k b = (Return k, b))
  \/ (positions b <> []
      /\ exists (e : exn) (b1 : Bot),
           close_remaining rand data k b = (Raise e, b1)).
Proof.
  unfold close_remaining, bind, get. cbv beta iota.
  destruct (positions b) as [|p rest] eqn:Ep.
  - left. split; reflexivity.
  - right. split; [discriminate|].
    destruct (rev data) as [|row rows].
    + eexists. eexists. reflexivity.
    + destruct (close_position_always_raises (rand k) p (bar_close row)
                  (bar_timestamp row) b) as (e & b1 & Hc & _).
      exists e, b1. cbn [close_each]. apply bind_raise. exact Hc.
Qed.

(** X23.  A backtest that returns has nothing to report: started
    without recorded trades on a bot holding at most bought positions,
    [run_backtest] reaches its metrics only with no position left and no
    trade recorded, the balance down by exactly the funding fees charged,
    so the metrics count 0 trades and 0 winners and give a win rate of 0,
    whatever the data and the draws. *)
Theorem completed_backtest_reports_no_trades :
  forall (feed : PriceFeed) (rand : nat -> Q) (data : list Bar) (b : Bot),
    all_bought b -> trades b = [] ->
    result_of (run_backtest feed rand data b) = Return tt ->
    positions (state_after (run_backtest feed rand data b)) = []
    /\ trades (state_after (run_backtest feed rand data b)) = []
    /\ current_balance (state_after (run_backtest feed rand data b))
       == current_balance b
          - (funding_fees (state_after (run_backtest feed rand data b))
             - funding_fees b)
    /\ (forall (max_balance min_balance : Q) (results : Results),
          backtest_results (current_balance b) max_balance min_balance
                           (state_after (run_backtest feed rand data b))
          = Return results ->
          res_total_trades results = 0%nat
          /\ res_win_trades results = 0%nat
          /\ res_win_rate results = 0).
Proof.
  intros feed rand data b Hb Ht Hret.
  destruct (auto_set_grid_range_bounds feed (config b)) as (lo & hi & E).
  pose proof (calculate_grid_prices_unfold feed b lo hi E) as Hc.
  remember (run_backtest feed rand data b) as run eqn:Hrun.
  unfold run_backtest in Hrun. unfold bind at 1 in Hrun.
  rewrite Hc in Hrun.
  destruct (levels_between lo hi (Config.grid_count (config b)))
    as [levels|e]; [|subst run; discriminate Hret].
  unfold bind at 1 in Hrun. unfold modify at 1 in Hrun.
  set (b2 := set_grid_prices (Some levels)
               (set_config (Config.set_grid_range lo hi (config b)) b))
    in Hrun.
  assert (H2 : steady b b2).
  { split; [reflexivity|]. split; [exact Hb|reflexivity]. }
  pose proof (keeps_process_bars b rand data 0%Z 0%nat b2 H2) as H3.
  unfold bind at 1 in Hrun. unfold state_after in H3.
  destruct (process_bars rand 0%Z data 0%nat b2) as [[k|e] b3];
    cbn [snd] in H3; [|subst run; discriminate Hret].
  unfold bind at 1 in Hrun.
  destruct (close_remaining_returns_only_when_flat rand data k b3)
    as [[Hflat Hc3]|[_ (e & b4 & Hc3)]]; rewrite Hc3 in Hrun;
    [|subst run; discriminate Hret].
  unfold ret in Hrun. subst run. cbn [state_after snd].
  destruct H3 as (S1 & S2 & S3).
  split; [exact Hflat|]. split; [rewrite S1; exact Ht|]. split.
  - assert (Eq : forall x y z w : Q, x + y == z + w -> x == z - (y - w))
      by (intros x y z w H; lra).
    apply Eq. exact S3.
  - intros max_balance min_balance results Hres.
    unfold backtest_results in Hres.
    destruct (py_div _ _) as [ratio|]; [|discriminate Hres].
    destruct (py_div _ _) as [range|]; [|discriminate Hres].
    rewrite S1, Ht in Hres. cbn in Hres.
    injection Hres as Hres. subst results. cbn. repeat split.
Qed.

Lemma completed_backtest_reports_no_trades_witness :
  trades (state_after
            (run_backtest (Historical 100 0.02) unit_draws [mkBar 0 200]
                          (tuned_bot 3)))
  = []
  /\ positions (state_after
                  (run_backtest (Historical 100 0.02) unit_draws [mkBar 0 200]
                                (tuned_bot 3)))
     = [].
Proof.
  destruct (completed_backtest_reports_no_trades
              (Historical 100 0.02) unit_draws [mkBar 0 200] (tuned_bot 3))
    as (H1 & H2 & _).
  - constructor.
  - reflexivity.
  - vm_compute. reflexivity.
  - split; [exact H2|exact H1].
Defined.
